(** * Data-Analyzer: a shallow embedding of [DataAnalyzer.py]

    The script loads a table with pandas, cleans it (missing values,
    IQR outliers, duplicates, string normalisation), runs an interactive
    menu, and reports statistics.  This development embeds the script at two
    levels:

    - a value level, where a DataFrame is an immutable value and every pandas
      call is a function on such values;
    - an object level, where DataFrames live in a store of mutable objects,
      names are bound to locations, and the script's functions are programs
      over the store, the console and the file system.

    Conventions of the embedding:
    - a Python [str] is a [string] whose characters are read as the code
      points U+0000..U+00FF;
    - a numeric cell is an [option Q]: [None] is NaN and [Some v] is the
      value the cell holds, an int64 or a finite float64 (infinite cells are
      outside the embedding); a numeric column carries its dtype;
    - what pandas and numpy compute from the cells (quantiles, the outlier
      bounds, the comparisons with them) is computed in IEEE 754 binary64,
      on the Standard Library's [SpecFloat];
    - a cell of an object column is an [option string]: [None] is a missing
      value;
    - a column is of a numeric dtype (int64, float64) or of dtype object
      holding [str]; other dtypes are outside the embedding;
    - what the files hold, and what seaborn does with a frame and two of its
      columns, is given from outside. *)

From Stdlib Require Import QArith Qround String Ascii Bool Lia.
From Stdlib Require SpecFloat.
From stdpp Require Import list.

Local Open Scope string_scope.

(* ================================================================= *)
(** ** Characters and the [str] methods used by the script *)

Module Str.

Definition code (c : ascii) : N := N_of_ascii c.

Definition in_range (lo hi : N) (c : ascii) : bool :=
  ((lo <=? code c) && (code c <=? hi))%N.

(** [str.isspace] on one character, which is also the regex class [\s] of a
    [str] pattern: TAB..CR, FS..US, SPACE, NEL and NBSP. *)
Definition isspace (c : ascii) : bool :=
  in_range 9 13 c || in_range 28 32 c
  || (code c =? 133)%N || (code c =? 160)%N.

(** Characters that [str.lower] changes: A-Z, and in the upper half
    U+00C0..U+00DE without the multiplication sign U+00D7. *)
Definition isupper (c : ascii) : bool :=
  in_range 65 90 c || in_range 192 214 c || in_range 216 222 c.

Definition lower_char (c : ascii) : ascii :=
  if isupper c then ascii_of_N (code c + 32) else c.

(** The characters the pattern [[^a-zA-Z0-9\s]] does not match. *)
Definition in_class (c : ascii) : bool :=
  in_range 97 122 c || in_range 65 90 c || in_range 48 57 c || isspace c.

Fixpoint lstrip_chars (l : list ascii) : list ascii :=
  match l with
  | [] => []
  | c :: t => if isspace c then lstrip_chars t else l
  end.

Fixpoint rstrip_chars (l : list ascii) : list ascii :=
  match l with
  | [] => []
  | c :: t =>
      match rstrip_chars t with
      | [] => if isspace c then [] else [c]
      | t' => c :: t'
      end
  end.

(** A list of characters that does not start with whitespace. *)
Definition starts_clean (l : list ascii) : Prop :=
  match l with
  | [] => True
  | c :: _ => isspace c = false
  end.

Definition on_chars (f : list ascii -> list ascii) (s : string) : string :=
  string_of_list_ascii (f (list_ascii_of_string s)).

(** [s.lower()] *)
Definition lower (s : string) : string := on_chars (map lower_char) s.

(** [s.strip()] *)
Definition strip (s : string) : string :=
  on_chars (fun l => rstrip_chars (lstrip_chars l)) s.

(** [re.sub('[^a-zA-Z0-9\s]', '', s)] *)
Definition remove_special (s : string) : string :=
  on_chars (List.filter in_class) s.

(** [needle in s] *)
Fixpoint is_prefix (p l : list ascii) : bool :=
  match p, l with
  | [], _ => true
  | _ :: _, [] => false
  | a :: p', b :: l' => Ascii.eqb a b && is_prefix p' l'
  end.

Fixpoint contains_chars (p l : list ascii) : bool :=
  is_prefix p l ||
  match l with
  | [] => false
  | _ :: l' => contains_chars p l'
  end.

Definition contains (needle s : string) : bool :=
  contains_chars (list_ascii_of_string needle) (list_ascii_of_string s).

End Str.

(* ================================================================= *)
(** ** [clean_strings] on one value *)

(** The three steps of [clean_strings], on one string element of the
    column. *)
Definition clean_string (s : string) : string :=
  let s := Str.lower s in
  let s := Str.strip s in
  Str.remove_special s.

(** [clean_strings(column)]: the [.str] accessor maps over the elements and
    leaves a missing element missing. *)
Definition clean_strings (column : list (option string)) : list (option string) :=
  let column := map (option_map Str.lower) column in
  let column := map (option_map Str.strip) column in
  map (option_map Str.remove_special) column.

(* ================================================================= *)
(** ** Numbers: cells, float64 arithmetic and [Series.quantile] *)

Module Num.

Local Open Scope Q_scope.

(** A numeric cell, by its value: [None] is NaN, [Some v] is the number the
    cell holds (an int64, or a finite float64). *)
Definition number := option Q.

(** The dtype of a numeric column. *)
Inductive dtype : Type := Int64 | Float64.

(** *** binary64

    Whatever pandas and numpy compute from a column is a float64: a value of
    [SpecFloat.spec_float] (signed zeros, infinities, NaN and the finite
    numbers [m * 2^e]) under the operations of IEEE 754 binary64, rounding
    to nearest, ties to even. *)
Definition float64 : Type := SpecFloat.spec_float.

Definition prec : Z := 53.
Definition emax : Z := 1024.

Definition nan : float64 := SpecFloat.S754_nan.

Definition fadd : float64 -> float64 -> float64 := SpecFloat.SFadd prec emax.
Definition fsub : float64 -> float64 -> float64 := SpecFloat.SFsub prec emax.
Definition fmul : float64 -> float64 -> float64 := SpecFloat.SFmul prec emax.
Definition fdiv : float64 -> float64 -> float64 := SpecFloat.SFdiv prec emax.

(** [x <= y] on floats: false when either side is NaN. *)
Definition fle : float64 -> float64 -> bool := SpecFloat.SFleb.

(** The float64 nearest to an integer: what a cast from int64 gives. *)
Definition of_Z (z : Z) : float64 :=
  SpecFloat.binary_normalize prec emax z 0 false.

(** The float64 nearest to a rational.  The value of a float64 cell is a
    dyadic rational [n / 2^k] and is its own nearest float64; the value of
    an int64 cell is rounded as by the cast.  (For a rational that is
    neither, which no cell holds, the quotient of the two casts is
    taken.) *)
Definition of_Q (q : Q) : float64 :=
  let d := Zpos (Qden q) in
  let k := Z.log2 d in
  if (d =? 2 ^ k)%Z
  then SpecFloat.binary_normalize prec emax (Qnum q) (- k) false
  else fdiv (of_Z (Qnum q)) (of_Z d).

(** A cell as numpy sees it in a float64 operation. *)
Definition of_number (x : number) : float64 :=
  match x with
  | Some v => of_Q v
  | None => nan
  end.

(** The number a finite float64 stands for. *)
Definition to_Q (f : float64) : option Q :=
  match f with
  | SpecFloat.S754_zero _ => Some 0
  | SpecFloat.S754_finite s m e =>
      let n := if s then Zneg m else Zpos m in
      Some (match e with
            | Zneg p => n # (2 ^ p)%positive
            | _ => inject_Z (n * 2 ^ e)
            end)
  | _ => None
  end.

(** [np.floor] of a finite float64, as an integer. *)
Definition floor (f : float64) : Z :=
  match to_Q f with
  | Some v => Qfloor v
  | None => 0%Z
  end.

(** The literals of the script and of the libraries. *)
Definition f0_25 : float64 := of_Q (1 # 4).
Definition f0_5 : float64 := of_Q (1 # 2).
Definition f0_75 : float64 := of_Q (3 # 4).
Definition f1_5 : float64 := of_Q (3 # 2).
Definition f1 : float64 := of_Z 1.
Definition f100 : float64 := of_Z 100.

(** *** Cells *)

(** [x < y] on the values of two cells; false when either is NaN. *)
Definition lt (x y : number) : bool :=
  match x, y with
  | Some a, Some b => negb (Qle_bool b a)
  | _, _ => false
  end.

(** The values of a column that are not NaN, in order. *)
Fixpoint present (vals : list number) : list Q :=
  match vals with
  | [] => []
  | Some v :: t => v :: present t
  | None :: t => present t
  end.

Fixpoint insert_sorted (x : Q) (l : list Q) : list Q :=
  match l with
  | [] => [x]
  | y :: t => if Qle_bool x y then x :: l else y :: insert_sorted x t
  end.

Definition sort (l : list Q) : list Q := fold_right insert_sorted [] l.

(** int64 arithmetic wraps around. *)
Definition wrap64 (z : Z) : Z := ((z + 2 ^ 63) mod 2 ^ 64 - 2 ^ 63)%Z.

(** *** [Series.quantile]

    pandas hands the values that are not NaN, in the dtype of the column, to
    [np.percentile], which interpolates with [_lerp]. *)

(** [subtract(b, a)] on two values of the column: in int64 for an int64
    column, in float64 for a float64 column. *)
Definition diff (dt : dtype) (a b : Q) : float64 :=
  match dt with
  | Int64 => of_Z (wrap64 (Qfloor b - Qfloor a))
  | Float64 => fsub (of_Q b) (of_Q a)
  end.

(** numpy's [_lerp]: [a + (b - a) * t], and [b - (b - a) * (1 - t)] where
    [t >= 0.5]; the sums and products are float64 operations. *)
Definition lerp (dt : dtype) (a b : Q) (t : float64) : float64 :=
  let diff_b_a := diff dt a b in
  if fle f0_5 t
  then fsub (of_Q b) (fmul diff_b_a (fsub f1 t))
  else fadd (of_Q a) (fmul diff_b_a t).

(** [vals.quantile(q)] with the default linear interpolation, for
    [0 <= q <= 1].  NaN values are skipped and an empty selection gives NaN.
    pandas passes [q * 100.0] to [np.percentile], which divides by 100; the
    virtual index is [(n - 1) * q]; when it reaches [n - 1] both neighbours
    are the last value (index [-1]), otherwise they are the values at its
    floor and the place after. *)
Definition quantile (dt : dtype) (vals : list number) (q : float64) : float64 :=
  let xs := sort (present vals) in
  match xs with
  | [] => nan
  | x0 :: _ =>
      let n := Z.of_nat (length xs) in
      let q := fdiv (fmul q f100) f100 in
      let virtual := fmul (of_Z (n - 1)) q in
      if fle (of_Z (n - 1)) virtual then
        let last := nth (length xs - 1) xs x0 in
        lerp dt last last (fsub virtual (of_Z (-1)))
      else
        let previous := floor virtual in
        let gamma := fsub virtual (of_Z previous) in
        lerp dt (nth (Z.to_nat previous) xs x0)
                (nth (Z.to_nat (previous + 1)) xs x0) gamma
  end.

(** Lines 23-29 of [remove_outliers]: the outlier boundaries of a column. *)
Definition outlier_bounds (dt : dtype) (vals : list number)
  : float64 * float64 :=
  let Q1 := quantile dt vals f0_25 in
  let Q3 := quantile dt vals f0_75 in
  let IQR := fsub Q3 Q1 in
  let lower_bound := fsub Q1 (fmul f1_5 IQR) in
  let upper_bound := fadd Q3 (fmul f1_5 IQR) in
  (lower_bound, upper_bound).

(** [(vals >= lower_bound) & (vals <= upper_bound)], elementwise: the
    cells are compared as float64, an int64 cell after its cast. *)
Definition between_mask (vals : list number) (bounds : float64 * float64)
  : list bool :=
  map (fun x => fle (fst bounds) (of_number x) && fle (of_number x) (snd bounds))
      vals.

(** [0 if x < 0 else x] *)
Definition zero_if_negative (x : number) : number :=
  if lt x (Some 0) then Some 0 else x.

(** The dtype of [col.apply(lambda x: 0 if x < 0 else x)].  The cells of a
    float64 column reach the lambda as Python floats and the zeros it
    returns are Python ints: the result is int64 when every cell became
    such a zero, and float64 otherwise.  An empty column keeps its dtype. *)
Definition apply_dtype (dt : dtype) (vals : list number) : dtype :=
  match dt, vals with
  | Int64, _ => Int64
  | Float64, [] => Float64
  | Float64, _ :: _ =>
      if forallb (fun x => lt x (Some 0)) vals then Int64 else Float64
  end.

(** A value lies within a pair of bounds as the script tests it: it is no
    NaN, and as a float64 it is at least the lower and at most the upper
    bound. *)
Definition within (bounds : float64 * float64) (x : number) : Prop :=
  exists v : Q,
    x = Some v /\
    fle (fst bounds) (of_Q v) = true /\ fle (of_Q v) (snd bounds) = true.

End Num.

(* ================================================================= *)
(** ** The bounds as the specification writes them

    [Q1 - 1.5 * IQR] and [Q3 + 1.5 * IQR] read as a formula on numbers, in
    exact arithmetic, with the same linear interpolation between order
    statistics.  These are not what the script computes ([Num.outlier_bounds]
    is); they are what its results are compared with. *)

Module Exact.

Local Open Scope Q_scope.

Definition lerp (a b t : Q) : Q := a + (b - a) * t.

Definition quantile (vals : list Num.number) (q : Q) : option Q :=
  let xs := Num.sort (Num.present vals) in
  match xs with
  | [] => None
  | x0 :: _ =>
      let n := length xs in
      let virtual := inject_Z (Z.of_nat n - 1) * q in
      let previous := Z.to_nat (Qfloor virtual) in
      let next := Nat.min (previous + 1) (n - 1) in
      let gamma := virtual - inject_Z (Qfloor virtual) in
      Some (lerp (nth previous xs x0) (nth next xs x0) gamma)
  end.

Definition outlier_bounds (vals : list Num.number) : option (Q * Q) :=
  match quantile vals (1 # 4), quantile vals (3 # 4) with
  | Some Q1, Some Q3 =>
      let IQR := Q3 - Q1 in
      Some (Q1 - (3 # 2) * IQR, Q3 + (3 # 2) * IQR)
  | _, _ => None
  end.

End Exact.

(* ================================================================= *)
(** ** DataFrames as values *)

Inductive column : Type :=
| NumCol (dt : Num.dtype) (vals : list Num.number)   (* int64 or float64 *)
| ObjCol (vals : list (option string)).    (* dtype object, holding str *)

(** A DataFrame: the row labels and the named columns, in order. *)
Record DataFrame : Type := mkDataFrame {
  index : list Z;
  data : list (string * column)
}.

Module DF.

Definition col_length (c : column) : nat :=
  match c with
  | NumCol dt vals => length vals
  | ObjCol vals => length vals
  end.

(** [df.columns] *)
Definition columns (df : DataFrame) : list string := map fst (data df).

(** [df.shape[0]] *)
Definition shape0 (df : DataFrame) : nat := length (index df).

(** The invariant of a DataFrame: unique column names, and every column as
    long as the index. *)
Definition wf (df : DataFrame) : Prop :=
  List.NoDup (columns df) /\
  Forall (fun nc => col_length (snd nc) = shape0 df) (data df).

(** [pd.api.types.is_numeric_dtype(col)] *)
Definition is_numeric_dtype (c : column) : bool :=
  match c with
  | NumCol _ _ => true
  | ObjCol _ => false
  end.

(** [col.dtype == 'object'] *)
Definition is_object_dtype (c : column) : bool :=
  match c with
  | NumCol _ _ => false
  | ObjCol _ => true
  end.

Fixpoint assoc (name : string) (l : list (string * column)) : option column :=
  match l with
  | [] => None
  | (n, c) :: t => if String.eqb n name then Some c else assoc name t
  end.

(** [df[name]]; [None] stands for the KeyError. *)
Definition getitem (df : DataFrame) (name : string) : option column :=
  assoc name (data df).

Fixpoint replace_col (name : string) (c : column) (l : list (string * column))
  : list (string * column) :=
  match l with
  | [] => [(name, c)]
  | (n, c') :: t =>
      if String.eqb n name then (n, c) :: t else (n, c') :: replace_col name c t
  end.

(** The frame after [df[name] = c]: an existing column is replaced in its
    place, a new one is appended. *)
Definition setitem (df : DataFrame) (name : string) (c : column) : DataFrame :=
  mkDataFrame (index df) (replace_col name c (data df)).

(** Boolean selection of the positions where the mask is true. *)
Fixpoint select {A : Type} (mask : list bool) (l : list A) : list A :=
  match mask, l with
  | b :: mask', x :: l' => if b then x :: select mask' l' else select mask' l'
  | _, _ => []
  end.

Definition select_col (mask : list bool) (c : column) : column :=
  match c with
  | NumCol dt vals => NumCol dt (select mask vals)
  | ObjCol vals => ObjCol (select mask vals)
  end.

(** [df[mask]] for a boolean mask over the rows of [df]. *)
Definition getitem_mask (df : DataFrame) (mask : list bool) : DataFrame :=
  mkDataFrame (select mask (index df))
              (map (fun nc => (fst nc, select_col mask (snd nc))) (data df)).

(** [df.drop(name, axis=1)]; [None] stands for the KeyError raised when no
    column has that name. *)
Definition drop (df : DataFrame) (name : string) : option DataFrame :=
  if existsb (String.eqb name) (columns df)
  then Some (mkDataFrame (index df)
               (List.filter (fun nc => negb (String.eqb (fst nc) name)) (data df)))
  else None.

(** [col.notna()] *)
Definition notna (c : column) : list bool :=
  match c with
  | NumCol dt vals => map (fun x => match x with Some _ => true | None => false end) vals
  | ObjCol vals => map (fun x => match x with Some _ => true | None => false end) vals
  end.

Fixpoint and_masks (m1 m2 : list bool) : list bool :=
  match m1, m2 with
  | a :: m1', b :: m2' => (a && b) :: and_masks m1' m2'
  | _, _ => []
  end.

(** Where the mask [m] is true, the mask [n] is true. *)
Fixpoint covered (m n : list bool) : Prop :=
  match m, n with
  | [], _ => True
  | a :: m', b :: n' => (a = true -> b = true) /\ covered m' n'
  | _ :: _, [] => False
  end.

(** [df.dropna()]: keep the rows with no missing value in any column. *)
Definition dropna (df : DataFrame) : DataFrame :=
  let complete :=
    fold_right (fun nc m => and_masks (notna (snd nc)) m)
               (repeat true (shape0 df)) (data df) in
  getitem_mask df complete.

(** One cell of a row. *)
Inductive cell : Type :=
| NumCell (x : Num.number)
| ObjCell (s : option string)
| NoCell.

Definition cell_at (c : column) (i : nat) : cell :=
  match c with
  | NumCol dt vals => match nth_error vals i with Some x => NumCell x | None => NoCell end
  | ObjCol vals => match nth_error vals i with Some s => ObjCell s | None => NoCell end
  end.

(** Equality of cells as [duplicated] sees it: missing values are equal to
    each other. *)
Definition cell_eqb (a b : cell) : bool :=
  match a, b with
  | NumCell (Some x), NumCell (Some y) => Qeq_bool x y
  | NumCell None, NumCell None => true
  | ObjCell (Some s), ObjCell (Some t) => String.eqb s t
  | ObjCell None, ObjCell None => true
  | NoCell, NoCell => true
  | _, _ => false
  end.

Definition row (df : DataFrame) (i : nat) : list cell :=
  map (fun nc => cell_at (snd nc) i) (data df).

Definition rows (df : DataFrame) : list (list cell) :=
  map (row df) (seq 0 (shape0 df)).

Fixpoint row_eqb (r1 r2 : list cell) : bool :=
  match r1, r2 with
  | [], [] => true
  | a :: r1', b :: r2' => cell_eqb a b && row_eqb r1' r2'
  | _, _ => false
  end.

(** [df.duplicated()]: a row is marked when an earlier row equals it. *)
Fixpoint duplicated_from (seen rest : list (list cell)) : list bool :=
  match rest with
  | [] => []
  | r :: rest' => existsb (row_eqb r) seen :: duplicated_from (r :: seen) rest'
  end.

Definition duplicated (df : DataFrame) : list bool := duplicated_from [] (rows df).

(** [df.drop_duplicates()]: the first occurrence of every row is kept. *)
Definition drop_duplicates (df : DataFrame) : DataFrame :=
  getitem_mask df (map negb (duplicated df)).

(** [df.select_dtypes(include=['number'])] *)
Definition select_dtypes_number (df : DataFrame) : DataFrame :=
  mkDataFrame (index df)
              (List.filter (fun nc => is_numeric_dtype (snd nc)) (data df)).

End DF.

(* ================================================================= *)
(** ** [DataFrame.describe] on numeric columns *)

Module Stats.

(** One column of the table [describe] returns: the count of the values
    that are not NaN and, as float64, the smallest value, the three
    quartiles and the largest value.  The table has a [mean] and a [std]
    row as well: sums over the column, whose float64 value depends on the
    order in which numpy adds; they are not part of the embedding. *)
Record summary : Type := mkSummary {
  count : nat;
  min : Num.float64;
  q25 : Num.float64;
  q50 : Num.float64;
  q75 : Num.float64;
  max : Num.float64
}.

Definition describe_column (dt : Num.dtype) (vals : list Num.number)
  : summary :=
  let xs := Num.sort (Num.present vals) in
  mkSummary (length xs)
    (match xs with [] => Num.nan | x :: _ => Num.of_Q x end)
    (Num.quantile dt vals Num.f0_25)
    (Num.quantile dt vals Num.f0_5)
    (Num.quantile dt vals Num.f0_75)
    (match xs with
     | [] => Num.nan
     | x :: _ => Num.of_Q (nth (length xs - 1) xs x)
     end).

Fixpoint describe_columns (cols : list (string * column))
  : list (string * summary) :=
  match cols with
  | [] => []
  | (name, NumCol dt vals) :: t =>
      (name, describe_column dt vals) :: describe_columns t
  | (_, ObjCol _) :: t => describe_columns t
  end.

(** [df.describe()] for a frame whose columns are all numeric, as
    [select_dtypes(include=['number'])] returns it.  pandas refuses a frame
    without columns with [ValueError("Cannot describe a DataFrame without
    columns")]: that is [None]. *)
Definition describe (df : DataFrame) : option (list (string * summary)) :=
  match data df with
  | [] => None
  | cols => Some (describe_columns cols)
  end.

End Stats.

(* ================================================================= *)
(** ** The object level: store, console, exceptions *)

Inductive exn : Type :=
| FileNotFoundError
| UnicodeDecodeError
| OtherReadError        (* any other exception a pandas reader raises *)
| SeabornError          (* any exception seaborn raises on two columns *)
| ValueError
| KeyError
| UnboundLocalError
| EOFError
| DanglingReference.    (* a location outside the store; never raised from
                           a name the script has bound *)

Inductive res (A : Type) : Type :=
| Ok (a : A)
| Raise (e : exn).
Arguments Ok {A} a.
Arguments Raise {A} e.

(** A reference to a DataFrame object. *)
Definition loc := nat.

(** The texts the script prints, without their colour codes. *)
Inductive message : Type :=
| MsgBanner                     (* lines 118-121 *)
| MsgReadError                  (* "Error reading the dataset. ..." *)
| MsgUnsupported                (* "This file format is not supported. ..." *)
| MsgTryAgain                   (* "Try again." *)
| MsgLoaded                     (* "Dataset was successfully loaded." *)
| MsgNumRows (n : nat)          (* "Number of rows in the dataset: n" *)
| MsgPreprocessing              (* the "Data Preprocessing" header *)
| MsgMissingRemoved             (* "Rows with missing values have been removed" *)
| MsgOutliersRemoved            (* "Ouliers have been removed" *)
| MsgDuplicatesRemoved          (* "Duplicate rows have been removed" *)
| MsgUpdatedRows (n : nat)      (* "Updated number of rows in the dataset: n" *)
| MsgRowsRemoved (n : Z)        (* "Number of rows removed: n" *)
| MsgStringsCleaned             (* line 181 *)
| MsgOptional                   (* line 182 *)
| MsgInvalidChoice              (* "Invalid choice, try again." *)
| MsgFeatures (cols : list string)   (* "These are the features in your dataset: ..." *)
| MsgStatsHeader                (* the "Statistical Summaries" header *)
| MsgStats (stats : list (string * Stats.summary))
| MsgVisualizationHeader        (* the "Visualization" header *)
| MsgPreview (head : DataFrame)
| MsgFeatureList (cols : list string)
| MsgInvalidPlot.               (* "Invalid plot type! ..." *)

(** The questions asked through [input]. *)
Inductive prompt : Type :=
| AskFileName | AskSheetName | AskMenuChoice | AskFormat | AskFeature
| AskPlotType | AskX | AskY.

Inductive plot_kind : Type := Scatter | Histogram | Boxplot.

(** What the script does to the outside, in order. *)
Inductive event : Type :=
| Stdout (m : message)
| Prompt (p : prompt)
| ToCsv (path : string) (content : DataFrame)
| ToExcel (path sheet_name : string) (content : DataFrame)
| Plot (kind : plot_kind) (content : DataFrame) (x_column y_column : string).

Record world : Type := mkWorld {
  heap : list DataFrame;      (* the DataFrame objects, by location *)
  console : list event        (* everything done so far, oldest first *)
}.

(** What lies outside the script and answers its library calls: the file
    system behind the two pandas readers, and seaborn, which draws a plot of
    a frame from two of its columns or raises. *)
Record filesystem : Type := mkFilesystem {
  read_csv : string -> res DataFrame;
  read_excel : string -> string -> res DataFrame;
  seaborn : plot_kind -> DataFrame -> string -> string -> res unit
}.

(** Programs: a state monad over the world with exceptions. *)
Definition M (A : Type) : Type := world -> res A * world.

Definition ret {A} (a : A) : M A := fun w => (Ok a, w).

Definition raise {A} (e : exn) : M A := fun w => (Raise e, w).

Definition bind {A B} (m : M A) (k : A -> M B) : M B :=
  fun w =>
    match m w with
    | (Ok a, w') => k a w'
    | (Raise e, w') => (Raise e, w')
    end.

(** [try: m  except: handler] *)
Definition try_except {A} (m : M A) (handler : exn -> M A) : M A :=
  fun w =>
    match m w with
    | (Ok a, w') => (Ok a, w')
    | (Raise e, w') => handler e w'
    end.

Declare Scope py_scope.
Delimit Scope py_scope with py.
Notation "x <- m ;; k" := (bind m (fun x => k))
  (at level 100, m at next level, k at level 200, right associativity)
  : py_scope.
Notation "m ;; k" := (bind m (fun _ => k))
  (at level 100, k at level 200, right associativity) : py_scope.
Local Open Scope py_scope.

Definition emit (e : event) : M unit :=
  fun w => (Ok tt, mkWorld (heap w) (console w ++ [e])).

Definition print (m : message) : M unit := emit (Stdout m).

(** A new object; its location is the next free one. *)
Definition alloc (d : DataFrame) : M loc :=
  fun w => (Ok (length (heap w)), mkWorld (heap w ++ [d]) (console w)).

Definition load (l : loc) : M DataFrame :=
  fun w =>
    match heap w !! l with
    | Some d => (Ok d, w)
    | None => (Raise DanglingReference, w)
    end.

Definition store (l : loc) (d : DataFrame) : M unit :=
  fun w => (Ok tt, mkWorld (<[l := d]> (heap w)) (console w)).

(** The value of a local name; an unbound one raises. *)
Definition local {A} (name : option A) : M A :=
  match name with
  | Some v => ret v
  | None => raise UnboundLocalError
  end.

(** *** pandas calls on objects *)

Module Obj.

(** [df.copy()]: a new object with the same contents. *)
Definition copy (df : loc) : M loc := d <- load df ;; alloc d.

Definition columns (df : loc) : M (list string) :=
  d <- load df ;; ret (DF.columns d).

Definition shape0 (df : loc) : M nat :=
  d <- load df ;; ret (DF.shape0 d).

(** [df[name]]: the column as a value (the script never writes through
    it). *)
Definition getitem (df : loc) (name : string) : M column :=
  d <- load df ;;
  match DF.getitem d name with
  | Some c => ret c
  | None => raise KeyError
  end.

(** [df[mask]]: a new object. *)
Definition getitem_mask (df : loc) (mask : list bool) : M loc :=
  d <- load df ;; alloc (DF.getitem_mask d mask).

(** [df[name] = c]: the object itself changes. *)
Definition setitem (df : loc) (name : string) (c : column) : M unit :=
  d <- load df ;; store df (DF.setitem d name c).

(** [df.drop(name, axis=1)]: a new object, or KeyError. *)
Definition drop (df : loc) (name : string) : M loc :=
  d <- load df ;;
  match DF.drop d name with
  | Some d' => alloc d'
  | None => raise KeyError
  end.

Definition dropna (df : loc) : M loc :=
  d <- load df ;; alloc (DF.dropna d).

Definition drop_duplicates (df : loc) : M loc :=
  d <- load df ;; alloc (DF.drop_duplicates d).

Definition select_dtypes_number (df : loc) : M loc :=
  d <- load df ;; alloc (DF.select_dtypes_number d).

Definition describe (df : loc) : M (list (string * Stats.summary)) :=
  d <- load df ;;
  match Stats.describe d with
  | Some stats => ret stats
  | None => raise ValueError
  end.

Definition to_csv (df : loc) (path : string) : M unit :=
  d <- load df ;; emit (ToCsv path d).

Definition to_excel (df : loc) (path sheet_name : string) : M unit :=
  d <- load df ;; emit (ToExcel path sheet_name d).

Definition head (df : loc) : M DataFrame :=
  d <- load df ;; ret (DF.getitem_mask d (repeat true 5)).

(** [pd.read_csv(path)] and [pd.read_excel(path, sheet_name=...)]: the
    frame read becomes a new object. *)
Definition pd_read_csv (fs : filesystem) (path : string) : M loc :=
  match read_csv fs path with
  | Ok d => alloc d
  | Raise e => raise e
  end.

Definition pd_read_excel (fs : filesystem) (path sheet_name : string) : M loc :=
  match read_excel fs path sheet_name with
  | Ok d => alloc d
  | Raise e => raise e
  end.

End Obj.

(* ================================================================= *)
(** ** [int(...)] on a line of input *)

Module PyInt.

Definition digit (c : ascii) : option Z :=
  if Str.in_range 48 57 c then Some (Z.of_N (Str.code c) - 48)%Z else None.

(** The digits after the first one: single underscores may separate
    digits. *)
Fixpoint digits (acc : Z) (l : list ascii) : option Z :=
  match l with
  | [] => Some acc
  | c :: t =>
      match digit c with
      | Some d => digits (10 * acc + d) t
      | None =>
          if Ascii.eqb c "_" then
            match t with
            | c' :: t' =>
                match digit c' with
                | Some d => digits (10 * acc + d) t'
                | None => None
                end
            | [] => None
            end
          else None
      end
  end.

Definition unsigned (l : list ascii) : option Z :=
  match l with
  | c :: t =>
      match digit c with
      | Some d => digits d t
      | None => None
      end
  | [] => None
  end.

(** [int(s)] in base ten; [None] stands for the ValueError. *)
Definition int (s : string) : option Z :=
  match Str.rstrip_chars (Str.lstrip_chars (list_ascii_of_string s)) with
  | c :: t =>
      if Ascii.eqb c "-" then option_map Z.opp (unsigned t)
      else if Ascii.eqb c "+" then unsigned t
      else unsigned (c :: t)
  | [] => None
  end.

End PyInt.

(* ================================================================= *)
(** ** The functions of the script, on objects *)

(** The body of the loop of [remove_outliers] (lines 18-32), and the loop
    over the column names read before it starts.  The name [df_cleaned] is
    rebound to the selection on every numeric column. *)
Fixpoint remove_outliers_loop (cols : list string) (df_cleaned : loc) : M loc :=
  match cols with
  | [] => ret df_cleaned
  | column :: rest =>
      col <- Obj.getitem df_cleaned column ;;
      df_cleaned <-
        match col with
        | NumCol dt vals =>
            let bounds := Num.outlier_bounds dt vals in
            Obj.getitem_mask df_cleaned (Num.between_mask vals bounds)
        | ObjCol _ => ret df_cleaned
        end ;;
      remove_outliers_loop rest df_cleaned
  end.

Definition remove_outliers (df : loc) : M loc :=
  df_cleaned <- Obj.copy df ;;
  cols <- Obj.columns df_cleaned ;;
  remove_outliers_loop cols df_cleaned.

(** Lines 176-178 of [main]: [clean_strings] on every object column, written
    back into the frame. *)
Fixpoint clean_strings_loop (cols : list string) (df : loc) : M unit :=
  match cols with
  | [] => ret tt
  | column :: rest =>
      col <- Obj.getitem df column ;;
      match col with
      | ObjCol vals => Obj.setitem df column (ObjCol (clean_strings vals))
      | NumCol _ _ => ret tt
      end ;;
      clean_strings_loop rest df
  end.

(** Lines 75-79: menu choice 1. *)
Fixpoint zero_negatives_loop (cols : list string) (df_final : loc) : M unit :=
  match cols with
  | [] => ret tt
  | column :: rest =>
      col <- Obj.getitem df_final column ;;
      match col with
      | NumCol dt vals =>
          Obj.setitem df_final column
            (NumCol (Num.apply_dtype dt vals) (map Num.zero_if_negative vals))
      | ObjCol _ => ret tt
      end ;;
      zero_negatives_loop rest df_final
  end.

Definition zero_negatives (df_final : loc) : M unit :=
  cols <- Obj.columns df_final ;;
  zero_negatives_loop cols df_final.

(** ['Data-Analyzer/Cleaned_Dataset/{}_clean.csv'.format(file)] and its
    Excel sibling. *)
Definition clean_path_csv (file : string) : string :=
  "Data-Analyzer/Cleaned_Dataset/" ++ file ++ "_clean.csv".

Definition clean_path_excel (file : string) : string :=
  "Data-Analyzer/Cleaned_Dataset/" ++ file ++ "_clean.xlsx".

(** The [while True] loop of [optional_operations].  The lines still to be
    read from the console are [stdin]; every round reads at least one, and
    reading past the end raises EOFError.  The result is the final frame and
    the lines left unread. *)
Fixpoint menu_loop (stdin : list string) (df_final : loc) (file : string)
  {struct stdin} : M (loc * list string) :=
  emit (Prompt AskMenuChoice) ;;
  match stdin with
  | [] => raise EOFError
  | line :: stdin =>
      match PyInt.int line with
      | None => raise ValueError
      | Some 0%Z =>
          emit (Prompt AskFormat) ;;
          match stdin with
          | [] => raise EOFError
          | fileChoice :: stdin =>
              let fileChoice := Str.lower fileChoice in
              if String.eqb fileChoice "csv" then
                let cleanPath := clean_path_csv file in
                Obj.to_csv df_final cleanPath ;;
                ret (df_final, stdin)
              else if String.eqb fileChoice "excel" then
                let cleanPath := clean_path_excel file in
                Obj.to_excel df_final cleanPath "Sheet1" ;;
                ret (df_final, stdin)
              else
                print MsgInvalidChoice ;;
                menu_loop stdin df_final file
          end
      | Some 1%Z =>
          zero_negatives df_final ;;
          menu_loop stdin df_final file
      | Some 2%Z =>
          cols <- Obj.columns df_final ;;
          print (MsgFeatures cols) ;;
          emit (Prompt AskFeature) ;;
          match stdin with
          | [] =>
              (* [input] raises EOFError inside the [try] *)
              print MsgInvalidChoice ;;
              menu_loop stdin df_final file
          | removeColumn :: stdin =>
              df_final <-
                try_except (Obj.drop df_final removeColumn)
                           (fun _ => print MsgInvalidChoice ;; ret df_final) ;;
              menu_loop stdin df_final file
          end
      | Some _ =>
          print MsgInvalidChoice ;;
          menu_loop stdin df_final file
      end
  end.

Definition optional_operations (df : loc) (file : string) (stdin : list string)
  : M (loc * list string) :=
  df_final <- Obj.copy df ;;
  menu_loop stdin df_final file.

Definition calculate_stats (df : loc) : M (list (string * Stats.summary)) :=
  numeric_columns <- Obj.select_dtypes_number df ;;
  stats <- Obj.describe numeric_columns ;;
  ret stats.

(** [sns.scatterplot(data=df, x=x_column, y=y_column)] and its siblings,
    followed by [plt.show()].  seaborn looks the two names up in the frame
    and raises ValueError for a name that is no column of it; what it does
    with two columns is its own affair ([seaborn fs]).  The plot is shown,
    which is the [Plot] event, only when seaborn has returned. *)
Definition sns_plot (fs : filesystem) (kind : plot_kind) (df : loc)
  (x_column y_column : string) : M unit :=
  d <- load df ;;
  if existsb (String.eqb x_column) (DF.columns d)
     && existsb (String.eqb y_column) (DF.columns d)
  then
    match seaborn fs kind d x_column y_column with
    | Ok _ => emit (Plot kind d x_column y_column)
    | Raise e => raise e
    end
  else raise ValueError.

Definition visualize (fs : filesystem) (df : loc)
  (x_column y_column plot_type : string) : M unit :=
  if String.eqb plot_type "scatter" then
    sns_plot fs Scatter df x_column y_column
  else if String.eqb plot_type "histogram" then
    sns_plot fs Histogram df x_column y_column
  else if String.eqb plot_type "boxplot" then
    sns_plot fs Boxplot df x_column y_column
  else print MsgInvalidPlot.

(** [input(prompt)] where the rest of the program is [k]. *)
Definition input {A} (p : prompt) (stdin : list string)
  (k : string -> list string -> M A) : M A :=
  emit (Prompt p) ;;
  match stdin with
  | [] => raise EOFError
  | line :: stdin => k line stdin
  end.

(** Lines 129-146 of [main]: the name [df] is bound only when a read
    succeeds.  The result is the binding of [df] and the unread lines. *)
Definition main_load (fs : filesystem) (fileName filePath : string)
  (stdin : list string) : M (option loc * list string) :=
  try_except
    (if Str.contains ".csv" fileName then
       try_except
         (df <- Obj.pd_read_csv fs filePath ;; ret (Some df, stdin))
         (fun e =>
            match e with
            | FileNotFoundError | UnicodeDecodeError =>
                print MsgReadError ;; ret (None, stdin)
            | _ => raise e
            end)
     else if Str.contains ".xlsx" fileName then
       try_except
         (input AskSheetName stdin (fun sheet_name stdin =>
            df <- Obj.pd_read_excel fs filePath sheet_name ;;
            ret (Some df, stdin)))
         (fun _ => print MsgReadError ;; ret (None, tl stdin))
     else
       print MsgUnsupported ;; ret (None, stdin))
    (fun _ => print MsgTryAgain ;; ret (None, stdin)).

(** Lines 149-182 of [main]: the preprocessing of the frame loaded.  The
    result is the frame bound to [df] when the menu starts. *)
Definition main_preprocess (df : loc) : M loc :=
  numOfRows <- Obj.shape0 df ;;
  print MsgLoaded ;;
  print (MsgNumRows numOfRows) ;;
  print MsgPreprocessing ;;
  df <- Obj.dropna df ;;
  print MsgMissingRemoved ;;
  df <- remove_outliers df ;;
  print MsgOutliersRemoved ;;
  df <- Obj.drop_duplicates df ;;
  print MsgDuplicatesRemoved ;;
  updatedNumOfRows <- Obj.shape0 df ;;
  let totalRowsRemoved := (Z.of_nat numOfRows - Z.of_nat updatedNumOfRows)%Z in
  print (MsgUpdatedRows updatedNumOfRows) ;;
  print (MsgRowsRemoved totalRowsRemoved) ;;
  cols <- Obj.columns df ;;
  clean_strings_loop cols df ;;
  print MsgStringsCleaned ;;
  print MsgOptional ;;
  ret df.

(** Lines 187-211 of [main]: statistics and the plot. *)
Definition main_report (fs : filesystem) (df : loc) (stdin : list string)
  : M unit :=
  print MsgStatsHeader ;;
  stats <- calculate_stats df ;;
  print (MsgStats stats) ;;
  print MsgVisualizationHeader ;;
  preview <- Obj.head df ;;
  print (MsgPreview preview) ;;
  cols <- Obj.columns df ;;
  print (MsgFeatureList cols) ;;
  input AskPlotType stdin (fun plot_type stdin =>
  let plot_type := Str.lower plot_type in
  input AskX stdin (fun x_column stdin =>
  input AskY stdin (fun y_column stdin =>
  visualize fs df x_column y_column plot_type))).

(** Lines 148-211 of [main], from the binding of [df] left by the load: the
    first use of [df] is on line 149. *)
Definition main_pipeline (fs : filesystem) (df : option loc)
  (fileName : string) (stdin : list string) : M unit :=
  df <- local df ;;
  df <- main_preprocess df ;;
  r <- optional_operations df fileName stdin ;;
  main_report fs (fst r) (snd r).

Definition main (fs : filesystem) (stdin : list string) : M unit :=
  print MsgBanner ;;
  input AskFileName stdin (fun fileName stdin =>
  let path := "Data-Analyzer/Dataset/" in
  let filePath := (path ++ fileName)%string in
  r <- main_load fs fileName filePath stdin ;;
  main_pipeline fs (fst r) fileName (snd r)).

(* ================================================================= *)
(** ** The loops read as functions on values *)

(** One round of the loop of [remove_outliers] on the frame [d] currently
    bound to [df_cleaned]. *)
Definition outlier_pass (d : DataFrame) (column : string) : DataFrame :=
  match DF.getitem d column with
  | Some (NumCol dt vals) =>
      DF.getitem_mask d (Num.between_mask vals (Num.outlier_bounds dt vals))
  | _ => d
  end.

(** The frame bound to [df_cleaned] after the rounds for [cols]. *)
Definition outlier_passes (cols : list string) (d : DataFrame) : DataFrame :=
  fold_left outlier_pass cols d.

(** One round of the loop of menu choice 1. *)
Definition zero_negatives_pass (d : DataFrame) (column : string) : DataFrame :=
  match DF.getitem d column with
  | Some (NumCol dt vals) =>
      DF.setitem d column
        (NumCol (Num.apply_dtype dt vals) (map Num.zero_if_negative vals))
  | _ => d
  end.

(** One round of the string-cleaning loop of [main]. *)
Definition clean_strings_pass (d : DataFrame) (column : string) : DataFrame :=
  match DF.getitem d column with
  | Some (ObjCol vals) => DF.setitem d column (ObjCol (clean_strings vals))
  | _ => d
  end.

(** The cleaning stages of [main] (lines 158-178) on the frame loaded. *)
Definition cleaning (d : DataFrame) : DataFrame :=
  let d := DF.dropna d in
  let d := outlier_passes (DF.columns d) d in
  let d := DF.drop_duplicates d in
  fold_left clean_strings_pass (DF.columns d) d.

(** No NaN in a numeric column. *)
Definition no_nan (d : DataFrame) : Prop :=
  Forall (fun nc => match snd nc with
                    | NumCol dt vals => Forall (fun x => x <> None) vals
                    | ObjCol _ => True
                    end) (data d).

(** A run that ended in [r] left the object [df] holding [d] and did not
    return [df] itself. *)
Definition frame_kept {A} (df : loc) (d : DataFrame) (r : res (loc * A) * world)
  : Prop :=
  heap (snd r) !! df = Some d /\
  forall out rest, fst r = Ok (out, rest) -> out <> df.

(** What menu choice 1 does to one column. *)
Definition zeroed (c : column) : column :=
  match c with
  | NumCol dt vals =>
      NumCol (Num.apply_dtype dt vals) (map Num.zero_if_negative vals)
  | ObjCol vals => ObjCol vals
  end.

(* ================================================================= *)
(** ** Notions the specification uses to describe file names *)

Module FileName.

(** The suffix of a name that starts at its last dot, if it has a dot. *)
Fixpoint last_dot_suffix (l : list ascii) : option (list ascii) :=
  match l with
  | [] => None
  | c :: t =>
      match last_dot_suffix t with
      | Some e => Some e
      | None => if Ascii.eqb c "." then Some l else None
      end
  end.

(** The extension of a file name, with its dot; empty when there is none. *)
Definition extension (name : string) : string :=
  match last_dot_suffix (list_ascii_of_string name) with
  | Some e => string_of_list_ascii e
  | None => EmptyString
  end.

(** The name without its extension. *)
Definition base_name (name : string) : string :=
  String.substring 0 (String.length name - String.length (extension name)) name.

End FileName.

(* ================================================================= *)
(** ** The data of the end-to-end example *)

Module Sample.

Local Open Scope Q_scope.

(** Columns [age:int, name:str], rows (25, " Alice! "), (200, "bob"),
    (30, "alice"). *)
Definition people : DataFrame :=
  mkDataFrame [0%Z; 1%Z; 2%Z]
    [("age", NumCol Num.Int64 [Some 25; Some 200; Some 30]);
     ("name", ObjCol [Some " Alice! "; Some "bob"; Some "alice"])].

(** What the cleaning stages make of [people]. *)
Definition people_cleaned : DataFrame :=
  mkDataFrame [0%Z; 1%Z; 2%Z]
    [("age", NumCol Num.Int64 [Some 25; Some 200; Some 30]);
     ("name", ObjCol [Some "alice"; Some "bob"; Some "alice"])].

(** Two rows that differ before the strings are cleaned and agree after. *)
Definition twins : DataFrame :=
  mkDataFrame [0%Z; 1%Z]
    [("age", NumCol Num.Int64 [Some 25; Some 25]);
     ("name", ObjCol [Some " Alice! "; Some "alice"])].

(** A session that loads [people.csv], finishes at once with a CSV export,
    and asks for a scatter plot. *)
Definition session : list string :=
  ["people.csv"; "0"; "csv"; "scatter"; "age"; "name"].

(** A file system that holds [people] as a CSV file under the name the
    script builds for ["people.csv"], with a seaborn that draws every
    plot. *)
Definition disk : filesystem :=
  mkFilesystem
    (fun path =>
       if String.eqb path "Data-Analyzer/Dataset/people.csv"
       then Ok people else Raise FileNotFoundError)
    (fun _ _ => Raise FileNotFoundError)
    (fun _ _ _ _ => Ok tt).

(** A file system on which every CSV read answers [people]. *)
Definition any_csv : filesystem :=
  mkFilesystem (fun _ => Ok people) (fun _ _ => Raise FileNotFoundError)
               (fun _ _ _ _ => Ok tt).

(** A frame with no numeric column. *)
Definition names_only : DataFrame :=
  mkDataFrame [0%Z; 1%Z] [("name", ObjCol [Some "ann"; Some "bo"])].

(** A frame with negative values and a text column. *)
Definition ledger : DataFrame :=
  mkDataFrame [0%Z; 1%Z; 2%Z]
    [("amount", NumCol Num.Float64 [Some (-5 # 2); Some 0; Some 7]);
     ("who", ObjCol [Some "ann"; Some "bo"; Some "cy"]);
     ("delta", NumCol Num.Int64 [Some 3; Some (-1); Some (-4)])].

(** A column of int64 identifiers around 2^53 = 9007199254740992. *)
Definition ids : DataFrame :=
  mkDataFrame [0%Z; 1%Z; 2%Z; 3%Z]
    [("id", NumCol Num.Int64
              [Some 9007199254740993; Some 9007199254740993;
               Some 9007199254740992; Some 9007199254740993])].

(** A float64 column that holds -1e308 and 1e308
    (1e308 is the float64 5010420900022432 * 2^971). *)
Definition wide : DataFrame :=
  mkDataFrame [0%Z; 1%Z]
    [("x", NumCol Num.Float64
             [Some (inject_Z (- (5010420900022432 * 2 ^ 971)));
              Some (inject_Z (5010420900022432 * 2 ^ 971))])].

Definition empty_world : world := mkWorld [] [].

End Sample.

(* ================================================================= *)
(** ** Relations between frames used to state further properties *)

(** [d] is what the menu can make of [d0]: the same row labels, some of the
    columns of [d0] in their order, each one as it was or with its negative
    values zeroed; well formed and without NaN. *)
Definition menu_result (d0 d : DataFrame) : Prop :=
  index d = index d0 /\
  DF.wf d /\ no_nan d /\
  sublist (DF.columns d) (DF.columns d0) /\
  forall name c',
    DF.getitem d name = Some c' ->
    exists c, DF.getitem d0 name = Some c /\ (c' = c \/ c' = zeroed c).

(** What the readers answer for the name typed: the frame read and the lines
    left unread, or nothing when the name is unsupported, the reader raises,
    or no sheet name can be read. *)
Definition loaded_frame (fs : filesystem) (fileName : string)
  (stdin : list string) : option (DataFrame * list string) :=
  let filePath := ("Data-Analyzer/Dataset/" ++ fileName)%string in
  if Str.contains ".csv" fileName then
    match read_csv fs filePath with
    | Ok d => Some (d, stdin)
    | Raise _ => None
    end
  else if Str.contains ".xlsx" fileName then
    match stdin with
    | [] => None
    | sheet_name :: rest =>
        match read_excel fs filePath sheet_name with
        | Ok d => Some (d, rest)
        | Raise _ => None
        end
    end
  else None.

(** The messages of the preprocessing stage for a frame of [n] rows of which
    [m] are left. *)
Definition preprocessing_messages (n m : nat) : list event :=
  [Stdout MsgLoaded; Stdout (MsgNumRows n); Stdout MsgPreprocessing;
   Stdout MsgMissingRemoved; Stdout MsgOutliersRemoved;
   Stdout MsgDuplicatesRemoved; Stdout (MsgUpdatedRows m);
   Stdout (MsgRowsRemoved (Z.of_nat n - Z.of_nat m));
   Stdout MsgStringsCleaned; Stdout MsgOptional].

(** The kind of plot that a plot type, already in lower case, names. *)
Definition plot_kind_of (plot_type : string) : option plot_kind :=
  if String.eqb plot_type "scatter" then Some Scatter
  else if String.eqb plot_type "histogram" then Some Histogram
  else if String.eqb plot_type "boxplot" then Some Boxplot
  else None.

(** What the report prints and asks, up to the last question on the plot,
    for the frame [d] the menu returned. *)
Definition report_messages (d : DataFrame) : list event :=
  [Stdout MsgStatsHeader;
   Stdout (MsgStats (Stats.describe_columns (data (DF.select_dtypes_number d))));
   Stdout MsgVisualizationHeader;
   Stdout (MsgPreview (DF.getitem_mask d (repeat true 5)));
   Stdout (MsgFeatureList (DF.columns d));
   Prompt AskPlotType; Prompt AskX; Prompt AskY].

(** No cell of the frame is missing. *)
Definition complete (d : DataFrame) : Prop :=
  Forall (fun nc => Forall (fun b => b = true) (DF.notna (snd nc))) (data d).

(** What the string-cleaning loop of [main] does to one column. *)
Definition cleaned (c : column) : column :=
  match c with
  | NumCol dt vals => NumCol dt vals
  | ObjCol vals => ObjCol (clean_strings vals)
  end.

(** The frame before its strings are cleaned (lines 158-166 of [main]). *)
Definition deduplicated (d : DataFrame) : DataFrame :=
  let d := DF.dropna d in
  let d := outlier_passes (DF.columns d) d in
  DF.drop_duplicates d.

(** A cell that holds a value. *)
Definition present_cell (c : DF.cell) : bool :=
  match c with
  | DF.NumCell (Some _) | DF.ObjCell (Some _) => true
  | _ => false
  end.

(** A row with no missing value. *)
Definition row_complete (r : list DF.cell) : bool := forallb present_cell r.

(** A frame without its first row. *)
Definition tail_col (c : column) : column :=
  match c with
  | NumCol dt vals => NumCol dt (tl vals)
  | ObjCol vals => ObjCol (tl vals)
  end.

Definition tail_frame (d : DataFrame) : DataFrame :=
  mkDataFrame (tl (index d))
              (map (fun nc => (fst nc, tail_col (snd nc))) (data d)).

(** The rows that [drop_duplicates] keeps, when the rows [seen] came
    before. *)
Definition keep_first (seen rows : list (list DF.cell)) : list (list DF.cell) :=
  DF.select (map negb (DF.duplicated_from seen rows)) rows.

(** Menu choice 1 read as a function on the working frame. *)
Definition zero_negatives_value (d : DataFrame) : DataFrame :=
  fold_left zero_negatives_pass (DF.columns d) d.

(** A list of numbers in ascending order. *)
Fixpoint ascending (l : list Q) : Prop :=
  match l with
  | [] => True
  | x :: t => Forall (fun y => (x <= y)%Q) t /\ ascending t
  end.

(* ================================================================= *)
(** ** Proof automation *)

(** The invariant of a concrete frame. *)
Ltac prove_wf :=
  split; [repeat constructor; simpl; intuition discriminate | repeat constructor].

(** Membership in a concrete list. *)
Ltac find_in_list :=
  repeat first [left; reflexivity | right].

Local Open Scope list_scope.

(* ================================================================= *)
(** * Properties *)

(** ** Strings *)

Section StrFacts.

Import Str.

Lemma lower_char_idem (c : ascii) : lower_char (lower_char c) = lower_char c.
Proof. destruct c as [[] [] [] [] [] [] [] []]; reflexivity. Qed.

Lemma in_class_lower_char (c : ascii) :
  in_class c = true -> in_class (lower_char c) = true.
Proof. destruct c as [[] [] [] [] [] [] [] []]; vm_compute; congruence. Qed.

Lemma lstrip_chars_Forall (P : ascii -> Prop) (l : list ascii) :
  Forall P l -> Forall P (lstrip_chars l).
Proof.
  induction 1 as [|c t Hc Ht IH]; simpl; [constructor|].
  destruct (isspace c); [exact IH | constructor; assumption].
Qed.

Lemma rstrip_chars_Forall (P : ascii -> Prop) (l : list ascii) :
  Forall P l -> Forall P (rstrip_chars l).
Proof.
  induction 1 as [|c t Hc Ht IH]; simpl; [constructor|].
  destruct (rstrip_chars t) as [|c' t'].
  - destruct (isspace c); repeat constructor; assumption.
  - constructor; assumption.
Qed.

Lemma filter_in_class_id (l : list ascii) :
  Forall (fun c => in_class c = true) l -> List.filter in_class l = l.
Proof.
  induction 1 as [|c t Hc Ht IH]; simpl; [reflexivity|].
  rewrite Hc, IH. reflexivity.
Qed.

Lemma filter_in_class_Forall (l : list ascii) :
  Forall (fun c => in_class c = true) (List.filter in_class l).
Proof.
  induction l as [|c t IH]; simpl; [constructor|].
  destruct (in_class c) eqn:E; [constructor|]; assumption.
Qed.

Lemma filter_Forall (P : ascii -> Prop) (f : ascii -> bool) (l : list ascii) :
  Forall P l -> Forall P (List.filter f l).
Proof.
  induction 1 as [|c t Hc Ht IH]; simpl; [constructor|].
  destruct (f c); [constructor|]; assumption.
Qed.

Lemma map_lower_char_fixed (l : list ascii) :
  Forall (fun c => lower_char c = c) l -> map lower_char l = l.
Proof.
  induction 1 as [|c t Hc Ht IH]; simpl; [reflexivity|].
  rewrite Hc, IH. reflexivity.
Qed.

Lemma map_lower_char_Forall (l : list ascii) :
  Forall (fun c => lower_char c = c) (map lower_char l).
Proof.
  induction l as [|c t IH]; simpl; constructor; [apply lower_char_idem | exact IH].
Qed.

Lemma lstrip_chars_starts_clean (l : list ascii) : starts_clean (lstrip_chars l).
Proof.
  induction l as [|c t IH]; simpl; [exact I|].
  destruct (isspace c) eqn:E; [exact IH | exact E].
Qed.

Lemma lstrip_chars_fixed (l : list ascii) :
  starts_clean l -> lstrip_chars l = l.
Proof. destruct l as [|c t]; simpl; [reflexivity|]. intros ->. reflexivity. Qed.

Lemma rstrip_chars_starts_clean (l : list ascii) :
  starts_clean l -> starts_clean (rstrip_chars l).
Proof.
  destruct l as [|c t]; simpl; [exact (fun H => H)|].
  intros E. destruct (rstrip_chars t); [rewrite E|]; exact E.
Qed.

Lemma rstrip_chars_idem (l : list ascii) :
  rstrip_chars (rstrip_chars l) = rstrip_chars l.
Proof.
  induction l as [|c t IH]; simpl; [reflexivity|].
  destruct (rstrip_chars t) as [|c' t'] eqn:E.
  - destruct (isspace c) eqn:Ec; simpl; [reflexivity|]. rewrite Ec. reflexivity.
  - change (rstrip_chars (c :: c' :: t')) with
      (match rstrip_chars (c' :: t') with
       | [] => if isspace c then [] else [c]
       | x => c :: x
       end).
    rewrite IH. reflexivity.
Qed.

Lemma strip_chars_idem (l : list ascii) :
  rstrip_chars (lstrip_chars (rstrip_chars (lstrip_chars l)))
  = rstrip_chars (lstrip_chars l).
Proof.
  rewrite (lstrip_chars_fixed (rstrip_chars (lstrip_chars l))).
  - apply rstrip_chars_idem.
  - apply rstrip_chars_starts_clean, lstrip_chars_starts_clean.
Qed.

End StrFacts.

Lemma clean_string_chars (s : string) :
  list_ascii_of_string (clean_string s)
  = List.filter Str.in_class
      (Str.rstrip_chars (Str.lstrip_chars
         (map Str.lower_char (list_ascii_of_string s)))).
Proof.
  unfold clean_string, Str.remove_special, Str.strip, Str.lower, Str.on_chars.
  rewrite !list_ascii_of_string_of_list_ascii. reflexivity.
Qed.

Lemma strip_chars (s : string) :
  list_ascii_of_string (Str.strip s)
  = Str.rstrip_chars (Str.lstrip_chars (list_ascii_of_string s)).
Proof. unfold Str.strip, Str.on_chars. apply list_ascii_of_string_of_list_ascii. Qed.

Lemma string_chars_inj (s t : string) :
  list_ascii_of_string s = list_ascii_of_string t -> s = t.
Proof.
  intros H. rewrite <- (string_of_list_ascii_of_string s),
    <- (string_of_list_ascii_of_string t), H. reflexivity.
Qed.

(** C3, as the claim states it, fails: ["a !"] normalises to ["a "], whose
    trailing space the second normalisation trims. *)
Lemma clean_string_not_idempotent :
  clean_string "a !" = "a " /\
  clean_string (clean_string "a !") = "a" /\
  ~ (forall s : string, clean_string (clean_string s) = clean_string s).
Proof.
  split; [reflexivity|]. split; [reflexivity|].
  intros H. specialize (H "a !"). vm_compute in H. discriminate H.
Qed.

(** C3, amended: normalising a value twice is normalising it once and
    trimming the result again; so normalisation is idempotent exactly on the
    values whose normal form has no leading or trailing whitespace, and in
    particular on every value made only of characters of [a-zA-Z0-9\s]. *)
Theorem clean_string_twice (s : string) :
  clean_string (clean_string s) = Str.strip (clean_string s) /\
  (clean_string (clean_string s) = clean_string s <->
   Str.strip (clean_string s) = clean_string s) /\
  (Forall (fun c => Str.in_class c = true) (list_ascii_of_string s) ->
   clean_string (clean_string s) = clean_string s).
Proof.
  assert (Htwice : clean_string (clean_string s) = Str.strip (clean_string s)).
  { apply string_chars_inj.
    rewrite clean_string_chars, strip_chars.
    set (t := list_ascii_of_string (clean_string s)).
    assert (Hlow : Forall (fun c => Str.lower_char c = c) t).
    { subst t. rewrite clean_string_chars.
      apply filter_Forall, rstrip_chars_Forall, lstrip_chars_Forall,
        map_lower_char_Forall. }
    assert (Hcls : Forall (fun c => Str.in_class c = true) t).
    { subst t. rewrite clean_string_chars. apply filter_in_class_Forall. }
    rewrite (map_lower_char_fixed t Hlow).
    apply filter_in_class_id, rstrip_chars_Forall, lstrip_chars_Forall, Hcls. }
  split; [exact Htwice|]. split; [rewrite Htwice; tauto|].
  intros Hs. rewrite Htwice. apply string_chars_inj.
  rewrite strip_chars, clean_string_chars.
  assert (Hl : Forall (fun c => Str.in_class c = true)
                 (map Str.lower_char (list_ascii_of_string s))).
  { apply Forall_map. eapply Forall_impl; [exact Hs|].
    intros c. apply in_class_lower_char. }
  rewrite (filter_in_class_id _
             (rstrip_chars_Forall _ _ (lstrip_chars_Forall _ _ Hl))).
  apply strip_chars_idem.
Qed.

(** The theorem on a value without special characters. *)
Lemma clean_string_twice_witness :
  clean_string (clean_string "Data Analyzer") = clean_string "Data Analyzer".
Proof.
  apply (proj2 (proj2 (clean_string_twice "Data Analyzer"))).
  repeat constructor.
Defined.

(** ** Running the pandas calls *)

Section Runs.

Variables (w : world) (df : loc) (d : DataFrame).
Hypothesis Hdf : heap w !! df = Some d.

Lemma load_run : load df w = (Ok d, w).
Proof using Hdf. unfold load. rewrite Hdf. reflexivity. Qed.

Lemma copy_run :
  Obj.copy df w = (Ok (length (heap w)), mkWorld (heap w ++ [d]) (console w)).
Proof using Hdf. unfold Obj.copy, bind. rewrite load_run. reflexivity. Qed.

Lemma columns_run : Obj.columns df w = (Ok (DF.columns d), w).
Proof using Hdf. unfold Obj.columns, bind. rewrite load_run. reflexivity. Qed.

Lemma shape0_run : Obj.shape0 df w = (Ok (DF.shape0 d), w).
Proof using Hdf. unfold Obj.shape0, bind. rewrite load_run. reflexivity. Qed.

Lemma getitem_run (name : string) :
  Obj.getitem df name w =
  match DF.getitem d name with
  | Some c => (Ok c, w)
  | None => (Raise KeyError, w)
  end.
Proof using Hdf.
  unfold Obj.getitem, bind. rewrite load_run.
  destruct (DF.getitem d name); reflexivity.
Qed.

Lemma getitem_mask_run (mask : list bool) :
  Obj.getitem_mask df mask w =
  (Ok (length (heap w)),
   mkWorld (heap w ++ [DF.getitem_mask d mask]) (console w)).
Proof using Hdf. unfold Obj.getitem_mask, bind. rewrite load_run. reflexivity. Qed.

Lemma setitem_run (name : string) (c : column) :
  Obj.setitem df name c w =
  (Ok tt, mkWorld (<[df := DF.setitem d name c]> (heap w)) (console w)).
Proof using Hdf. unfold Obj.setitem, bind. rewrite load_run. reflexivity. Qed.

Lemma drop_run (name : string) :
  Obj.drop df name w =
  match DF.drop d name with
  | Some d' => (Ok (length (heap w)), mkWorld (heap w ++ [d']) (console w))
  | None => (Raise KeyError, w)
  end.
Proof using Hdf.
  unfold Obj.drop, bind. rewrite load_run.
  destruct (DF.drop d name); reflexivity.
Qed.

End Runs.

Lemma lookup_snoc_new (h : list DataFrame) (d : DataFrame) :
  (h ++ [d]) !! length h = Some d.
Proof. apply list_lookup_middle. reflexivity. Qed.

Lemma lookup_snoc_old (h : list DataFrame) (x d : DataFrame) (l : loc) :
  h !! l = Some d -> (h ++ [x]) !! l = Some d.
Proof. intros H. apply lookup_app_l_Some. exact H. Qed.

(** ** Columns and selections *)

Lemma assoc_In (name : string) (l : list (string * column)) :
  In name (map fst l) <-> DF.assoc name l <> None.
Proof.
  induction l as [|[n c] t IH]; simpl; [tauto|].
  destruct (String.eqb_spec n name) as [->|Hne].
  - split; [discriminate | auto].
  - rewrite <- IH. split; [intros [H|H]; [contradiction | exact H] | auto].
Qed.

Lemma assoc_map_snd (f : column -> column) (name : string)
  (l : list (string * column)) :
  DF.assoc name (map (fun nc => (fst nc, f (snd nc))) l)
  = option_map f (DF.assoc name l).
Proof.
  induction l as [|[n c] t IH]; simpl; [reflexivity|].
  destruct (String.eqb n name); [reflexivity | exact IH].
Qed.

Lemma getitem_getitem_mask (d : DataFrame) (mask : list bool) (name : string) :
  DF.getitem (DF.getitem_mask d mask) name
  = option_map (DF.select_col mask) (DF.getitem d name).
Proof. apply assoc_map_snd. Qed.

Lemma columns_getitem_mask (d : DataFrame) (mask : list bool) :
  DF.columns (DF.getitem_mask d mask) = DF.columns d.
Proof.
  unfold DF.columns, DF.getitem_mask; simpl.
  rewrite List.map_map. reflexivity.
Qed.

Lemma select_Forall {A} (P : A -> Prop) (mask : list bool) (l : list A) :
  Forall P l -> Forall P (DF.select mask l).
Proof.
  intros H. revert mask.
  induction H as [|x t Hx Ht IH]; intros [|b mask]; simpl; try constructor.
  destruct b; [constructor; [exact Hx|] |]; apply IH.
Qed.

Lemma between_mask_within (vals : list Num.number)
  (bounds : Num.float64 * Num.float64) :
  Forall (Num.within bounds) (DF.select (Num.between_mask vals bounds) vals).
Proof.
  unfold Num.between_mask.
  induction vals as [|x t IH]; simpl; [constructor|].
  destruct (Num.fle (fst bounds) (Num.of_number x)
            && Num.fle (Num.of_number x) (snd bounds)) eqn:E; [|exact IH].
  constructor; [|exact IH].
  apply andb_true_iff in E. destruct E as [Hge Hle].
  destruct x as [v|]; [exists v; auto|].
  simpl in Hle. discriminate.
Qed.

(** ** The outlier loop *)

Lemma columns_outlier_pass (d : DataFrame) (column : string) :
  DF.columns (outlier_pass d column) = DF.columns d.
Proof.
  unfold outlier_pass.
  destruct (DF.getitem d column) as [[dt vals|vals]|]; try reflexivity.
  apply columns_getitem_mask.
Qed.

Lemma columns_outlier_passes (cols : list string) (d : DataFrame) :
  DF.columns (outlier_passes cols d) = DF.columns d.
Proof.
  revert d. induction cols as [|c t IH]; intros d; simpl; [reflexivity|].
  unfold outlier_passes in *. simpl. rewrite IH. apply columns_outlier_pass.
Qed.

Lemma outlier_passes_app (pre post : list string) (d : DataFrame) :
  outlier_passes (pre ++ post) d = outlier_passes post (outlier_passes pre d).
Proof. unfold outlier_passes. apply fold_left_app. Qed.

(** A numeric column stays numeric through a pass, and what holds of all
    its values before holds of all that remain. *)
Lemma outlier_pass_keeps (P : Num.number -> Prop) (d : DataFrame)
  (column name : string) (dt : Num.dtype) (vals : list Num.number) :
  DF.getitem d name = Some (NumCol dt vals) -> Forall P vals ->
  exists vals',
    DF.getitem (outlier_pass d column) name = Some (NumCol dt vals') /\
    Forall P vals'.
Proof.
  intros Hget HP. unfold outlier_pass.
  destruct (DF.getitem d column) as [[cdt cv|cv]|]; eauto.
  rewrite getitem_getitem_mask, Hget. simpl.
  eexists. split; [reflexivity|]. apply select_Forall, HP.
Qed.

Lemma outlier_passes_keeps (P : Num.number -> Prop) (cols : list string)
  (d : DataFrame) (name : string) (dt : Num.dtype) (vals : list Num.number) :
  DF.getitem d name = Some (NumCol dt vals) -> Forall P vals ->
  exists vals',
    DF.getitem (outlier_passes cols d) name = Some (NumCol dt vals') /\
    Forall P vals'.
Proof.
  revert d vals. induction cols as [|c t IH]; intros d vals Hget HP.
  - exists vals. auto.
  - destruct (outlier_pass_keeps P d c name dt vals Hget HP) as (v1 & H1 & HP1).
    exact (IH _ _ H1 HP1).
Qed.

(** The loop of [remove_outliers] on objects computes [outlier_passes], binds
    the result to a location that is not older than the one it started from,
    and only adds objects to the store. *)
Lemma remove_outliers_loop_run (cols : list string) :
  forall (w : world) (df_cleaned : loc) (d : DataFrame),
    heap w !! df_cleaned = Some d ->
    (forall c, In c cols -> In c (DF.columns d)) ->
    exists (out : loc) (added : list DataFrame),
      remove_outliers_loop cols df_cleaned w
      = (Ok out, mkWorld (heap w ++ added) (console w)) /\
      (heap w ++ added) !! out = Some (outlier_passes cols d) /\
      df_cleaned <= out.
Proof.
  induction cols as [|c t IH]; intros w l d Hl Hcols.
  - exists l, []. simpl. unfold ret. rewrite app_nil_r.
    destruct w; auto.
  - simpl. unfold bind at 1. rewrite (getitem_run w l d Hl).
    assert (Hc : DF.getitem d c <> None).
    { apply assoc_In, Hcols. left. reflexivity. }
    destruct (DF.getitem d c) as [[dt vals|vals]|] eqn:Eget; [| |contradiction].
    + unfold bind at 1. rewrite (getitem_mask_run w l d Hl).
      set (d1 := DF.getitem_mask d _).
      destruct (IH (mkWorld (heap w ++ [d1]) (console w)) (length (heap w)) d1)
        as (out & added & Hrun & Hout & Hle).
      * apply lookup_snoc_new.
      * intros c' Hc'. subst d1. rewrite columns_getitem_mask.
        apply Hcols. right. exact Hc'.
      * exists out, (d1 :: added). simpl in Hrun, Hout.
        rewrite <- app_assoc in Hrun, Hout. simpl in Hrun, Hout.
        split; [exact Hrun|]. split.
        -- rewrite Hout. unfold outlier_passes. simpl. unfold outlier_pass.
           rewrite Eget. reflexivity.
        -- apply lookup_lt_Some in Hl. lia.
    + unfold bind at 1, ret at 1.
      destruct (IH w l d Hl) as (out & added & Hrun & Hout & Hle).
      * intros c' Hc'. apply Hcols. right. exact Hc'.
      * exists out, added. split; [exact Hrun|]. split; [|exact Hle].
        rewrite Hout. unfold outlier_passes. simpl. unfold outlier_pass.
        rewrite Eget. reflexivity.
Qed.

Lemma remove_outliers_run (w : world) (df : loc) (d : DataFrame) :
  heap w !! df = Some d ->
  exists (out : loc) (added : list DataFrame),
    remove_outliers df w = (Ok out, mkWorld (heap w ++ added) (console w)) /\
    (heap w ++ added) !! out = Some (outlier_passes (DF.columns d) d) /\
    length (heap w) <= out.
Proof.
  intros Hdf. unfold remove_outliers.
  unfold bind at 1. rewrite (copy_run w df d Hdf).
  set (w1 := mkWorld (heap w ++ [d]) (console w)).
  assert (H1 : heap w1 !! length (heap w) = Some d) by apply lookup_snoc_new.
  unfold bind at 1. rewrite (columns_run w1 _ d H1).
  destruct (remove_outliers_loop_run (DF.columns d) w1 _ d H1)
    as (out & added & Hrun & Hout & Hle); [auto|].
  exists out, (d :: added). simpl in Hrun, Hout.
  rewrite <- app_assoc in Hrun, Hout. simpl in Hrun, Hout. auto.
Qed.

(** C1, as the claim states it, fails.  On a column of int64 identifiers
    around 2^53 the script computes both bounds as 2^53 and keeps all four
    rows.  The value 2^53 + 1 that stays is above that upper bound, and the
    value 2^53 that stays is below the lower bound 2^53 + 3/8 of the formula
    [Q1 - 1.5*IQR] (Q1 = 2^53 + 3/4, Q3 = 2^53 + 1). *)
Lemma remove_outliers_keeps_values_outside_bounds :
  let vals := [Some 9007199254740993%Q; Some 9007199254740993%Q;
               Some 9007199254740992%Q; Some 9007199254740993%Q] in
  DF.getitem Sample.ids "id" = Some (NumCol Num.Int64 vals) /\
  (exists (out : loc) (w' : world) (result : DataFrame),
      remove_outliers 0 (mkWorld [Sample.ids] []) = (Ok out, w') /\
      heap w' !! out = Some result /\
      DF.getitem result "id" = Some (NumCol Num.Int64 vals)) /\
  (exists (lower_bound upper_bound : Num.float64) (hi : Q),
      Num.outlier_bounds Num.Int64 vals = (lower_bound, upper_bound) /\
      lower_bound = upper_bound /\
      Num.to_Q upper_bound = Some hi /\ (hi == 9007199254740992)%Q /\
      ~ (9007199254740993 <= hi)%Q) /\
  (exists lo hi : Q,
      Exact.outlier_bounds vals = Some (lo, hi) /\
      (lo == 9007199254740992 + (3 # 8))%Q /\
      (hi == 9007199254740992 + (11 # 8))%Q /\
      ~ (lo <= 9007199254740992)%Q).
Proof.
  cbv zeta. split; [reflexivity|]. split.
  { eexists _, _, _. split; [vm_compute; reflexivity|].
    split; vm_compute; reflexivity. }
  split.
  { eexists _, _, _. split; [vm_compute; reflexivity|].
    split; [reflexivity|]. split; [vm_compute; reflexivity|].
    split; [reflexivity|]. vm_compute. intros H. apply H. reflexivity. }
  eexists _, _. split; [vm_compute; reflexivity|].
  split; [reflexivity|]. split; [reflexivity|].
  vm_compute. intros H. apply H. reflexivity.
Qed.

(** C1, amended: [remove_outliers] returns, and in the frame it returns
    every value left in a numeric column [c] passes the test of line 32
    against the bounds of [c]'s own pass: as a float64 (an int64 value after
    its cast) it is at least [Q1 - 1.5*IQR] and at most [Q3 + 1.5*IQR],
    where the bounds are the float64 numbers the script computes, by
    [Series.quantile] with linear interpolation and float64 arithmetic, from
    the values [c] held at the start of its pass, that is in
    [outlier_passes pre d], the frame already filtered by the passes of the
    columns [pre] that come before [c]. *)
Theorem remove_outliers_within_bounds (w : world) (df : loc) (d : DataFrame) :
  heap w !! df = Some d -> DF.wf d ->
  exists (out : loc) (w' : world) (result : DataFrame),
    remove_outliers df w = (Ok out, w') /\
    heap w' !! out = Some result /\
    DF.columns result = DF.columns d /\
    forall (pre post : list string) (c : string) (dt : Num.dtype)
           (vals0 : list Num.number),
      DF.columns d = pre ++ c :: post ->
      DF.getitem d c = Some (NumCol dt vals0) ->
      exists vals vals' : list Num.number,
        DF.getitem (outlier_passes pre d) c = Some (NumCol dt vals) /\
        DF.getitem result c = Some (NumCol dt vals') /\
        Forall (Num.within (Num.outlier_bounds dt vals)) vals'.
Proof.
  intros Hdf _.
  destruct (remove_outliers_run w df d Hdf) as (out & added & Hrun & Hout & _).
  exists out, (mkWorld (heap w ++ added) (console w)),
    (outlier_passes (DF.columns d) d).
  split; [exact Hrun|]. split; [exact Hout|].
  split; [apply columns_outlier_passes|].
  intros pre post c dt vals0 Hsplit Hget.
  destruct (outlier_passes_keeps (fun _ => True) pre d c dt vals0 Hget)
    as (vals & Hvals & _).
  { apply Forall_forall. auto. }
  exists vals.
  rewrite Hsplit, outlier_passes_app.
  change (outlier_passes (c :: post) (outlier_passes pre d))
    with (outlier_passes post (outlier_pass (outlier_passes pre d) c)).
  set (dc := outlier_passes pre d) in *.
  destruct (outlier_passes_keeps (Num.within (Num.outlier_bounds dt vals)) post
              (outlier_pass dc c) c dt
              (DF.select (Num.between_mask vals (Num.outlier_bounds dt vals)) vals))
    as (vals' & Hvals' & Hin).
  - unfold outlier_pass. rewrite Hvals, getitem_getitem_mask, Hvals.
    reflexivity.
  - apply between_mask_within.
  - exists vals'. auto.
Qed.

(** The theorem on the frame of the end-to-end example. *)
Lemma remove_outliers_within_bounds_witness :
  exists (out : loc) (w' : world) (result : DataFrame),
    remove_outliers 0 (mkWorld [Sample.people] []) = (Ok out, w') /\
    heap w' !! out = Some result /\
    DF.columns result = DF.columns Sample.people /\
    forall (pre post : list string) (c : string) (dt : Num.dtype)
           (vals0 : list Num.number),
      DF.columns Sample.people = pre ++ c :: post ->
      DF.getitem Sample.people c = Some (NumCol dt vals0) ->
      exists vals vals' : list Num.number,
        DF.getitem (outlier_passes pre Sample.people) c = Some (NumCol dt vals) /\
        DF.getitem result c = Some (NumCol dt vals') /\
        Forall (Num.within (Num.outlier_bounds dt vals)) vals'.
Proof.
  apply (remove_outliers_within_bounds (mkWorld [Sample.people] []) 0
           Sample.people).
  - reflexivity.
  - prove_wf.
Defined.

(** ** Column assignment *)

Lemma assoc_Some_In (name : string) (c : column) (l : list (string * column)) :
  DF.assoc name l = Some c -> In (name, c) l.
Proof.
  induction l as [|[n c0] t IH]; simpl; [discriminate|].
  destruct (String.eqb_spec n name) as [->|_].
  - intros [= ->]. left. reflexivity.
  - intros H. right. apply IH, H.
Qed.

Lemma no_nan_getitem (d : DataFrame) (name : string) (dt : Num.dtype)
  (vals : list Num.number) :
  no_nan d -> DF.getitem d name = Some (NumCol dt vals) ->
  Forall (fun x => x <> None) vals.
Proof.
  intros Hnan Hget. apply assoc_Some_In in Hget.
  unfold no_nan in Hnan. rewrite List.Forall_forall in Hnan.
  exact (Hnan _ Hget).
Qed.

Lemma assoc_replace_col (name name' : string) (c : column)
  (l : list (string * column)) :
  DF.assoc name' (DF.replace_col name c l)
  = if String.eqb name name' then Some c else DF.assoc name' l.
Proof.
  induction l as [|[n c0] t IH]; simpl.
  - destruct (String.eqb name name'); reflexivity.
  - destruct (String.eqb_spec n name) as [->|Hn]; simpl.
    + destruct (String.eqb name name'); reflexivity.
    + rewrite IH. destruct (String.eqb_spec n name') as [->|Hn'];
        [|reflexivity].
      destruct (String.eqb_spec name name') as [->|_];
        [contradiction | reflexivity].
Qed.

Lemma getitem_setitem (d : DataFrame) (name name' : string) (c : column) :
  DF.getitem (DF.setitem d name c) name'
  = if String.eqb name name' then Some c else DF.getitem d name'.
Proof. apply assoc_replace_col. Qed.

Lemma map_fst_replace_col (name : string) (c : column)
  (l : list (string * column)) :
  DF.assoc name l <> None ->
  map fst (DF.replace_col name c l) = map fst l.
Proof.
  induction l as [|[n c0] t IH]; simpl; [congruence|].
  destruct (String.eqb n name); simpl; [reflexivity|].
  intros H. rewrite IH; [reflexivity | exact H].
Qed.

Lemma columns_setitem (d : DataFrame) (name : string) (c : column) :
  DF.getitem d name <> None ->
  DF.columns (DF.setitem d name c) = DF.columns d.
Proof. apply map_fst_replace_col. Qed.

(** ** Menu choice 1 *)

Lemma zero_if_negative_idem (x : Num.number) :
  Num.zero_if_negative (Num.zero_if_negative x) = Num.zero_if_negative x.
Proof.
  unfold Num.zero_if_negative.
  destruct (Num.lt x (Some 0%Q)) eqn:E; [reflexivity|]. rewrite E. reflexivity.
Qed.

Lemma zero_if_negative_not_negative (x : Num.number) :
  Num.lt (Num.zero_if_negative x) (Some 0%Q) = false.
Proof.
  unfold Num.zero_if_negative.
  destruct (Num.lt x (Some 0%Q)) eqn:E; [reflexivity | exact E].
Qed.

Lemma apply_dtype_idem (dt : Num.dtype) (vals : list Num.number) :
  Num.apply_dtype (Num.apply_dtype dt vals) (map Num.zero_if_negative vals)
  = Num.apply_dtype dt vals.
Proof.
  destruct dt; [reflexivity|].
  destruct vals as [|x t]; [reflexivity|].
  unfold Num.apply_dtype at 2 3.
  destruct (forallb (fun x => Num.lt x (Some 0%Q)) (x :: t)); [reflexivity|].
  simpl. rewrite zero_if_negative_not_negative. reflexivity.
Qed.

Lemma zeroed_idem (c : column) : zeroed (zeroed c) = zeroed c.
Proof.
  destruct c as [dt vals|vals]; simpl; [|reflexivity].
  rewrite apply_dtype_idem, List.map_map. f_equal.
  apply List.map_ext. intros x. apply zero_if_negative_idem.
Qed.

Lemma zero_negatives_pass_eq (d : DataFrame) (column : string) :
  zero_negatives_pass d column =
  match DF.getitem d column with
  | Some (NumCol dt vals) => DF.setitem d column (zeroed (NumCol dt vals))
  | _ => d
  end.
Proof. reflexivity. Qed.

Lemma getitem_zero_negatives_pass (d : DataFrame) (column name : string) :
  DF.getitem (zero_negatives_pass d column) name
  = if String.eqb column name then option_map zeroed (DF.getitem d name)
    else DF.getitem d name.
Proof.
  unfold zero_negatives_pass.
  destruct (String.eqb_spec column name) as [->|Hne].
  - destruct (DF.getitem d name) as [[dt vals|vals]|] eqn:E; simpl;
      rewrite ?E; try reflexivity.
    rewrite getitem_setitem, String.eqb_refl. reflexivity.
  - destruct (DF.getitem d column) as [[dt vals|vals]|] eqn:E; try reflexivity.
    rewrite getitem_setitem.
    destruct (String.eqb_spec column name); [contradiction | reflexivity].
Qed.

Lemma columns_zero_negatives_pass (d : DataFrame) (column : string) :
  DF.columns (zero_negatives_pass d column) = DF.columns d.
Proof.
  unfold zero_negatives_pass.
  destruct (DF.getitem d column) as [[dt vals|vals]|] eqn:E; try reflexivity.
  apply columns_setitem. congruence.
Qed.

Lemma index_zero_negatives_pass (d : DataFrame) (column : string) :
  index (zero_negatives_pass d column) = index d.
Proof.
  unfold zero_negatives_pass.
  destruct (DF.getitem d column) as [[dt vals|vals]|]; reflexivity.
Qed.

Lemma zero_negatives_passes (cols : list string) :
  forall d : DataFrame,
    index (fold_left zero_negatives_pass cols d) = index d /\
    DF.columns (fold_left zero_negatives_pass cols d) = DF.columns d /\
    forall name,
      DF.getitem (fold_left zero_negatives_pass cols d) name
      = if existsb (String.eqb name) cols
        then option_map zeroed (DF.getitem d name)
        else DF.getitem d name.
Proof.
  induction cols as [|c t IH]; intros d; simpl; [auto|].
  destruct (IH (zero_negatives_pass d c)) as (Hi & Hc & Hg).
  rewrite Hi, Hc, index_zero_negatives_pass, columns_zero_negatives_pass.
  split; [reflexivity|]. split; [reflexivity|].
  intros name. rewrite Hg, getitem_zero_negatives_pass.
  rewrite (String.eqb_sym name c).
  destruct (String.eqb c name); simpl.
  - destruct (existsb (String.eqb name) t); [|reflexivity].
    destruct (DF.getitem d name) as [col|]; simpl; [|reflexivity].
    rewrite zeroed_idem. reflexivity.
  - reflexivity.
Qed.

Lemma existsb_eqb_In (name : string) (l : list string) :
  existsb (String.eqb name) l = true <-> In name l.
Proof.
  rewrite existsb_exists. split.
  - intros (x & Hx & E). apply String.eqb_eq in E. subst. exact Hx.
  - intros H. exists name. split; [exact H | apply String.eqb_refl].
Qed.

(** The loop of choice 1 on objects rewrites the object in place. *)
Lemma zero_negatives_loop_run (cols : list string) :
  forall (w : world) (df_final : loc) (d : DataFrame),
    heap w !! df_final = Some d ->
    (forall c, In c cols -> In c (DF.columns d)) ->
    zero_negatives_loop cols df_final w
    = (Ok tt, mkWorld (<[df_final := fold_left zero_negatives_pass cols d]> (heap w))
                      (console w)).
Proof.
  induction cols as [|c t IH]; intros w l d Hl Hcols; simpl.
  - unfold ret. rewrite list_insert_id by exact Hl. destruct w; reflexivity.
  - unfold bind at 1. rewrite (getitem_run w l d Hl).
    assert (Hc : DF.getitem d c <> None).
    { apply assoc_In, Hcols. left. reflexivity. }
    unfold zero_negatives_pass at 2.
    destruct (DF.getitem d c) as [[dt vals|vals]|] eqn:Eget; [| |contradiction].
    + unfold bind at 1. rewrite (setitem_run w l d Hl).
      set (d1 := DF.setitem d c _).
      rewrite (IH (mkWorld (<[l := d1]> (heap w)) (console w)) l d1).
      * simpl. rewrite list_insert_insert_eq. reflexivity.
      * simpl. apply list_lookup_insert_eq. eapply lookup_lt_Some, Hl.
      * intros c' Hc'. subst d1. rewrite columns_setitem by congruence.
        apply Hcols. right. exact Hc'.
    + unfold bind at 1, ret at 1. apply IH; [exact Hl|].
      intros c' Hc'. apply Hcols. right. exact Hc'.
Qed.

Lemma zero_negatives_run (w : world) (df_final : loc) (d : DataFrame) :
  heap w !! df_final = Some d ->
  zero_negatives df_final w
  = (Ok tt,
     mkWorld (<[df_final := fold_left zero_negatives_pass (DF.columns d) d]> (heap w))
             (console w)).
Proof.
  intros Hl. unfold zero_negatives, bind. rewrite (columns_run w _ d Hl).
  apply zero_negatives_loop_run; auto.
Qed.

Lemma zero_if_negative_spec (v : Q) :
  exists v' : Q,
    Num.zero_if_negative (Some v) = Some v' /\
    (0 <= v')%Q /\ ((0 <= v)%Q -> v' = v) /\ ((v < 0)%Q -> v' = 0%Q).
Proof.
  unfold Num.zero_if_negative, Num.lt.
  destruct (Qle_bool 0 v) eqn:E; simpl.
  - apply Qle_bool_iff in E. exists v. repeat split; auto.
    intros H. exfalso. eapply Qlt_not_le; eassumption.
  - exists 0%Q. repeat split; auto.
    + apply Qle_refl.
    + intros H. apply Qle_bool_iff in H. congruence.
Qed.

(** ** One round of the menu *)

Lemma menu_loop_cons (line : string) (stdin : list string) (df_final : loc)
  (file : string) (w : world) :
  menu_loop (line :: stdin) df_final file w =
  let w1 := mkWorld (heap w) (console w ++ [Prompt AskMenuChoice]) in
  match PyInt.int line with
  | None => (Raise ValueError, w1)
  | Some 0%Z =>
      let w2 := mkWorld (heap w) (console w1 ++ [Prompt AskFormat]) in
      match stdin with
      | [] => (Raise EOFError, w2)
      | fileChoice :: stdin' =>
          if String.eqb (Str.lower fileChoice) "csv" then
            (Obj.to_csv df_final (clean_path_csv file) ;;
             ret (df_final, stdin')) w2
          else if String.eqb (Str.lower fileChoice) "excel" then
            (Obj.to_excel df_final (clean_path_excel file) "Sheet1" ;;
             ret (df_final, stdin')) w2
          else
            (print MsgInvalidChoice ;; menu_loop stdin' df_final file) w2
      end
  | Some 1%Z => (zero_negatives df_final ;; menu_loop stdin df_final file) w1
  | Some 2%Z =>
      (cols <- Obj.columns df_final ;;
       print (MsgFeatures cols) ;;
       emit (Prompt AskFeature) ;;
       match stdin with
       | [] => print MsgInvalidChoice ;; menu_loop stdin df_final file
       | removeColumn :: stdin' =>
           df_final' <-
             try_except (Obj.drop df_final removeColumn)
                        (fun _ => print MsgInvalidChoice ;; ret df_final) ;;
           menu_loop stdin' df_final' file
       end) w1
  | Some _ => (print MsgInvalidChoice ;; menu_loop stdin df_final file) w1
  end.
Proof.
  simpl. unfold bind at 1. simpl.
  destruct (PyInt.int line) as [[|[p|[p|p|]|]|p]|]; try reflexivity.
  destruct stdin as [|fileChoice stdin']; [reflexivity|].
  unfold bind at 1. simpl.
  destruct (String.eqb (Str.lower fileChoice) "csv"); [reflexivity|].
  destruct (String.eqb (Str.lower fileChoice) "excel"); reflexivity.
Qed.

(** C8: after menu choice 1 the menu goes on with the same frame object,
    rewritten in place: the row labels (so the row count), the column names
    and every non-numeric column are as before, and in every numeric column
    each value that was at least zero is unchanged, each value below zero is
    now zero, and so every value is at least zero; the column keeps its
    dtype, except that a float64 column whose values were all below zero
    comes out as int64.  The working frame of the menu has no NaN: [main]
    drops the rows with missing values first. *)
Theorem zero_negatives_menu (w : world) (df_final : loc) (d : DataFrame)
  (file line : string) (stdin : list string) :
  heap w !! df_final = Some d -> DF.wf d -> no_nan d ->
  PyInt.int line = Some 1%Z ->
  exists d' : DataFrame,
    menu_loop (line :: stdin) df_final file w
    = menu_loop stdin df_final file
        (mkWorld (<[df_final := d']> (heap w))
                 (console w ++ [Prompt AskMenuChoice])) /\
    index d' = index d /\
    DF.shape0 d' = DF.shape0 d /\
    DF.columns d' = DF.columns d /\
    (forall name vals,
        DF.getitem d name = Some (ObjCol vals) ->
        DF.getitem d' name = Some (ObjCol vals)) /\
    (forall name dt vals,
        DF.getitem d name = Some (NumCol dt vals) ->
        exists vals' : list Num.number,
          DF.getitem d' name = Some (NumCol (Num.apply_dtype dt vals) vals') /\
          length vals' = length vals /\
          Forall (fun x => exists v', x = Some v' /\ (0 <= v')%Q) vals' /\
          forall (i : nat) (x : Num.number),
            vals !! i = Some x ->
            exists v v' : Q,
              x = Some v /\ vals' !! i = Some (Some v') /\
              ((0 <= v)%Q -> v' = v) /\ ((v < 0)%Q -> v' = 0%Q)).
Proof.
  intros Hdf _ Hnan Hline.
  destruct (zero_negatives_passes (DF.columns d) d) as (Hi & Hc & Hg).
  exists (fold_left zero_negatives_pass (DF.columns d) d).
  split.
  { rewrite menu_loop_cons, Hline. cbv zeta. unfold bind at 1.
    rewrite (zero_negatives_run _ df_final d) by exact Hdf. reflexivity. }
  split; [exact Hi|]. split; [unfold DF.shape0; rewrite Hi; reflexivity|].
  split; [exact Hc|].
  assert (Hin : forall name c, DF.getitem d name = Some c ->
                  existsb (String.eqb name) (DF.columns d) = true).
  { intros name c H. apply existsb_eqb_In, assoc_In.
    unfold DF.getitem in H. congruence. }
  split.
  - intros name vals Hget. rewrite Hg, (Hin name _ Hget), Hget. reflexivity.
  - intros name dt vals Hget. exists (map Num.zero_if_negative vals).
    rewrite Hg, (Hin name _ Hget), Hget. split; [reflexivity|].
    split; [apply length_map|].
    pose proof (no_nan_getitem d name dt vals Hnan Hget) as Hnan'.
    split.
    + apply Forall_map. eapply Forall_impl; [exact Hnan'|].
      intros [v|] Hx; [|congruence]. simpl.
      destruct (zero_if_negative_spec v) as (v' & -> & H0 & _). eauto.
    + intros i x Hi'.
      assert (Hx : x <> None).
      { eapply Forall_lookup_1 in Hnan'; eassumption. }
      destruct x as [v|]; [|congruence].
      destruct (zero_if_negative_spec v) as (v' & Hz & _ & Hsame & Hzero).
      exists v, v'. split; [reflexivity|].
      rewrite list_lookup_fmap, Hi'. simpl. rewrite Hz. auto.
Qed.

(** The theorem on a ledger with negative amounts. *)
Lemma zero_negatives_menu_witness :
  exists d' : DataFrame,
    menu_loop ["1"; "0"; "csv"] 0 "ledger.csv" (mkWorld [Sample.ledger] [])
    = menu_loop ["0"; "csv"] 0 "ledger.csv"
        (mkWorld (<[0 := d']> [Sample.ledger]) [Prompt AskMenuChoice]) /\
    DF.getitem d' "amount" = Some (NumCol Num.Float64 [Some 0%Q; Some 0%Q; Some 7%Q]).
Proof.
  destruct (zero_negatives_menu (mkWorld [Sample.ledger] []) 0 Sample.ledger
              "ledger.csv" "1" ["0"; "csv"]) as (d' & Hrun & _).
  - reflexivity.
  - prove_wf.
  - repeat constructor; discriminate.
  - reflexivity.
  - exists d'. split; [exact Hrun|].
    vm_compute in Hrun. injection Hrun as <-. reflexivity.
Defined.

(** ** Menu choice 2 *)

Lemma drop_Some (d : DataFrame) (name : string) :
  In name (DF.columns d) ->
  DF.drop d name
  = Some (mkDataFrame (index d)
            (List.filter (fun nc => negb (String.eqb (fst nc) name)) (data d))).
Proof.
  intros H. unfold DF.drop.
  rewrite (proj2 (existsb_eqb_In name (DF.columns d)) H). reflexivity.
Qed.

Lemma drop_None (d : DataFrame) (name : string) :
  ~ In name (DF.columns d) -> DF.drop d name = None.
Proof.
  intros H. unfold DF.drop.
  destruct (existsb (String.eqb name) (DF.columns d)) eqn:E; [|reflexivity].
  apply existsb_eqb_In in E. contradiction.
Qed.

Lemma filter_absent (name : string) (l : list (string * column)) :
  ~ In name (map fst l) ->
  List.filter (fun nc => negb (String.eqb (fst nc) name)) l = l.
Proof.
  induction l as [|[n c] t IH]; simpl; [reflexivity|].
  intros H. destruct (String.eqb_spec n name) as [->|_]; simpl.
  - exfalso. apply H. left. reflexivity.
  - rewrite IH; [reflexivity|]. intros Hin. apply H. right. exact Hin.
Qed.

(** With unique names, dropping a name takes exactly one entry out. *)
Lemma filter_removes_one (name : string) (l : list (string * column)) :
  List.NoDup (map fst l) -> In name (map fst l) ->
  exists pre c post,
    l = pre ++ (name, c) :: post /\
    List.filter (fun nc => negb (String.eqb (fst nc) name)) l = pre ++ post.
Proof.
  induction l as [|[n c] t IH]; simpl; [contradiction|].
  intros Hnd Hin. apply List.NoDup_cons_iff in Hnd. destruct Hnd as [Hn Hnd].
  destruct (String.eqb_spec n name) as [->|Hne]; simpl.
  - exists [], c, t. split; [reflexivity|]. simpl. apply filter_absent, Hn.
  - destruct Hin as [Heq|Hin]; [contradiction|].
    destruct (IH Hnd Hin) as (pre & c' & post & -> & Hf).
    exists ((n, c) :: pre), c', post. simpl. rewrite Hf. auto.
Qed.

Lemma assoc_filter_other (name other : string) (l : list (string * column)) :
  other <> name ->
  DF.assoc other (List.filter (fun nc => negb (String.eqb (fst nc) name)) l)
  = DF.assoc other l.
Proof.
  intros Hne. induction l as [|[n c] t IH]; simpl; [reflexivity|].
  destruct (String.eqb_spec n name) as [->|Hn]; simpl.
  - destruct (String.eqb_spec name other) as [<-|_]; [contradiction | exact IH].
  - rewrite IH. reflexivity.
Qed.

(** C9: menu choice 2 with the name of an existing column binds the working
    frame to a new frame that is the old one without exactly that column:
    same row labels (so the same row count), and every other column in its
    place with its values; with a name that is no column it prints the error
    and nothing changes.  In both cases the menu goes on with the remaining
    input. *)
Theorem drop_column_menu (w : world) (df_final : loc) (d : DataFrame)
  (file line name : string) (stdin : list string) :
  heap w !! df_final = Some d -> DF.wf d ->
  PyInt.int line = Some 2%Z ->
  let asked := console w ++ [Prompt AskMenuChoice;
                             Stdout (MsgFeatures (DF.columns d));
                             Prompt AskFeature] in
  (In name (DF.columns d) ->
   exists (d' : DataFrame) (pre post : list (string * column)) (c : column),
     menu_loop (line :: name :: stdin) df_final file w
     = menu_loop stdin (length (heap w)) file
         (mkWorld (heap w ++ [d']) asked) /\
     index d' = index d /\
     DF.shape0 d' = DF.shape0 d /\
     data d = pre ++ (name, c) :: post /\
     data d' = pre ++ post /\
     ~ In name (DF.columns d') /\
     forall other, other <> name -> DF.getitem d' other = DF.getitem d other) /\
  (~ In name (DF.columns d) ->
   menu_loop (line :: name :: stdin) df_final file w
   = menu_loop stdin df_final file
       (mkWorld (heap w) (asked ++ [Stdout MsgInvalidChoice]))).
Proof.
  intros Hdf [Hnd _] Hline asked.
  assert (Hstart : menu_loop (line :: name :: stdin) df_final file w
    = (df_final' <-
         try_except (Obj.drop df_final name)
                    (fun _ => print MsgInvalidChoice ;; ret df_final) ;;
       menu_loop stdin df_final' file) (mkWorld (heap w) asked)).
  { rewrite menu_loop_cons, Hline. cbv zeta.
    unfold bind at 1. rewrite (columns_run _ df_final d) by exact Hdf.
    unfold bind at 1, print, emit at 1. simpl.
    unfold bind at 1, emit at 1. simpl.
    subst asked. rewrite <- !app_assoc. reflexivity. }
  split.
  - intros Hin.
    destruct (filter_removes_one name (data d) Hnd Hin)
      as (pre & c & post & Hdata & Hfilter).
    exists (mkDataFrame (index d) (pre ++ post)), pre, post, c.
    split.
    { rewrite Hstart. unfold bind at 1, try_except.
      rewrite (drop_run _ df_final d) by exact Hdf.
      rewrite (drop_Some d name Hin), Hfilter. reflexivity. }
    repeat split; try assumption; simpl.
    + unfold DF.columns. simpl. rewrite <- Hfilter.
      intros H. apply List.in_map_iff in H. destruct H as ([n c'] & Hn & H).
      apply List.filter_In in H. destruct H as [_ H]. simpl in *. subst n.
      rewrite String.eqb_refl in H. discriminate.
    + intros other Hne. unfold DF.getitem. simpl. rewrite <- Hfilter.
      apply assoc_filter_other, Hne.
  - intros Hnot. rewrite Hstart. unfold bind at 1, try_except.
    rewrite (drop_run _ df_final d) by exact Hdf.
    rewrite (drop_None d name Hnot). reflexivity.
Qed.

(** The theorem on the ledger, with a name that is a column and one that is
    not. *)
Lemma drop_column_menu_witness :
  (exists d' : DataFrame,
      menu_loop ["2"; "who"; "0"; "csv"] 0 "ledger.csv"
        (mkWorld [Sample.ledger] [])
      = menu_loop ["0"; "csv"] 1 "ledger.csv"
          (mkWorld ([Sample.ledger] ++ [d'])
             [Prompt AskMenuChoice;
              Stdout (MsgFeatures ["amount"; "who"; "delta"]);
              Prompt AskFeature]) /\
      DF.columns d' = ["amount"; "delta"]) /\
  menu_loop ["2"; "age"; "0"; "csv"] 0 "ledger.csv"
    (mkWorld [Sample.ledger] [])
  = menu_loop ["0"; "csv"] 0 "ledger.csv"
      (mkWorld [Sample.ledger]
         [Prompt AskMenuChoice;
          Stdout (MsgFeatures ["amount"; "who"; "delta"]);
          Prompt AskFeature; Stdout MsgInvalidChoice]).
Proof.
  split.
  - destruct (proj1 (drop_column_menu (mkWorld [Sample.ledger] []) 0
                Sample.ledger "ledger.csv" "2" "who" ["0"; "csv"]
                eq_refl ltac:(prove_wf) eq_refl))
      as (d' & pre & post & c & Hrun & _).
    + simpl. auto.
    + exists d'. split; [exact Hrun|].
      vm_compute in Hrun. injection Hrun as <-. reflexivity.
  - apply (proj2 (drop_column_menu (mkWorld [Sample.ledger] []) 0
                Sample.ledger "ledger.csv" "2" "age" ["0"; "csv"]
                eq_refl ltac:(prove_wf) eq_refl)).
    simpl. intuition discriminate.
Defined.

(** ** Menu choice 0 *)

(** C5, as the claim states it, fails: the session on [people.csv] exports
    to [people.csv_clean.csv], not to [people_clean.csv]. *)
Lemma export_path_keeps_extension :
  FileName.base_name "people.csv" = "people" /\
  fst (main Sample.disk Sample.session Sample.empty_world) = Ok tt /\
  In (ToCsv "Data-Analyzer/Cleaned_Dataset/people.csv_clean.csv"
        Sample.people_cleaned)
     (console (snd (main Sample.disk Sample.session Sample.empty_world))) /\
  ~ In (ToCsv "Data-Analyzer/Cleaned_Dataset/people_clean.csv"
          Sample.people_cleaned)
      (console (snd (main Sample.disk Sample.session Sample.empty_world))).
Proof.
  split; [vm_compute; reflexivity|]. split; [vm_compute; reflexivity|]. split.
  - vm_compute. find_in_list.
  - vm_compute. intuition discriminate.
Qed.

(** C5, amended: on Finish with a valid format (["csv"] or ["excel"] in any
    letter case) the frame is written to
    [Data-Analyzer/Cleaned_Dataset/<file>_clean.csv], or [..._clean.xlsx]
    with the sheet name ["Sheet1"], where [<file>] is the file name handed to
    [optional_operations], which [main] makes the name the user typed,
    extension included; the loop ends and returns the frame. *)
Theorem finish_exports (w : world) (df_final : loc) (d : DataFrame)
  (file line fileChoice : string) (stdin : list string) :
  heap w !! df_final = Some d ->
  PyInt.int line = Some 0%Z ->
  let asked := console w ++ [Prompt AskMenuChoice; Prompt AskFormat] in
  (Str.lower fileChoice = "csv" ->
   menu_loop (line :: fileChoice :: stdin) df_final file w
   = (Ok (df_final, stdin),
      mkWorld (heap w)
        (asked ++ [ToCsv ("Data-Analyzer/Cleaned_Dataset/" ++ file
                          ++ "_clean.csv")%string d]))) /\
  (Str.lower fileChoice = "excel" ->
   menu_loop (line :: fileChoice :: stdin) df_final file w
   = (Ok (df_final, stdin),
      mkWorld (heap w)
        (asked ++ [ToExcel ("Data-Analyzer/Cleaned_Dataset/" ++ file
                            ++ "_clean.xlsx")%string "Sheet1" d]))).
Proof.
  intros Hdf Hline asked.
  split; intros Hfc; rewrite menu_loop_cons, Hline; cbv zeta; rewrite Hfc;
    simpl String.eqb; cbv iota.
  - unfold bind, Obj.to_csv, bind, load, emit, ret. simpl. rewrite Hdf. simpl.
    subst asked. rewrite <- !app_assoc. reflexivity.
  - unfold bind, Obj.to_excel, bind, load, emit, ret. simpl. rewrite Hdf. simpl.
    subst asked. rewrite <- !app_assoc. reflexivity.
Qed.

(** The theorem for both formats, typed with capitals. *)
Lemma finish_exports_witness :
  menu_loop ["0"; "CSV"] 0 "people.csv" (mkWorld [Sample.people_cleaned] [])
  = (Ok (0, []),
     mkWorld [Sample.people_cleaned]
       [Prompt AskMenuChoice; Prompt AskFormat;
        ToCsv "Data-Analyzer/Cleaned_Dataset/people.csv_clean.csv"
          Sample.people_cleaned]) /\
  menu_loop ["0"; "Excel"] 0 "people.csv" (mkWorld [Sample.people_cleaned] [])
  = (Ok (0, []),
     mkWorld [Sample.people_cleaned]
       [Prompt AskMenuChoice; Prompt AskFormat;
        ToExcel "Data-Analyzer/Cleaned_Dataset/people.csv_clean.xlsx" "Sheet1"
          Sample.people_cleaned]).
Proof.
  split.
  - apply (proj1 (finish_exports (mkWorld [Sample.people_cleaned] []) 0
                    Sample.people_cleaned "people.csv" "0" "CSV" []
                    eq_refl eq_refl)).
    reflexivity.
  - apply (proj2 (finish_exports (mkWorld [Sample.people_cleaned] []) 0
                    Sample.people_cleaned "people.csv" "0" "Excel" []
                    eq_refl eq_refl)).
    reflexivity.
Defined.

(** ** The caller's frame *)

(** The menu loop writes only to the object bound to [df_final] and to
    objects it creates: any other object [df] of the store is as before,
    however the loop ends. *)
Lemma menu_loop_frame (df : loc) (d : DataFrame) (file : string) (n : nat) :
  forall (stdin : list string) (df_final : loc) (dd : DataFrame) (w : world),
    length stdin <= n ->
    heap w !! df = Some d ->
    heap w !! df_final = Some dd ->
    df_final <> df ->
    frame_kept df d (menu_loop stdin df_final file w).
Proof.
  induction n as [|n IH]; intros stdin l dd w Hlen Hdf Hl Hne.
  { destruct stdin; [|simpl in Hlen; lia].
    split; [exact Hdf | discriminate]. }
  destruct stdin as [|line stdin].
  { split; [exact Hdf | discriminate]. }
  simpl in Hlen. rewrite menu_loop_cons. cbv zeta.
  set (w1 := mkWorld (heap w) (console w ++ [Prompt AskMenuChoice])).
  assert (Hprint : forall m stdin' l' dd' w',
             length stdin' <= n -> heap w' !! df = Some d ->
             heap w' !! l' = Some dd' -> l' <> df ->
             frame_kept df d ((print m ;; menu_loop stdin' l' file) w')).
  { intros m stdin' l' dd' w' Hlen' Hdf' Hl' Hne'.
    unfold bind, print, emit. simpl. eapply IH; eauto. }
  destruct (PyInt.int line) as [[|[p|[p|p|]|]|p]|];
    try (apply (Hprint _ stdin l dd w1); (lia || assumption));
    try (split; [exact Hdf | discriminate]).
  - (* 0: finish *)
    destruct stdin as [|fileChoice stdin']; [split; [exact Hdf | discriminate]|].
    simpl in Hlen.
    destruct (String.eqb (Str.lower fileChoice) "csv");
      [|destruct (String.eqb (Str.lower fileChoice) "excel")].
    + unfold bind, Obj.to_csv, bind, load, emit, ret. simpl. rewrite Hl.
      split; [exact Hdf|]. intros out rest [= <- _]. exact Hne.
    + unfold bind, Obj.to_excel, bind, load, emit, ret. simpl. rewrite Hl.
      split; [exact Hdf|]. intros out rest [= <- _]. exact Hne.
    + eapply Hprint; eauto. lia.
  - (* 2: drop a column *)
    unfold bind at 1. rewrite (columns_run w1 l dd Hl).
    unfold bind at 1, print, emit at 1. simpl.
    unfold bind at 1, emit at 1. simpl.
    destruct stdin as [|name stdin'].
    + eapply Hprint; eauto. simpl. lia.
    + simpl in Hlen. unfold bind at 1, try_except.
      match goal with |- context [Obj.drop l name ?w2] =>
        rewrite (drop_run w2 l dd Hl) end.
      destruct (DF.drop dd name) as [d'|].
      * eapply IH; simpl.
        -- lia.
        -- apply lookup_snoc_old, Hdf.
        -- apply lookup_snoc_new.
        -- apply lookup_lt_Some in Hdf. lia.
      * unfold bind, print, emit, ret. simpl. eapply IH; eauto. lia.
  - (* 1: zero the negatives *)
    unfold bind at 1. rewrite (zero_negatives_run w1 l dd Hl).
    eapply IH; simpl.
    + lia.
    + rewrite list_lookup_insert_ne by exact Hne. exact Hdf.
    + apply list_lookup_insert_eq. eapply lookup_lt_Some, Hl.
    + exact Hne.
Qed.

(** C10: [remove_outliers] and [optional_operations] work on a copy.
    [remove_outliers] returns a frame object other than its argument, and
    [optional_operations], whatever is typed and however it ends, leaves the
    object passed in with the columns, rows and values it had; the frame it
    returns is another object. *)
Theorem argument_frame_unchanged (w : world) (df : loc) (d : DataFrame) :
  heap w !! df = Some d ->
  (exists (out : loc) (w' : world),
      remove_outliers df w = (Ok out, w') /\
      out <> df /\ heap w' !! df = Some d) /\
  (forall (file : string) (stdin : list string),
      heap (snd (optional_operations df file stdin w)) !! df = Some d /\
      forall out rest,
        fst (optional_operations df file stdin w) = Ok (out, rest) ->
        out <> df).
Proof.
  intros Hdf. split.
  - destruct (remove_outliers_run w df d Hdf)
      as (out & added & Hrun & Hout & Hle).
    exists out, (mkWorld (heap w ++ added) (console w)).
    split; [exact Hrun|]. split.
    + apply lookup_lt_Some in Hdf. lia.
    + simpl. apply lookup_app_l_Some, Hdf.
  - intros file stdin. unfold optional_operations, bind.
    rewrite (copy_run w df d Hdf).
    eapply (menu_loop_frame df d file (length stdin)); simpl.
    + lia.
    + apply lookup_snoc_old, Hdf.
    + apply lookup_snoc_new.
    + apply lookup_lt_Some in Hdf. lia.
Qed.

(** The theorem on the ledger, through a session that zeroes the negatives
    and drops a column. *)
Lemma argument_frame_unchanged_witness :
  (exists (out : loc) (w' : world),
      remove_outliers 0 (mkWorld [Sample.ledger] []) = (Ok out, w') /\
      out <> 0 /\ heap w' !! 0 = Some Sample.ledger) /\
  heap (snd (optional_operations 0 "ledger.csv" ["1"; "2"; "who"; "0"; "csv"]
               (mkWorld [Sample.ledger] []))) !! 0
  = Some Sample.ledger.
Proof.
  destruct (argument_frame_unchanged (mkWorld [Sample.ledger] []) 0
              Sample.ledger eq_refl) as [Hro Hoo].
  split; [exact Hro|].
  apply (Hoo "ledger.csv" ["1"; "2"; "who"; "0"; "csv"]).
Defined.

(** ** The loader *)

Lemma is_prefix_app (p l : list ascii) : Str.is_prefix p (p ++ l) = true.
Proof.
  induction p as [|a p IH]; simpl; [reflexivity|].
  rewrite Ascii.eqb_refl. exact IH.
Qed.

Lemma contains_chars_suffix (p pre : list ascii) :
  Str.contains_chars p (pre ++ p) = true.
Proof.
  induction pre as [|c pre IH]; simpl.
  - rewrite <- (app_nil_r p) at 2.
    destruct p; simpl; [reflexivity|].
    rewrite Ascii.eqb_refl, is_prefix_app. reflexivity.
  - rewrite IH. apply orb_true_r.
Qed.

Lemma last_dot_suffix_is_suffix (l e : list ascii) :
  FileName.last_dot_suffix l = Some e -> exists pre, l = pre ++ e.
Proof.
  revert e. induction l as [|c t IH]; simpl; intros e; [discriminate|].
  destruct (FileName.last_dot_suffix t) as [e'|].
  - intros [= <-]. destruct (IH e' eq_refl) as (pre & ->).
    exists (c :: pre). reflexivity.
  - destruct (Ascii.eqb c "."); [|discriminate].
    intros [= <-]. exists []. reflexivity.
Qed.

Lemma extension_contains (ext name : string) :
  ext <> EmptyString -> FileName.extension name = ext -> Str.contains ext name = true.
Proof.
  intros Hne Hext. unfold FileName.extension in Hext. unfold Str.contains.
  destruct (FileName.last_dot_suffix (list_ascii_of_string name)) as [e|] eqn:E;
    [|congruence].
  destruct (last_dot_suffix_is_suffix _ _ E) as (pre & ->).
  subst ext. rewrite list_ascii_of_string_of_list_ascii.
  apply contains_chars_suffix.
Qed.

(** C7, as the claim states it, fails: [data.csv.txt] has the extension
    [.txt], yet it is read as CSV and not rejected; [data.csv.xlsx] has the
    extension [.xlsx], yet it is read as CSV, with no sheet name asked. *)
Lemma loader_reads_other_extensions_as_csv :
  FileName.extension "data.csv.txt" = ".txt" /\
  main_load Sample.any_csv "data.csv.txt" "Data-Analyzer/Dataset/data.csv.txt"
    [] Sample.empty_world
  = (Ok (Some 0, []), mkWorld [Sample.people] []) /\
  FileName.extension "data.csv.xlsx" = ".xlsx" /\
  main_load Sample.any_csv "data.csv.xlsx" "Data-Analyzer/Dataset/data.csv.xlsx"
    ["Sheet1"] Sample.empty_world
  = (Ok (Some 0, ["Sheet1"]), mkWorld [Sample.people] []).
Proof. repeat split; reflexivity. Qed.

(** C7, amended: the loader chooses the reader by substring.  A file name
    that contains [.csv] anywhere is read as CSV; otherwise a name that
    contains [.xlsx] anywhere is read as Excel, after the sheet name is
    asked; a name that contains neither is rejected as unsupported and
    nothing is read.  So every name whose extension is [.csv] is read as
    CSV, and every name whose extension is [.xlsx] is read as Excel unless
    it also contains [.csv]. *)
Theorem loader_dispatch (fs : filesystem) (fileName filePath : string)
  (stdin : list string) (w : world) :
  let said m := mkWorld (heap w) (console w ++ m) in
  (Str.contains ".csv" fileName = true ->
   main_load fs fileName filePath stdin w =
   match read_csv fs filePath with
   | Ok d =>
       (Ok (Some (length (heap w)), stdin),
        mkWorld (heap w ++ [d]) (console w))
   | Raise FileNotFoundError | Raise UnicodeDecodeError =>
       (Ok (None, stdin), said [Stdout MsgReadError])
   | Raise _ => (Ok (None, stdin), said [Stdout MsgTryAgain])
   end) /\
  (Str.contains ".csv" fileName = false ->
   Str.contains ".xlsx" fileName = true ->
   main_load fs fileName filePath stdin w =
   match stdin with
   | [] => (Ok (None, []), said [Prompt AskSheetName; Stdout MsgReadError])
   | sheet_name :: rest =>
       match read_excel fs filePath sheet_name with
       | Ok d =>
           (Ok (Some (length (heap w)), rest),
            mkWorld (heap w ++ [d]) (console w ++ [Prompt AskSheetName]))
       | Raise _ =>
           (Ok (None, rest), said [Prompt AskSheetName; Stdout MsgReadError])
       end
   end) /\
  (Str.contains ".csv" fileName = false ->
   Str.contains ".xlsx" fileName = false ->
   main_load fs fileName filePath stdin w
   = (Ok (None, stdin), said [Stdout MsgUnsupported])) /\
  (FileName.extension fileName = ".csv" ->
   Str.contains ".csv" fileName = true) /\
  (FileName.extension fileName = ".xlsx" ->
   Str.contains ".xlsx" fileName = true).
Proof.
  intros said. unfold main_load.
  split; [|split; [|split; [|split]]].
  - intros ->. unfold try_except, bind, Obj.pd_read_csv.
    destruct (read_csv fs filePath) as [d|[]]; reflexivity.
  - intros -> ->. unfold try_except, input, bind, emit, Obj.pd_read_excel.
    simpl. destruct stdin as [|sheet_name rest]; simpl.
    + subst said. simpl. rewrite <- app_assoc. reflexivity.
    + destruct (read_excel fs filePath sheet_name) as [d|e]; simpl;
        [reflexivity|].
      subst said. simpl. rewrite <- app_assoc. reflexivity.
  - intros -> ->. reflexivity.
  - apply extension_contains. discriminate.
  - apply extension_contains. discriminate.
Qed.

(** The theorem on three file names. *)
Lemma loader_dispatch_witness :
  main_load Sample.disk "people.csv" "Data-Analyzer/Dataset/people.csv" []
    Sample.empty_world
  = (Ok (Some 0, []), mkWorld [Sample.people] []) /\
  main_load Sample.disk "people.xlsx" "Data-Analyzer/Dataset/people.xlsx"
    ["Sheet1"] Sample.empty_world
  = (Ok (None, []), mkWorld [] [Prompt AskSheetName; Stdout MsgReadError]) /\
  main_load Sample.disk "people.txt" "Data-Analyzer/Dataset/people.txt" []
    Sample.empty_world
  = (Ok (None, []), mkWorld [] [Stdout MsgUnsupported]) /\
  Str.contains ".csv" "people.csv" = true /\
  Str.contains ".xlsx" "people.xlsx" = true.
Proof.
  split; [|split; [|split; [|split]]].
  - apply (proj1 (loader_dispatch Sample.disk "people.csv"
                    "Data-Analyzer/Dataset/people.csv" [] Sample.empty_world)).
    reflexivity.
  - apply (proj1 (proj2 (loader_dispatch Sample.disk "people.xlsx"
                    "Data-Analyzer/Dataset/people.xlsx" ["Sheet1"]
                    Sample.empty_world))); reflexivity.
  - apply (proj1 (proj2 (proj2 (loader_dispatch Sample.disk "people.txt"
                    "Data-Analyzer/Dataset/people.txt" []
                    Sample.empty_world)))); reflexivity.
  - apply (proj1 (proj2 (proj2 (proj2 (loader_dispatch Sample.disk "people.csv"
                    "Data-Analyzer/Dataset/people" [] Sample.empty_world))))).
    reflexivity.
  - apply (proj2 (proj2 (proj2 (proj2 (loader_dispatch Sample.disk "people.xlsx"
                    "Data-Analyzer/Dataset/people" [] Sample.empty_world))))).
    reflexivity.
Defined.

(** ** After a failed load *)

(** With [df] unbound, line 149 raises and nothing else happens. *)
Lemma main_pipeline_unbound (fs : filesystem) (fileName : string)
  (stdin : list string) (w : world) :
  main_pipeline fs None fileName stdin w = (Raise UnboundLocalError, w).
Proof. reflexivity. Qed.

(** The loader itself never raises: it reports and goes on. *)
Lemma main_load_returns (fs : filesystem) (fileName filePath : string)
  (stdin : list string) (w : world) :
  exists df rest w',
    main_load fs fileName filePath stdin w = (Ok (df, rest), w').
Proof.
  unfold main_load.
  destruct (Str.contains ".csv" fileName);
    [|destruct (Str.contains ".xlsx" fileName)].
  - unfold try_except, bind, Obj.pd_read_csv.
    destruct (read_csv fs filePath) as [d|[]]; simpl; eauto.
  - unfold try_except, input, bind, emit, Obj.pd_read_excel. simpl.
    destruct stdin as [|sheet_name rest]; simpl; eauto.
    destruct (read_excel fs filePath sheet_name) as [d|e]; simpl; eauto.
  - simpl. eauto.
Qed.

(** Whatever made the load fail, [main] halts only when line 149 reads the
    unbound [df]: it ends in UnboundLocalError, in the world the loader
    left. *)
Lemma main_after_failed_load (fs : filesystem) (fileName : string)
  (stdin rest : list string) (w w' : world) :
  main_load fs fileName ("Data-Analyzer/Dataset/" ++ fileName)%string stdin
    (mkWorld (heap w) ((console w ++ [Stdout MsgBanner]) ++ [Prompt AskFileName]))
  = (Ok (None, rest), w') ->
  main fs (fileName :: stdin) w = (Raise UnboundLocalError, w').
Proof.
  intros H. unfold main, input, print.
  unfold bind at 1, emit at 1. unfold bind at 1, emit at 1.
  cbn [heap console]. unfold bind at 1. rewrite H. reflexivity.
Qed.

(** C4: on the unsupported name [data.txt] the script prints the message and
    goes on to line 149, where reading the unbound [df] raises
    UnboundLocalError: it does not halt on the load failure, it crashes on
    the undefined Dataset. *)
Theorem main_unsupported_file_crashes (fs : filesystem) (stdin : list string) :
  main fs ("data.txt" :: stdin) Sample.empty_world
  = (Raise UnboundLocalError,
     mkWorld [] [Stdout MsgBanner; Prompt AskFileName; Stdout MsgUnsupported]).
Proof. reflexivity. Qed.

(** ** The end-to-end example *)

(** C2, as the claim states it, fails: no row of the example is an outlier,
    the row with age 200 stays, and the final frame has 3 rows, not 2. *)
Lemma people_row_200_is_kept :
  DF.getitem (cleaning Sample.people) "age"
  = Some (NumCol Num.Int64 [Some 25%Q; Some 200%Q; Some 30%Q]) /\
  DF.shape0 (cleaning Sample.people) = 3 /\
  ~ (DF.shape0 (cleaning Sample.people) = 2 /\
     DF.getitem (cleaning Sample.people) "age"
     = Some (NumCol Num.Int64 [Some 25%Q; Some 30%Q])).
Proof.
  split; [vm_compute; reflexivity|]. split; [vm_compute; reflexivity|].
  intros [H _]. vm_compute in H. discriminate H.
Qed.

(** C2, amended: for the example the bounds of [age] are -103.75 and 246.25,
    so 200 is no outlier and no row is removed by any stage; the names
    become "alice", "bob", "alice"; the final frame has exactly 3 rows, and
    it is the frame [main] exports.  Rows that agree only after the strings
    are cleaned both stay, since duplicates are dropped before. *)
Theorem people_end_to_end :
  (exists (lower_bound upper_bound : Num.float64) (lo hi : Q),
      Num.outlier_bounds Num.Int64 [Some 25%Q; Some 200%Q; Some 30%Q]
      = (lower_bound, upper_bound) /\
      Num.to_Q lower_bound = Some lo /\ Num.to_Q upper_bound = Some hi /\
      (lo == - (415 # 4))%Q /\ (hi == 985 # 4)%Q /\
      (lo <= 200)%Q /\ (200 <= hi)%Q /\
      Num.between_mask [Some 25%Q; Some 200%Q; Some 30%Q]
        (lower_bound, upper_bound) = [true; true; true]) /\
  DF.dropna Sample.people = Sample.people /\
  outlier_passes (DF.columns Sample.people) Sample.people = Sample.people /\
  DF.drop_duplicates Sample.people = Sample.people /\
  cleaning Sample.people = Sample.people_cleaned /\
  DF.shape0 (cleaning Sample.people) = 3 /\
  fst (main Sample.disk Sample.session Sample.empty_world) = Ok tt /\
  (let shown :=
     console (snd (main Sample.disk Sample.session Sample.empty_world)) in
   In (Stdout (MsgNumRows 3)) shown /\
   In (Stdout (MsgUpdatedRows 3)) shown /\
   In (Stdout (MsgRowsRemoved 0)) shown /\
   In (ToCsv "Data-Analyzer/Cleaned_Dataset/people.csv_clean.csv"
         Sample.people_cleaned) shown) /\
  DF.getitem (cleaning Sample.twins) "name"
  = Some (ObjCol [Some "alice"; Some "alice"]) /\
  DF.getitem (cleaning Sample.twins) "age"
  = Some (NumCol Num.Int64 [Some 25%Q; Some 25%Q]).
Proof.
  split.
  { eexists _, _, _, _. split; [vm_compute; reflexivity|].
    split; [vm_compute; reflexivity|]. split; [vm_compute; reflexivity|].
    split; [reflexivity|]. split; [reflexivity|].
    split; [vm_compute; discriminate|].
    split; [vm_compute; discriminate|]. vm_compute. reflexivity. }
  do 6 (split; [vm_compute; reflexivity|]).
  split; [vm_compute; repeat split; find_in_list|].
  split; vm_compute; reflexivity.
Qed.

(** ** The statistics *)

Lemma describe_columns_names (cols : list (string * column)) :
  map fst (Stats.describe_columns cols)
  = map fst (List.filter (fun nc => DF.is_numeric_dtype (snd nc)) cols).
Proof.
  induction cols as [|[n [dt vals|vals]] t IH]; simpl; [reflexivity| |exact IH].
  rewrite IH. reflexivity.
Qed.

(** C6, as the claim states it, fails: on a frame with no numeric column
    [calculate_stats] raises ValueError. *)
Lemma calculate_stats_raises_without_numbers :
  DF.select_dtypes_number Sample.names_only = mkDataFrame [0%Z; 1%Z] [] /\
  fst (calculate_stats 0 (mkWorld [Sample.names_only] [])) = Raise ValueError /\
  ~ (exists stats,
        fst (calculate_stats 0 (mkWorld [Sample.names_only] [])) = Ok stats).
Proof.
  split; [vm_compute; reflexivity|]. split; [vm_compute; reflexivity|].
  intros [stats H]. vm_compute in H. discriminate H.
Qed.

(** C6, amended: [calculate_stats] has no handling of a frame without
    numeric columns: [describe] raises ValueError on the empty selection and
    [calculate_stats] lets it through.  With at least one numeric column it
    returns one summary for each numeric column, in order. *)
Theorem calculate_stats_run (w : world) (df : loc) (d : DataFrame) :
  heap w !! df = Some d ->
  let w' := mkWorld (heap w ++ [DF.select_dtypes_number d]) (console w) in
  ((forall nc, In nc (data d) -> DF.is_numeric_dtype (snd nc) = false) ->
   calculate_stats df w = (Raise ValueError, w')) /\
  ((exists nc, In nc (data d) /\ DF.is_numeric_dtype (snd nc) = true) ->
   exists stats,
     calculate_stats df w = (Ok stats, w') /\
     map fst stats = DF.columns (DF.select_dtypes_number d)).
Proof.
  intros Hdf w'.
  assert (Hrun : calculate_stats df w =
    match Stats.describe (DF.select_dtypes_number d) with
    | Some stats => (Ok stats, w')
    | None => (Raise ValueError, w')
    end).
  { unfold calculate_stats, Obj.select_dtypes_number.
    unfold bind at 1. unfold bind at 1. rewrite (load_run w df d Hdf).
    unfold alloc. unfold bind at 1, Obj.describe, bind, load. simpl.
    rewrite lookup_snoc_new.
    destruct (Stats.describe (DF.select_dtypes_number d)); reflexivity. }
  rewrite Hrun. clear Hrun. unfold Stats.describe.
  assert (Hsel : Forall (fun nc => DF.is_numeric_dtype (snd nc) = true)
                   (data (DF.select_dtypes_number d))).
  { apply List.Forall_forall. intros y Hy. simpl in Hy.
    apply List.filter_In in Hy. tauto. }
  destruct (data (DF.select_dtypes_number d)) as [|x t] eqn:E.
  - split; [reflexivity|].
    intros (nc & Hin & Hnum). exfalso.
    assert (H : In nc (data (DF.select_dtypes_number d)))
      by (apply List.filter_In; auto).
    rewrite E in H. exact H.
  - split.
    + intros Hnone. exfalso.
      assert (H : In x (data (DF.select_dtypes_number d)))
        by (rewrite E; left; reflexivity).
      apply List.filter_In in H. destruct H as [Hin Hnum].
      rewrite (Hnone x Hin) in Hnum. discriminate.
    + intros _. eexists. split; [reflexivity|].
      rewrite describe_columns_names. unfold DF.columns. rewrite E.
      f_equal. clear E.
      induction Hsel as [|y l Hy Hl IH]; simpl; [reflexivity|].
      rewrite Hy, IH. reflexivity.
Qed.

(** The theorem on a frame without and a frame with a numeric column. *)
Lemma calculate_stats_run_witness :
  calculate_stats 0 (mkWorld [Sample.names_only] [])
  = (Raise ValueError,
     mkWorld [Sample.names_only; mkDataFrame [0%Z; 1%Z] []] []) /\
  exists stats,
    calculate_stats 0 (mkWorld [Sample.people_cleaned] [])
    = (Ok stats,
       mkWorld ([Sample.people_cleaned]
                ++ [DF.select_dtypes_number Sample.people_cleaned]) []) /\
    map fst stats = ["age"].
Proof.
  split.
  - apply (proj1 (calculate_stats_run (mkWorld [Sample.names_only] []) 0
                    Sample.names_only eq_refl)).
    simpl. intros nc [<-|[]]. reflexivity.
  - apply (proj2 (calculate_stats_run (mkWorld [Sample.people_cleaned] []) 0
                    Sample.people_cleaned eq_refl)).
    exists ("age", NumCol Num.Int64 [Some 25%Q; Some 200%Q; Some 30%Q]).
    split; [left|]; reflexivity.
Defined.

(** ** The frame the menu works on *)

Lemma clean_strings_loop_run (cols : list string) :
  forall (w : world) (df : loc) (d : DataFrame),
    heap w !! df = Some d ->
    (forall c, In c cols -> In c (DF.columns d)) ->
    clean_strings_loop cols df w
    = (Ok tt, mkWorld (<[df := fold_left clean_strings_pass cols d]> (heap w))
                      (console w)).
Proof.
  induction cols as [|c t IH]; intros w l d Hl Hcols; simpl.
  - unfold ret. rewrite list_insert_id by exact Hl. destruct w; reflexivity.
  - unfold bind at 1. rewrite (getitem_run w l d Hl).
    assert (Hc : DF.getitem d c <> None).
    { apply assoc_In, Hcols. left. reflexivity. }
    unfold clean_strings_pass at 2.
    destruct (DF.getitem d c) as [[dt vals|vals]|] eqn:Eget; [| |contradiction].
    + unfold bind at 1, ret at 1. apply IH; [exact Hl|].
      intros c' Hc'. apply Hcols. right. exact Hc'.
    + unfold bind at 1. rewrite (setitem_run w l d Hl).
      set (d1 := DF.setitem d c _).
      rewrite (IH (mkWorld (<[l := d1]> (heap w)) (console w)) l d1).
      * simpl. rewrite list_insert_insert_eq. reflexivity.
      * simpl. apply list_lookup_insert_eq. eapply lookup_lt_Some, Hl.
      * intros c' Hc'. subst d1. rewrite columns_setitem by congruence.
        apply Hcols. right. exact Hc'.
Qed.

(** [main] hands to the menu a new object that holds [cleaning d], where [d]
    is the frame loaded; the frame loaded is left as it was. *)
Lemma main_preprocess_run (w : world) (df : loc) (d : DataFrame) :
  heap w !! df = Some d ->
  exists (working : loc) (h : list DataFrame) (shown : list event),
    main_preprocess df w = (Ok working, mkWorld h shown) /\
    h !! working = Some (cleaning d) /\
    h !! df = Some d /\
    working <> df.
Proof.
  intros Hdf. unfold main_preprocess.
  unfold bind at 1. rewrite (shape0_run w df d Hdf).
  do 3 (unfold bind at 1, print, emit at 1; cbn [heap console]).
  unfold bind at 1, Obj.dropna, bind at 1.
  match goal with |- context [load df ?w1] =>
    rewrite (load_run w1 df d Hdf) end.
  unfold alloc at 1. cbn [heap console].
  unfold bind at 1, print, emit at 1. cbn [heap console].
  set (d1 := DF.dropna d).
  unfold bind at 1.
  match goal with |- context [remove_outliers (length (heap w)) ?w1] =>
    destruct (remove_outliers_run w1 (length (heap w)) d1)
      as (l2 & added & Hrun & Hl2 & Hle);
      [apply lookup_snoc_new | rewrite Hrun; clear Hrun] end.
  cbn [heap console] in *.
  set (d2 := outlier_passes (DF.columns d1) d1) in *.
  unfold bind at 1, print, emit at 1. cbn [heap console].
  unfold bind at 1, Obj.drop_duplicates, bind at 1.
  match goal with |- context [load l2 ?w1] =>
    rewrite (load_run w1 l2 d2 Hl2) end.
  unfold alloc at 1. cbn [heap console].
  set (h3 := (heap w ++ [d1]) ++ added) in *.
  set (d3 := DF.drop_duplicates d2).
  assert (H3 : (h3 ++ [d3]) !! length h3 = Some d3) by apply lookup_snoc_new.
  unfold bind at 1, print, emit at 1. cbn [heap console].
  unfold bind at 1.
  match goal with |- context [Obj.shape0 (length h3) ?w1] =>
    rewrite (shape0_run w1 (length h3) d3 H3) end.
  do 2 (unfold bind at 1, print, emit at 1; cbn [heap console]).
  unfold bind at 1.
  match goal with |- context [Obj.columns (length h3) ?w1] =>
    rewrite (columns_run w1 (length h3) d3 H3) end.
  unfold bind at 1.
  match goal with |- context [clean_strings_loop _ (length h3) ?w1] =>
    rewrite (clean_strings_loop_run (DF.columns d3) w1 (length h3) d3 H3)
      by auto end.
  cbn [heap console].
  unfold bind, print, emit, ret. cbn [heap console].
  assert (Hlt : df < length h3).
  { apply lookup_lt_Some in Hdf. subst h3. rewrite !length_app. lia. }
  eexists _, _, _. split; [reflexivity|]. split; [|split].
  - rewrite list_lookup_insert_eq by (rewrite length_app; simpl; lia).
    reflexivity.
  - rewrite list_lookup_insert_ne by lia.
    subst h3. rewrite <- !app_assoc. apply lookup_app_l_Some, Hdf.
  - lia.
Qed.

(** *** The invariant of a DataFrame through the cleaning *)

Lemma length_select {A B} (mask : list bool) (l1 : list A) (l2 : list B) :
  length l1 = length l2 ->
  length (DF.select mask l1) = length (DF.select mask l2).
Proof.
  revert l1 l2. induction mask as [|b m IH]; intros [|x l1] [|y l2];
    simpl; try reflexivity; try discriminate.
  intros [= H]. destruct b; simpl; rewrite (IH l1 l2 H); reflexivity.
Qed.

Lemma col_length_select_col (mask : list bool) (c : column) (ix : list Z) :
  DF.col_length c = length ix ->
  DF.col_length (DF.select_col mask c) = length (DF.select mask ix).
Proof. destruct c as [dt vals|vals]; simpl; apply length_select. Qed.

Lemma wf_getitem_mask (d : DataFrame) (mask : list bool) :
  DF.wf d -> DF.wf (DF.getitem_mask d mask).
Proof.
  intros [Hnd Hlen]. split.
  - rewrite columns_getitem_mask. exact Hnd.
  - unfold DF.getitem_mask, DF.shape0 in *. simpl.
    apply Forall_map. eapply Forall_impl; [exact Hlen|].
    intros [n c] H. simpl in *. apply col_length_select_col, H.
Qed.

Lemma wf_setitem (d : DataFrame) (name : string) (c : column) :
  DF.wf d -> DF.getitem d name <> None -> DF.col_length c = DF.shape0 d ->
  DF.wf (DF.setitem d name c).
Proof.
  intros [Hnd Hlen] Hget Hc. split.
  - rewrite columns_setitem by exact Hget. exact Hnd.
  - unfold DF.setitem, DF.shape0 in *. simpl. clear Hnd Hget.
    induction Hlen as [|[n c0] t H0 Ht IH]; simpl.
    + repeat constructor. exact Hc.
    + destruct (String.eqb n name); constructor; auto.
Qed.

Lemma wf_getitem_length (d : DataFrame) (name : string) (c : column) :
  DF.wf d -> DF.getitem d name = Some c -> DF.col_length c = DF.shape0 d.
Proof.
  intros [_ Hlen] Hget. apply assoc_Some_In in Hget.
  rewrite List.Forall_forall in Hlen. exact (Hlen _ Hget).
Qed.

Lemma wf_outlier_passes (cols : list string) (d : DataFrame) :
  DF.wf d -> DF.wf (outlier_passes cols d).
Proof.
  revert d. induction cols as [|c t IH]; intros d Hwf; [exact Hwf|].
  apply IH. unfold outlier_pass.
  destruct (DF.getitem d c) as [[dt vals|vals]|]; try exact Hwf.
  apply wf_getitem_mask, Hwf.
Qed.

Lemma length_clean_strings (vals : list (option string)) :
  length (clean_strings vals) = length vals.
Proof. unfold clean_strings. rewrite !length_map. reflexivity. Qed.

Lemma wf_clean_strings_passes (cols : list string) (d : DataFrame) :
  DF.wf d -> DF.wf (fold_left clean_strings_pass cols d).
Proof.
  revert d. induction cols as [|c t IH]; intros d Hwf; [exact Hwf|].
  apply IH. unfold clean_strings_pass.
  destruct (DF.getitem d c) as [[dt vals|vals]|] eqn:E; try exact Hwf.
  apply wf_setitem; [exact Hwf | congruence |].
  simpl. rewrite length_clean_strings.
  exact (wf_getitem_length d c _ Hwf E).
Qed.

Lemma wf_cleaning (d : DataFrame) : DF.wf d -> DF.wf (cleaning d).
Proof.
  intros Hwf. unfold cleaning.
  apply wf_clean_strings_passes, wf_getitem_mask, wf_outlier_passes,
    wf_getitem_mask, Hwf.
Qed.

(** *** No NaN after [dropna] *)

Lemma covered_and_l (a b : list bool) : DF.covered (DF.and_masks a b) a.
Proof.
  revert b. induction a as [|x a IH]; intros [|y b]; simpl; auto.
  split; [|apply IH]. intros H. apply andb_true_iff in H. tauto.
Qed.

Lemma covered_and_r (a b : list bool) : DF.covered (DF.and_masks a b) b.
Proof.
  revert b. induction a as [|x a IH]; intros [|y b]; simpl; auto.
  split; [|apply IH]. intros H. apply andb_true_iff in H. tauto.
Qed.

Lemma covered_trans (a b c : list bool) :
  DF.covered a b -> DF.covered b c -> DF.covered a c.
Proof.
  revert b c. induction a as [|x a IH]; intros [|y b] [|z c]; simpl; auto;
    try contradiction.
  intros [H1 H2] [H3 H4]. split; [auto | eapply IH; eassumption].
Qed.

Lemma complete_mask_covered (n : nat) (cols : list (string * column))
  (nc : string * column) :
  In nc cols ->
  DF.covered (fold_right (fun nc m => DF.and_masks (DF.notna (snd nc)) m)
             (repeat true n) cols)
          (DF.notna (snd nc)).
Proof.
  induction cols as [|x t IH]; simpl; [contradiction|].
  intros [->|Hin].
  - apply covered_and_l.
  - eapply covered_trans; [apply covered_and_r | apply IH, Hin].
Qed.

Lemma select_covered_present {A} (m : list bool) (vals : list (option A)) :
  DF.covered m (map (fun x => match x with Some _ => true | None => false end) vals) ->
  Forall (fun x => x <> None) (DF.select m vals).
Proof.
  revert vals. induction m as [|b m IH]; intros [|x vals]; simpl;
    try constructor; try contradiction.
  intros [Hb Hm]. destruct b; [|apply IH, Hm].
  constructor; [|apply IH, Hm].
  destruct x; [discriminate | specialize (Hb eq_refl); discriminate].
Qed.

Lemma no_nan_dropna (d : DataFrame) : no_nan (DF.dropna d).
Proof.
  unfold no_nan, DF.dropna, DF.getitem_mask. simpl.
  apply Forall_map. apply List.Forall_forall. intros [n c] Hin. simpl.
  pose proof (complete_mask_covered (DF.shape0 d) (data d) (n, c) Hin) as Hcov.
  simpl in Hcov. destruct c as [dt vals|vals]; simpl; [|exact I].
  apply select_covered_present, Hcov.
Qed.

Lemma no_nan_getitem_mask (d : DataFrame) (mask : list bool) :
  no_nan d -> no_nan (DF.getitem_mask d mask).
Proof.
  unfold no_nan, DF.getitem_mask. simpl. intros H.
  apply Forall_map. eapply Forall_impl; [exact H|].
  intros [n [dt vals|vals]]; simpl; [|auto]. apply select_Forall.
Qed.

Lemma no_nan_outlier_passes (cols : list string) (d : DataFrame) :
  no_nan d -> no_nan (outlier_passes cols d).
Proof.
  revert d. induction cols as [|c t IH]; intros d H; [exact H|].
  apply IH. unfold outlier_pass.
  destruct (DF.getitem d c) as [[dt vals|vals]|]; try exact H.
  apply no_nan_getitem_mask, H.
Qed.

Lemma no_nan_clean_strings_passes (cols : list string) (d : DataFrame) :
  no_nan d -> no_nan (fold_left clean_strings_pass cols d).
Proof.
  revert d. induction cols as [|c t IH]; intros d H; [exact H|].
  apply IH. unfold clean_strings_pass.
  destruct (DF.getitem d c) as [[dt vals|vals]|]; try exact H.
  unfold no_nan, DF.setitem in *. simpl.
  induction H as [|[n c0] l H0 Hl IHl]; simpl.
  - repeat constructor.
  - destruct (String.eqb n c); constructor; simpl; auto.
Qed.

(** The frame the menu starts from is a well-formed frame without NaN: the
    hypotheses of the theorems on the menu hold of it. *)
Lemma cleaning_invariant (d : DataFrame) :
  DF.wf d -> DF.wf (cleaning d) /\ no_nan (cleaning d).
Proof.
  intros Hwf. split; [apply wf_cleaning, Hwf|].
  unfold cleaning.
  apply no_nan_clean_strings_passes, no_nan_getitem_mask,
    no_nan_outlier_passes, no_nan_dropna.
Qed.

(** The two operations of the menu keep both. *)
Lemma no_nan_setitem (d : DataFrame) (name : string) (c : column) :
  no_nan d ->
  match c with
  | NumCol dt vals => Forall (fun x => x <> None) vals
  | ObjCol _ => True
  end ->
  no_nan (DF.setitem d name c).
Proof.
  unfold no_nan, DF.setitem. simpl. intros H Hc.
  induction H as [|[n c0] l H0 Hl IHl]; simpl.
  - repeat constructor. exact Hc.
  - destruct (String.eqb n name); constructor; simpl; auto.
Qed.

Lemma zero_negatives_keeps_invariant (cols : list string) (d : DataFrame) :
  DF.wf d -> no_nan d ->
  DF.wf (fold_left zero_negatives_pass cols d) /\
  no_nan (fold_left zero_negatives_pass cols d).
Proof.
  revert d. induction cols as [|c t IH]; intros d Hwf Hnan; [auto|].
  simpl. unfold zero_negatives_pass at 2 4.
  destruct (DF.getitem d c) as [[dt vals|vals]|] eqn:E; try (apply IH; assumption).
  apply IH.
  - apply wf_setitem; [exact Hwf | congruence |].
    simpl. rewrite length_map. exact (wf_getitem_length d c _ Hwf E).
  - apply no_nan_setitem; [exact Hnan|].
    apply Forall_map. eapply Forall_impl; [exact (no_nan_getitem d c dt vals Hnan E)|].
    intros [v|] Hx; [|congruence]. simpl.
    destruct (zero_if_negative_spec v) as (v' & -> & _). discriminate.
Qed.

Lemma drop_keeps_invariant (d d' : DataFrame) (name : string) :
  DF.wf d -> no_nan d -> DF.drop d name = Some d' ->
  DF.wf d' /\ no_nan d'.
Proof.
  intros [Hnd Hlen] Hnan. unfold DF.drop.
  destruct (existsb (String.eqb name) (DF.columns d)); [|discriminate].
  intros [= <-]. split; [split|].
  - unfold DF.columns in *. simpl. clear Hlen Hnan.
    induction (data d) as [|[n c] l IH]; simpl; [constructor|].
    simpl in Hnd. apply List.NoDup_cons_iff in Hnd. destruct Hnd as [Hn Hnd].
    destruct (String.eqb n name); simpl; [apply IH, Hnd|].
    constructor; [|apply IH, Hnd].
    intros H. apply Hn. apply List.in_map_iff in H.
    destruct H as (x & Hx & H). apply List.filter_In in H.
    apply List.in_map_iff. exists x. tauto.
  - unfold DF.shape0 in *. simpl. apply List.Forall_forall. intros x Hx.
    apply List.filter_In in Hx. rewrite List.Forall_forall in Hlen.
    apply Hlen. tauto.
  - unfold no_nan in *. simpl. apply List.Forall_forall. intros x Hx.
    apply List.filter_In in Hx. rewrite List.Forall_forall in Hnan.
    apply Hnan. tauto.
Qed.

(* ================================================================= *)
(** * Further properties of the script *)

(** ** The menu: input it does not accept *)

(** A menu line that [int] rejects ends the program with ValueError; an
    integer other than 0, 1 and 2 prints the error and the menu goes on with
    the store untouched; at the end of the input the prompt raises
    EOFError. *)
Theorem menu_bad_choice (w : world) (df_final : loc) (file line : string)
  (stdin : list string) :
  let asked := mkWorld (heap w) (console w ++ [Prompt AskMenuChoice]) in
  (PyInt.int line = None ->
   menu_loop (line :: stdin) df_final file w = (Raise ValueError, asked)) /\
  (forall z : Z,
      PyInt.int line = Some z -> z <> 0%Z -> z <> 1%Z -> z <> 2%Z ->
      menu_loop (line :: stdin) df_final file w
      = menu_loop stdin df_final file
          (mkWorld (heap w)
             (console w ++ [Prompt AskMenuChoice; Stdout MsgInvalidChoice]))) /\
  menu_loop [] df_final file w = (Raise EOFError, asked).
Proof.
  intros asked. split; [|split].
  - intros H. rewrite menu_loop_cons, H. reflexivity.
  - intros z H H0 H1 H2. rewrite menu_loop_cons, H. cbv zeta.
    assert (E : (print MsgInvalidChoice ;; menu_loop stdin df_final file)
                 (mkWorld (heap w) (console w ++ [Prompt AskMenuChoice]))
               = menu_loop stdin df_final file
                   (mkWorld (heap w)
                      (console w ++ [Prompt AskMenuChoice; Stdout MsgInvalidChoice]))).
    { unfold bind, print, emit. simpl. rewrite <- app_assoc. reflexivity. }
    destruct z as [|[p|[p|p|]|]|p]; try contradiction; exact E.
  - reflexivity.
Qed.

(** The theorem on three lines of input. *)
Lemma menu_bad_choice_witness :
  menu_loop ["one"; "0"; "csv"] 0 "f.csv" (mkWorld [Sample.ledger] [])
  = (Raise ValueError, mkWorld [Sample.ledger] [Prompt AskMenuChoice]) /\
  menu_loop ["7"; "0"; "csv"] 0 "f.csv" (mkWorld [Sample.ledger] [])
  = menu_loop ["0"; "csv"] 0 "f.csv"
      (mkWorld [Sample.ledger] [Prompt AskMenuChoice; Stdout MsgInvalidChoice]).
Proof.
  split.
  - apply (proj1 (menu_bad_choice (mkWorld [Sample.ledger] []) 0 "f.csv" "one"
                    ["0"; "csv"])).
    reflexivity.
  - apply (proj1 (proj2 (menu_bad_choice (mkWorld [Sample.ledger] []) 0 "f.csv"
                    "7" ["0"; "csv"])) 7%Z); [reflexivity | discriminate ..].
Defined.

(** On Finish, a format that is neither ["csv"] nor ["excel"] once
    lowercased exports nothing: the error is printed and the menu asks for a
    choice again, with the store untouched. *)
Theorem menu_bad_format (w : world) (df_final : loc)
  (file line fileChoice : string) (stdin : list string) :
  PyInt.int line = Some 0%Z ->
  Str.lower fileChoice <> "csv" -> Str.lower fileChoice <> "excel" ->
  menu_loop (line :: fileChoice :: stdin) df_final file w
  = menu_loop stdin df_final file
      (mkWorld (heap w)
         (console w ++ [Prompt AskMenuChoice; Prompt AskFormat;
                        Stdout MsgInvalidChoice])).
Proof.
  intros Hline Hcsv Hexcel. rewrite menu_loop_cons, Hline. cbv zeta.
  destruct (String.eqb_spec (Str.lower fileChoice) "csv") as [E|_];
    [contradiction|].
  destruct (String.eqb_spec (Str.lower fileChoice) "excel") as [E|_];
    [contradiction|].
  unfold bind, print, emit. simpl. rewrite <- !app_assoc. reflexivity.
Qed.

(** The theorem on a format the script does not know. *)
Lemma menu_bad_format_witness :
  menu_loop ["0"; "json"; "0"; "csv"] 0 "f.csv" (mkWorld [Sample.ledger] [])
  = menu_loop ["0"; "csv"] 0 "f.csv"
      (mkWorld [Sample.ledger]
         [Prompt AskMenuChoice; Prompt AskFormat; Stdout MsgInvalidChoice]).
Proof.
  apply (menu_bad_format (mkWorld [Sample.ledger] []) 0 "f.csv" "0" "json"
           ["0"; "csv"]); [reflexivity | vm_compute; discriminate ..].
Defined.

(** ** The menu: what it can return *)

(** Whatever holds of the working frame and is kept by the two operations
    of the menu holds of the frame the menu returns; that frame is the
    content of the export that ended the loop, written under the clean path
    of [file], and the lines left are a suffix of the input. *)
Lemma menu_loop_returns (Inv : DataFrame -> Prop) (file : string) :
  (forall d, Inv d -> Inv (fold_left zero_negatives_pass (DF.columns d) d)) ->
  (forall d name d', Inv d -> DF.drop d name = Some d' -> Inv d') ->
  forall (n : nat) (stdin : list string) (df_final : loc) (dd : DataFrame)
         (w w' : world) (out : loc) (rest : list string),
    length stdin <= n ->
    heap w !! df_final = Some dd -> Inv dd ->
    menu_loop stdin df_final file w = (Ok (out, rest), w') ->
    exists (d' : DataFrame) (shown : list event),
      heap w' !! out = Some d' /\ Inv d' /\
      (console w' = shown ++ [ToCsv (clean_path_csv file) d'] \/
       console w' = shown ++ [ToExcel (clean_path_excel file) "Sheet1" d']) /\
      exists used, stdin = used ++ rest.
Proof.
  intros Hzero Hdrop.
  induction n as [|n IH]; intros stdin l dd w w' out rest Hlen Hl Hinv.
  { destruct stdin; [|simpl in Hlen; lia]. discriminate. }
  destruct stdin as [|line stdin]; [discriminate|].
  simpl in Hlen. rewrite menu_loop_cons. cbv zeta.
  set (w1 := mkWorld (heap w) (console w ++ [Prompt AskMenuChoice])).
  assert (Hnext : forall used stdin' l' dd' w2,
             line :: stdin = used ++ stdin' ->
             length stdin' <= n -> heap w2 !! l' = Some dd' -> Inv dd' ->
             menu_loop stdin' l' file w2 = (Ok (out, rest), w') ->
             exists (d' : DataFrame) (shown : list event),
               heap w' !! out = Some d' /\ Inv d' /\
               (console w' = shown ++ [ToCsv (clean_path_csv file) d'] \/
                console w' = shown ++ [ToExcel (clean_path_excel file) "Sheet1" d']) /\
               exists used, line :: stdin = used ++ rest).
  { intros used stdin' l' dd' w2 Hused Hlen' Hl' Hinv' Hrun.
    destruct (IH stdin' l' dd' w2 w' out rest Hlen' Hl' Hinv' Hrun)
      as (d' & shown & H1 & H2 & H3 & used' & ->).
    exists d', shown. repeat split; try assumption.
    exists (used ++ used'). rewrite <- app_assoc. exact Hused. }
  assert (Hprint : forall m,
             (print m ;; menu_loop stdin l file) w1 = (Ok (out, rest), w') ->
             exists (d' : DataFrame) (shown : list event),
               heap w' !! out = Some d' /\ Inv d' /\
               (console w' = shown ++ [ToCsv (clean_path_csv file) d'] \/
                console w' = shown ++ [ToExcel (clean_path_excel file) "Sheet1" d']) /\
               exists used, line :: stdin = used ++ rest).
  { intros m. unfold bind, print, emit. simpl.
    apply (Hnext [line] stdin l dd); auto. lia. }
  destruct (PyInt.int line) as [[|[p|[p|p|]|]|p]|];
    try apply Hprint; try discriminate.
  - (* 0: finish *)
    destruct stdin as [|fileChoice stdin']; [discriminate|].
    simpl in Hlen.
    destruct (String.eqb (Str.lower fileChoice) "csv");
      [|destruct (String.eqb (Str.lower fileChoice) "excel")].
    + unfold bind, Obj.to_csv, bind, load, emit, ret. simpl. rewrite Hl.
      intros [= <- <- <-]. exists dd, ((console w ++ [Prompt AskMenuChoice]) ++ [Prompt AskFormat]).
      simpl. repeat split; auto. exists [line; fileChoice]. reflexivity.
    + unfold bind, Obj.to_excel, bind, load, emit, ret. simpl. rewrite Hl.
      intros [= <- <- <-]. exists dd, ((console w ++ [Prompt AskMenuChoice]) ++ [Prompt AskFormat]).
      simpl. repeat split; auto. exists [line; fileChoice]. reflexivity.
    + unfold bind, print, emit. simpl.
      apply (Hnext [line; fileChoice] stdin' l dd); auto. lia.
  - (* 2: drop a column *)
    unfold bind at 1. rewrite (columns_run w1 l dd Hl).
    unfold bind at 1, print, emit at 1. simpl.
    unfold bind at 1, emit at 1. simpl.
    destruct stdin as [|name stdin'].
    + unfold bind, print, emit. simpl.
      apply (Hnext [line] [] l dd); auto. simpl. lia.
    + simpl in Hlen. unfold bind at 1, try_except.
      match goal with |- context [Obj.drop l name ?w2] =>
        rewrite (drop_run w2 l dd Hl) end.
      destruct (DF.drop dd name) as [d'|] eqn:Edrop.
      * apply (Hnext [line; name] stdin' _ d'); simpl; auto; try lia.
        -- apply lookup_snoc_new.
        -- eapply Hdrop; eassumption.
      * unfold bind, print, emit, ret. simpl.
        apply (Hnext [line; name] stdin' l dd); auto. lia.
  - (* 1: zero the negatives *)
    unfold bind at 1. rewrite (zero_negatives_run w1 l dd Hl).
    apply (Hnext [line] stdin l
             (fold_left zero_negatives_pass (DF.columns dd) dd)); simpl; auto.
    + lia.
    + apply list_lookup_insert_eq. eapply lookup_lt_Some, Hl.
Qed.

Lemma assoc_filter_dropped (name : string) (l : list (string * column)) :
  DF.assoc name (List.filter (fun nc => negb (String.eqb (fst nc) name)) l)
  = None.
Proof.
  induction l as [|[n c] t IH]; simpl; [reflexivity|].
  destruct (String.eqb_spec n name) as [->|Hn]; simpl; [exact IH|].
  destruct (String.eqb_spec n name); [contradiction | exact IH].
Qed.

Lemma sublist_columns_filter (p : string * column -> bool)
  (l : list (string * column)) :
  sublist (map fst (List.filter p l)) (map fst l).
Proof.
  induction l as [|x t IH]; simpl; [constructor|].
  destruct (p x); simpl; [apply sublist_skip | apply sublist_cons]; exact IH.
Qed.

Lemma menu_result_refl (d : DataFrame) :
  DF.wf d -> no_nan d -> menu_result d d.
Proof.
  intros Hwf Hnan. unfold menu_result.
  split; [reflexivity|]. split; [exact Hwf|]. split; [exact Hnan|].
  split; [reflexivity|].
  intros name c' H. exists c'. auto.
Qed.

Lemma menu_result_zero (d0 d : DataFrame) :
  menu_result d0 d ->
  menu_result d0 (fold_left zero_negatives_pass (DF.columns d) d).
Proof.
  unfold menu_result. intros (Hi & Hwf & Hnan & Hsub & Hcols).
  destruct (zero_negatives_passes (DF.columns d) d) as (Hi' & Hc' & Hg).
  destruct (zero_negatives_keeps_invariant (DF.columns d) d Hwf Hnan)
    as [Hwf' Hnan'].
  split; [congruence|]. split; [exact Hwf'|]. split; [exact Hnan'|].
  split; [rewrite Hc'; exact Hsub|].
  intros name c' H. rewrite Hg in H.
  destruct (existsb (String.eqb name) (DF.columns d)); [|apply Hcols, H].
  destruct (DF.getitem d name) as [c1|] eqn:E; [|discriminate].
  injection H as <-.
  destruct (Hcols name c1 E) as (c & Hc & [->| ->]); exists c; split; auto.
  right. apply zeroed_idem.
Qed.

Lemma menu_result_drop (d0 d d' : DataFrame) (name : string) :
  menu_result d0 d -> DF.drop d name = Some d' -> menu_result d0 d'.
Proof.
  unfold menu_result. intros (Hi & Hwf & Hnan & Hsub & Hcols) Hdrop.
  destruct (drop_keeps_invariant d d' name Hwf Hnan Hdrop) as [Hwf' Hnan'].
  unfold DF.drop in Hdrop.
  destruct (existsb (String.eqb name) (DF.columns d)); [|discriminate].
  injection Hdrop as <-.
  split; [exact Hi|]. split; [exact Hwf'|]. split; [exact Hnan'|]. split.
  - etransitivity; [|exact Hsub]. apply sublist_columns_filter.
  - intros other c' H. unfold DF.getitem in H. simpl in H.
    destruct (String.eqb_spec other name) as [->|Hne].
    + rewrite assoc_filter_dropped in H. discriminate.
    + rewrite assoc_filter_other in H by exact Hne. apply Hcols, H.
Qed.

(** The next theorem, as the lemma that later proofs use. *)
Lemma optional_operations_returns_holds (w w' : world) (df out : loc)
  (d : DataFrame) (file : string) (stdin rest : list string) :
  heap w !! df = Some d -> DF.wf d -> no_nan d ->
  optional_operations df file stdin w = (Ok (out, rest), w') ->
  exists (d' : DataFrame) (shown : list event),
    heap w' !! out = Some d' /\
    menu_result d d' /\
    (console w' = shown ++ [ToCsv (clean_path_csv file) d'] \/
     console w' = shown ++ [ToExcel (clean_path_excel file) "Sheet1" d']) /\
    exists used, stdin = used ++ rest.
Proof.
  intros Hdf Hwf Hnan. unfold optional_operations, bind.
  rewrite (copy_run w df d Hdf).
  apply (menu_loop_returns (menu_result d) file
           (menu_result_zero d) (fun x n x' => menu_result_drop d x x' n)
           (length stdin) stdin _ d).
  - lia.
  - apply lookup_snoc_new.
  - apply menu_result_refl; assumption.
Qed.

(** When [optional_operations] returns, the frame it returns is the one it
    has just exported under the clean path of [file]; it is a new object
    that holds the rows of the input, with some columns dropped and the
    others as they were or with their negative values zeroed; and the lines
    it leaves unread are a suffix of its input. *)
Theorem optional_operations_returns (w w' : world) (df out : loc)
  (d : DataFrame) (file : string) (stdin rest : list string) :
  heap w !! df = Some d -> DF.wf d -> no_nan d ->
  optional_operations df file stdin w = (Ok (out, rest), w') ->
  exists (d' : DataFrame) (shown : list event),
    heap w' !! out = Some d' /\
    menu_result d d' /\
    (console w' = shown ++ [ToCsv (clean_path_csv file) d'] \/
     console w' = shown ++ [ToExcel (clean_path_excel file) "Sheet1" d']) /\
    exists used, stdin = used ++ rest.
Proof. exact (optional_operations_returns_holds w w' df out d file stdin rest). Qed.

(** The theorem on a session that zeroes the negatives of the ledger, drops
    a column and exports. *)
Lemma optional_operations_returns_witness :
  exists (d' : DataFrame) (shown : list event),
    DF.columns d' = ["amount"; "delta"] /\
    menu_result Sample.ledger d' /\
    (console (snd (optional_operations 0 "ledger.csv"
                     ["1"; "2"; "who"; "0"; "csv"] (mkWorld [Sample.ledger] [])))
     = shown ++ [ToCsv (clean_path_csv "ledger.csv") d'] \/
     console (snd (optional_operations 0 "ledger.csv"
                     ["1"; "2"; "who"; "0"; "csv"] (mkWorld [Sample.ledger] [])))
     = shown ++ [ToExcel (clean_path_excel "ledger.csv") "Sheet1" d']).
Proof.
  destruct (optional_operations_returns (mkWorld [Sample.ledger] [])
              (snd (optional_operations 0 "ledger.csv"
                      ["1"; "2"; "who"; "0"; "csv"] (mkWorld [Sample.ledger] [])))
              0 2 Sample.ledger "ledger.csv" ["1"; "2"; "who"; "0"; "csv"] [])
    as (d' & shown & Hout & Hres & Hexp & _).
  - reflexivity.
  - prove_wf.
  - repeat constructor; discriminate.
  - vm_compute. reflexivity.
  - exists d', shown. split; [|split; assumption].
    vm_compute in Hout. injection Hout as <-. reflexivity.
Defined.

(** ** The preprocessing stage of [main] *)

Lemma length_select_le {A} (mask : list bool) (l : list A) :
  length (DF.select mask l) <= length l.
Proof.
  revert l. induction mask as [|b m IH]; intros [|x l]; simpl; try lia.
  specialize (IH l). destruct b; simpl; lia.
Qed.

Lemma shape0_getitem_mask_le (d : DataFrame) (mask : list bool) :
  DF.shape0 (DF.getitem_mask d mask) <= DF.shape0 d.
Proof. apply length_select_le. Qed.

Lemma shape0_outlier_passes_le (cols : list string) (d : DataFrame) :
  DF.shape0 (outlier_passes cols d) <= DF.shape0 d.
Proof.
  revert d. induction cols as [|c t IH]; intros d; [reflexivity|].
  etransitivity; [apply IH|]. unfold outlier_pass.
  destruct (DF.getitem d c) as [[dt vals|vals]|]; try reflexivity.
  apply shape0_getitem_mask_le.
Qed.

Lemma index_clean_strings_passes (cols : list string) (d : DataFrame) :
  index (fold_left clean_strings_pass cols d) = index d.
Proof.
  revert d. induction cols as [|c t IH]; intros d; [reflexivity|].
  simpl. rewrite IH. unfold clean_strings_pass.
  destruct (DF.getitem d c) as [[dt vals|vals]|]; reflexivity.
Qed.

Lemma shape0_cleaning_le (d : DataFrame) :
  DF.shape0 (cleaning d) <= DF.shape0 d.
Proof.
  unfold cleaning, DF.shape0. rewrite index_clean_strings_passes.
  etransitivity; [apply shape0_getitem_mask_le|].
  etransitivity; [apply shape0_outlier_passes_le|].
  apply shape0_getitem_mask_le.
Qed.

(** The next theorem, as the lemma that later proofs use. *)
Lemma main_preprocess_report_holds (w : world) (df : loc) (d : DataFrame) :
  heap w !! df = Some d ->
  exists (working : loc) (h : list DataFrame),
    main_preprocess df w
    = (Ok working,
       mkWorld h (console w ++ preprocessing_messages
                                 (DF.shape0 d) (DF.shape0 (cleaning d)))) /\
    h !! working = Some (cleaning d) /\
    (forall l x, heap w !! l = Some x -> h !! l = Some x /\ l <> working) /\
    DF.shape0 (cleaning d) <= DF.shape0 d.
Proof.
  intros Hdf. unfold main_preprocess.
  unfold bind at 1. rewrite (shape0_run w df d Hdf).
  do 3 (unfold bind at 1, print, emit at 1; cbn [heap console]).
  unfold bind at 1, Obj.dropna, bind at 1.
  match goal with |- context [load df ?w1] =>
    rewrite (load_run w1 df d Hdf) end.
  unfold alloc at 1. cbn [heap console].
  unfold bind at 1, print, emit at 1. cbn [heap console].
  set (d1 := DF.dropna d).
  unfold bind at 1.
  match goal with |- context [remove_outliers (length (heap w)) ?w1] =>
    destruct (remove_outliers_run w1 (length (heap w)) d1)
      as (l2 & added & Hrun & Hl2 & Hle);
      [apply lookup_snoc_new | rewrite Hrun; clear Hrun] end.
  cbn [heap console] in *.
  set (d2 := outlier_passes (DF.columns d1) d1) in *.
  unfold bind at 1, print, emit at 1. cbn [heap console].
  unfold bind at 1, Obj.drop_duplicates, bind at 1.
  match goal with |- context [load l2 ?w1] =>
    rewrite (load_run w1 l2 d2 Hl2) end.
  unfold alloc at 1. cbn [heap console].
  set (h3 := (heap w ++ [d1]) ++ added) in *.
  set (d3 := DF.drop_duplicates d2).
  assert (H3 : (h3 ++ [d3]) !! length h3 = Some d3) by apply lookup_snoc_new.
  unfold bind at 1, print, emit at 1. cbn [heap console].
  unfold bind at 1.
  match goal with |- context [Obj.shape0 (length h3) ?w1] =>
    rewrite (shape0_run w1 (length h3) d3 H3) end.
  do 2 (unfold bind at 1, print, emit at 1; cbn [heap console]).
  unfold bind at 1.
  match goal with |- context [Obj.columns (length h3) ?w1] =>
    rewrite (columns_run w1 (length h3) d3 H3) end.
  unfold bind at 1.
  match goal with |- context [clean_strings_loop _ (length h3) ?w1] =>
    rewrite (clean_strings_loop_run (DF.columns d3) w1 (length h3) d3 H3)
      by auto end.
  cbn [heap console].
  unfold bind, print, emit, ret. cbn [heap console].
  assert (Hrows : DF.shape0 d3 = DF.shape0 (cleaning d)).
  { unfold cleaning, DF.shape0. rewrite index_clean_strings_passes.
    reflexivity. }
  rewrite Hrows.
  eexists _, _. split; [|split; [|split]].
  - unfold preprocessing_messages. rewrite <- !app_assoc. reflexivity.
  - rewrite list_lookup_insert_eq by (rewrite length_app; simpl; lia).
    reflexivity.
  - intros l x Hl.
    assert (Hlt : l < length h3).
    { apply lookup_lt_Some in Hl. subst h3. rewrite !length_app. lia. }
    split; [|lia].
    rewrite list_lookup_insert_ne by lia.
    subst h3. rewrite <- !app_assoc. apply lookup_app_l_Some, Hl.
  - apply shape0_cleaning_le.
Qed.

(** The preprocessing stage returns a new object that holds [cleaning d],
    leaves every object of the store as it was, and reports the row count
    before, the row count after, and their difference, which is never
    negative. *)
Theorem main_preprocess_report (w : world) (df : loc) (d : DataFrame) :
  heap w !! df = Some d ->
  exists (working : loc) (h : list DataFrame),
    main_preprocess df w
    = (Ok working,
       mkWorld h (console w ++ preprocessing_messages
                                 (DF.shape0 d) (DF.shape0 (cleaning d)))) /\
    h !! working = Some (cleaning d) /\
    (forall l x, heap w !! l = Some x -> h !! l = Some x /\ l <> working) /\
    DF.shape0 (cleaning d) <= DF.shape0 d.
Proof. exact (main_preprocess_report_holds w df d). Qed.

(** The theorem on the example of the specification. *)
Lemma main_preprocess_report_witness :
  exists (working : loc) (h : list DataFrame),
    main_preprocess 0 (mkWorld [Sample.people] [])
    = (Ok working,
       mkWorld h ([] ++ preprocessing_messages
                          (DF.shape0 Sample.people)
                          (DF.shape0 (cleaning Sample.people)))) /\
    h !! working = Some (cleaning Sample.people).
Proof.
  destruct (main_preprocess_report (mkWorld [Sample.people] []) 0 Sample.people
              eq_refl) as (working & h & Hrun & Hw & _).
  exists working, h. split; assumption.
Defined.

(** ** [main] from the name typed to the menu *)

Lemma main_load_run (fs : filesystem) (fileName : string)
  (stdin : list string) (w : world) :
  exists asked : list event,
    (asked = [] \/ asked = [Prompt AskSheetName]) /\
    match loaded_frame fs fileName stdin with
    | Some (d, rest) =>
        main_load fs fileName ("Data-Analyzer/Dataset/" ++ fileName)%string
          stdin w
        = (Ok (Some (length (heap w)), rest),
           mkWorld (heap w ++ [d]) (console w ++ asked))
    | None =>
        exists (m : message) (rest : list string),
          (m = MsgReadError \/ m = MsgTryAgain \/ m = MsgUnsupported) /\
          main_load fs fileName ("Data-Analyzer/Dataset/" ++ fileName)%string
            stdin w
          = (Ok (None, rest),
             mkWorld (heap w) (console w ++ asked ++ [Stdout m]))
    end.
Proof.
  unfold loaded_frame, main_load. cbv zeta.
  destruct (Str.contains ".csv" fileName);
    [|destruct (Str.contains ".xlsx" fileName)].
  - exists []. split; [auto|].
    unfold try_except, bind, Obj.pd_read_csv.
    destruct (read_csv fs _) as [d|e].
    + unfold alloc, ret. rewrite app_nil_r. reflexivity.
    + destruct e; simpl;
        first [ exists MsgReadError, stdin; split; [auto | reflexivity]
              | exists MsgTryAgain, stdin; split; [auto | reflexivity] ].
  - exists [Prompt AskSheetName]. split; [auto|].
    unfold try_except, input, bind, emit, Obj.pd_read_excel.
    cbn [heap console].
    destruct stdin as [|sheet_name rest].
    + exists MsgReadError, []. split; [auto|]. simpl.
      rewrite <- app_assoc. reflexivity.
    + destruct (read_excel fs _ sheet_name) as [d|e].
      * reflexivity.
      * exists MsgReadError, rest. split; [auto|]. simpl.
        rewrite <- app_assoc. reflexivity.
  - exists []. split; [auto|].
    exists MsgUnsupported, stdin. split; [auto | reflexivity].
Qed.

Lemma main_unfold (fs : filesystem) (fileName : string) (stdin : list string)
  (w : world) :
  main fs (fileName :: stdin) w
  = (r <- main_load fs fileName ("Data-Analyzer/Dataset/" ++ fileName)%string
            stdin ;;
     main_pipeline fs (fst r) fileName (snd r))
      (mkWorld (heap w) (console w ++ [Stdout MsgBanner; Prompt AskFileName])).
Proof.
  unfold main, input, print.
  unfold bind at 1, emit at 1. unfold bind at 1, emit at 1.
  cbn [heap console]. rewrite <- app_assoc. reflexivity.
Qed.

(** The next theorem, as the lemma that later proofs use. *)
Lemma main_failed_load_holds (fs : filesystem) (fileName : string)
  (stdin : list string) (w : world) :
  loaded_frame fs fileName stdin = None ->
  exists (asked : list event) (m : message),
    (asked = [] \/ asked = [Prompt AskSheetName]) /\
    (m = MsgReadError \/ m = MsgTryAgain \/ m = MsgUnsupported) /\
    main fs (fileName :: stdin) w
    = (Raise UnboundLocalError,
       mkWorld (heap w)
         (console w ++ [Stdout MsgBanner; Prompt AskFileName] ++ asked
          ++ [Stdout m])).
Proof.
  intros Hnone. rewrite main_unfold.
  set (w0 := mkWorld (heap w) (console w ++ [Stdout MsgBanner; Prompt AskFileName])).
  destruct (main_load_run fs fileName stdin w0) as (asked & Hasked & Hrun).
  rewrite Hnone in Hrun. destruct Hrun as (m & rest & Hm & Hrun).
  exists asked, m. split; [exact Hasked|]. split; [exact Hm|].
  unfold bind. rewrite Hrun. subst w0. simpl. rewrite <- !app_assoc.
  reflexivity.
Qed.

(** Whenever no frame is read (an unsupported name, a reader that raises
    whatever exception, no sheet name to read), [main] reports it with one
    message and then ends in UnboundLocalError: the store is untouched and
    nothing of the preprocessing is printed. *)
Theorem main_failed_load (fs : filesystem) (fileName : string)
  (stdin : list string) (w : world) :
  loaded_frame fs fileName stdin = None ->
  exists (asked : list event) (m : message),
    (asked = [] \/ asked = [Prompt AskSheetName]) /\
    (m = MsgReadError \/ m = MsgTryAgain \/ m = MsgUnsupported) /\
    main fs (fileName :: stdin) w
    = (Raise UnboundLocalError,
       mkWorld (heap w)
         (console w ++ [Stdout MsgBanner; Prompt AskFileName] ++ asked
          ++ [Stdout m])).
Proof. exact (main_failed_load_holds fs fileName stdin w). Qed.

(** The theorem on a CSV file that is not there. *)
Lemma main_failed_load_witness :
  exists (asked : list event) (m : message),
    main Sample.disk ["missing.csv"; "0"; "csv"] Sample.empty_world
    = (Raise UnboundLocalError,
       mkWorld []
         ([] ++ [Stdout MsgBanner; Prompt AskFileName] ++ asked ++ [Stdout m])).
Proof.
  destruct (main_failed_load Sample.disk "missing.csv" ["0"; "csv"]
              Sample.empty_world eq_refl) as (asked & m & _ & _ & H).
  exists asked, m. exact H.
Defined.

(** The next theorem, as the lemma that later proofs use. *)
Lemma main_loaded_holds (fs : filesystem) (fileName : string)
  (stdin stdin1 : list string) (d : DataFrame) (w : world) :
  loaded_frame fs fileName stdin = Some (d, stdin1) ->
  exists (working : loc) (h : list DataFrame) (asked : list event),
    (asked = [] \/ asked = [Prompt AskSheetName]) /\
    h !! working = Some (cleaning d) /\
    main fs (fileName :: stdin) w
    = (r <- optional_operations working fileName stdin1 ;;
       main_report fs (fst r) (snd r))
        (mkWorld h
           (console w ++ [Stdout MsgBanner; Prompt AskFileName] ++ asked
            ++ preprocessing_messages (DF.shape0 d) (DF.shape0 (cleaning d)))).
Proof.
  intros Hsome. rewrite main_unfold.
  set (w0 := mkWorld (heap w) (console w ++ [Stdout MsgBanner; Prompt AskFileName])).
  destruct (main_load_run fs fileName stdin w0) as (asked & Hasked & Hrun).
  rewrite Hsome in Hrun.
  unfold bind at 1. rewrite Hrun. cbn [fst snd].
  unfold main_pipeline, local. unfold bind at 1, ret at 1.
  set (w1 := mkWorld (heap w0 ++ [d]) (console w0 ++ asked)).
  destruct (main_preprocess_report_holds w1 (length (heap w0)) d)
    as (working & h & Hpre & Hw & _); [apply lookup_snoc_new|].
  exists working, h, asked. split; [exact Hasked|]. split; [exact Hw|].
  unfold bind at 1. rewrite Hpre. subst w1 w0. cbn [heap console].
  rewrite <- !app_assoc. reflexivity.
Qed.

(** Whenever a frame [d] is read, [main] goes on as the menu followed by the
    report, started on a new object that holds [cleaning d], with the file
    name as typed and the lines not yet read; by then the console shows the
    banner, the questions asked and the messages of the preprocessing. *)
Theorem main_loaded (fs : filesystem) (fileName : string)
  (stdin stdin1 : list string) (d : DataFrame) (w : world) :
  loaded_frame fs fileName stdin = Some (d, stdin1) ->
  exists (working : loc) (h : list DataFrame) (asked : list event),
    (asked = [] \/ asked = [Prompt AskSheetName]) /\
    h !! working = Some (cleaning d) /\
    main fs (fileName :: stdin) w
    = (r <- optional_operations working fileName stdin1 ;;
       main_report fs (fst r) (snd r))
        (mkWorld h
           (console w ++ [Stdout MsgBanner; Prompt AskFileName] ++ asked
            ++ preprocessing_messages (DF.shape0 d) (DF.shape0 (cleaning d)))).
Proof. exact (main_loaded_holds fs fileName stdin stdin1 d w). Qed.

(** The theorem on the example of the specification. *)
Lemma main_loaded_witness :
  exists (working : loc) (h : list DataFrame) (asked : list event),
    h !! working = Some (cleaning Sample.people) /\
    main Sample.disk Sample.session Sample.empty_world
    = (r <- optional_operations working "people.csv"
              ["0"; "csv"; "scatter"; "age"; "name"] ;;
       main_report Sample.disk (fst r) (snd r))
        (mkWorld h
           ([] ++ [Stdout MsgBanner; Prompt AskFileName] ++ asked
            ++ preprocessing_messages (DF.shape0 Sample.people)
                 (DF.shape0 (cleaning Sample.people)))).
Proof.
  destruct (main_loaded Sample.disk "people.csv"
              ["0"; "csv"; "scatter"; "age"; "name"]
              ["0"; "csv"; "scatter"; "age"; "name"] Sample.people
              Sample.empty_world eq_refl)
    as (working & h & asked & _ & Hw & Hrun).
  exists working, h, asked. split; assumption.
Defined.

(** ** [clean_strings] on a column *)

Lemma lower_char_fixed_not_upper (c : ascii) :
  Str.lower_char c = c -> Str.isupper c = false.
Proof. destruct c as [[] [] [] [] [] [] [] []]; vm_compute; congruence. Qed.

Lemma length_filter_le {A} (f : A -> bool) (l : list A) :
  length (List.filter f l) <= length l.
Proof.
  induction l as [|x t IH]; simpl; [lia|]. destruct (f x); simpl; lia.
Qed.

Lemma length_lstrip_chars (l : list ascii) :
  length (Str.lstrip_chars l) <= length l.
Proof.
  induction l as [|c t IH]; simpl; [lia|]. destruct (Str.isspace c); simpl; lia.
Qed.

Lemma length_rstrip_chars (l : list ascii) :
  length (Str.rstrip_chars l) <= length l.
Proof.
  induction l as [|c t IH]; simpl; [lia|].
  destruct (Str.rstrip_chars t); [destruct (Str.isspace c)|]; simpl in *; lia.
Qed.

(** [clean_strings] maps [clean_string] over the strings of the column and
    leaves the missing values missing, so the length is kept; every string it
    returns is made of lowercase letters, digits and whitespace only, and is
    no longer than the one it comes from. *)
Theorem clean_strings_values (column : list (option string)) :
  clean_strings column = map (option_map clean_string) column /\
  length (clean_strings column) = length column /\
  (forall i : nat, clean_strings column !! i = Some None <-> column !! i = Some None) /\
  forall (i : nat) (s : string),
    column !! i = Some (Some s) ->
    clean_strings column !! i = Some (Some (clean_string s)) /\
    Forall (fun c => Str.in_class c = true /\ Str.isupper c = false)
           (list_ascii_of_string (clean_string s)) /\
    length (list_ascii_of_string (clean_string s))
    <= length (list_ascii_of_string s).
Proof.
  assert (Hmap : clean_strings column = map (option_map clean_string) column).
  { unfold clean_strings. rewrite !List.map_map. apply List.map_ext.
    intros [s|]; reflexivity. }
  split; [exact Hmap|]. split; [apply length_clean_strings|].
  rewrite Hmap. split.
  - intros i. rewrite list_lookup_fmap.
    destruct (column !! i) as [[s|]|]; simpl; split; congruence.
  - intros i s Hi. rewrite list_lookup_fmap, Hi. split; [reflexivity|].
    rewrite clean_string_chars. split.
    + apply List.Forall_forall. intros c Hc.
      apply List.filter_In in Hc. destruct Hc as [Hc Hcls].
      split; [exact Hcls|]. apply lower_char_fixed_not_upper.
      assert (Hlow : Forall (fun c => Str.lower_char c = c)
                       (Str.rstrip_chars (Str.lstrip_chars
                          (map Str.lower_char (list_ascii_of_string s))))).
      { apply rstrip_chars_Forall, lstrip_chars_Forall, map_lower_char_Forall. }
      rewrite List.Forall_forall in Hlow. apply Hlow, Hc.
    + etransitivity; [apply length_filter_le|].
      etransitivity; [apply length_rstrip_chars|].
      etransitivity; [apply length_lstrip_chars|].
      rewrite length_map. reflexivity.
Qed.

(** The theorem on the names of the example. *)
Lemma clean_strings_values_witness :
  clean_strings [Some " Alice! "; None; Some "bob"] !! 0
  = Some (Some (clean_string " Alice! ")) /\
  Forall (fun c => Str.in_class c = true /\ Str.isupper c = false)
         (list_ascii_of_string (clean_string " Alice! ")) /\
  length (list_ascii_of_string (clean_string " Alice! "))
  <= length (list_ascii_of_string " Alice! ").
Proof.
  apply (proj2 (proj2 (proj2
           (clean_strings_values [Some " Alice! "; None; Some "bob"]))) 0).
  reflexivity.
Defined.

(** ** What the cleaning stages make of a frame *)

Lemma getitem_clean_strings_pass (d : DataFrame) (column name : string) :
  DF.getitem (clean_strings_pass d column) name
  = if String.eqb column name then option_map cleaned (DF.getitem d name)
    else DF.getitem d name.
Proof.
  unfold clean_strings_pass.
  destruct (String.eqb_spec column name) as [->|Hne].
  - destruct (DF.getitem d name) as [[dt vals|vals]|] eqn:E; simpl;
      rewrite ?E; try reflexivity.
    rewrite getitem_setitem, String.eqb_refl. reflexivity.
  - destruct (DF.getitem d column) as [[dt vals|vals]|] eqn:E; try reflexivity.
    rewrite getitem_setitem.
    destruct (String.eqb_spec column name); [contradiction | reflexivity].
Qed.

Lemma columns_clean_strings_pass (d : DataFrame) (column : string) :
  DF.columns (clean_strings_pass d column) = DF.columns d.
Proof.
  unfold clean_strings_pass.
  destruct (DF.getitem d column) as [[dt vals|vals]|] eqn:E; try reflexivity.
  apply columns_setitem. congruence.
Qed.

Lemma clean_strings_passes (cols : list string) :
  List.NoDup cols ->
  forall d : DataFrame,
    DF.columns (fold_left clean_strings_pass cols d) = DF.columns d /\
    forall name,
      DF.getitem (fold_left clean_strings_pass cols d) name
      = if existsb (String.eqb name) cols
        then option_map cleaned (DF.getitem d name)
        else DF.getitem d name.
Proof.
  induction 1 as [|c t Hc Hnd IH]; intros d; simpl; [auto|].
  destruct (IH (clean_strings_pass d c)) as (Hcols & Hg).
  rewrite Hcols, columns_clean_strings_pass. split; [reflexivity|].
  intros name. rewrite Hg, getitem_clean_strings_pass.
  rewrite (String.eqb_sym name c).
  destruct (String.eqb_spec c name) as [->|Hne]; simpl; [|reflexivity].
  destruct (existsb (String.eqb name) t) eqn:E; [|reflexivity].
  apply existsb_eqb_In in E. contradiction.
Qed.

Lemma complete_getitem_mask (d : DataFrame) (mask : list bool) :
  complete d -> complete (DF.getitem_mask d mask).
Proof.
  unfold complete, DF.getitem_mask. simpl. intros H.
  apply Forall_map. eapply Forall_impl; [exact H|].
  intros [n [dt vals|vals]]; simpl; intros Hv.
  - apply Forall_map. apply Forall_map in Hv.
    apply select_Forall. exact Hv.
  - apply Forall_map. apply Forall_map in Hv.
    apply select_Forall. exact Hv.
Qed.

Lemma select_covered_true (m n : list bool) :
  DF.covered m n -> Forall (fun b => b = true) (DF.select m n).
Proof.
  revert n. induction m as [|b m IH]; intros [|x n]; simpl;
    try constructor; try contradiction.
  intros [Hb Hm]. destruct b; [|apply IH, Hm].
  constructor; [auto | apply IH, Hm].
Qed.

Lemma notna_select_col (mask : list bool) (c : column) :
  DF.notna (DF.select_col mask c) = DF.select mask (DF.notna c).
Proof.
  destruct c as [dt vals|vals]; simpl.
  - revert vals. induction mask as [|b m IH]; intros [|x vals]; simpl;
      try reflexivity.
    destruct b; simpl; rewrite IH; reflexivity.
  - revert vals. induction mask as [|b m IH]; intros [|x vals]; simpl;
      try reflexivity.
    destruct b; simpl; rewrite IH; reflexivity.
Qed.

Lemma complete_dropna (d : DataFrame) : complete (DF.dropna d).
Proof.
  unfold complete, DF.dropna, DF.getitem_mask. simpl.
  apply Forall_map. apply List.Forall_forall. intros [n c] Hin. simpl.
  rewrite notna_select_col. apply select_covered_true.
  exact (complete_mask_covered (DF.shape0 d) (data d) (n, c) Hin).
Qed.

Lemma complete_outlier_passes (cols : list string) (d : DataFrame) :
  complete d -> complete (outlier_passes cols d).
Proof.
  revert d. induction cols as [|c t IH]; intros d H; [exact H|].
  apply IH. unfold outlier_pass.
  destruct (DF.getitem d c) as [[dt vals|vals]|]; try exact H.
  apply complete_getitem_mask, H.
Qed.

Lemma complete_getitem (d : DataFrame) (name : string) (c : column) :
  complete d -> DF.getitem d name = Some c ->
  Forall (fun b => b = true) (DF.notna c).
Proof.
  intros Hc Hget. apply assoc_Some_In in Hget.
  unfold complete in Hc. rewrite List.Forall_forall in Hc.
  exact (Hc _ Hget).
Qed.

Lemma notna_clean_strings (vals : list (option string)) :
  DF.notna (ObjCol (clean_strings vals)) = DF.notna (ObjCol vals).
Proof.
  simpl. unfold clean_strings. rewrite !List.map_map. apply List.map_ext.
  intros [s|]; reflexivity.
Qed.

Lemma complete_clean_strings_passes (cols : list string) (d : DataFrame) :
  complete d -> complete (fold_left clean_strings_pass cols d).
Proof.
  revert d. induction cols as [|c t IH]; intros d H; [exact H|].
  apply IH. unfold clean_strings_pass.
  destruct (DF.getitem d c) as [[dt vals|vals]|] eqn:E; try exact H.
  pose proof (complete_getitem d c _ H E) as Hvals.
  rewrite <- notna_clean_strings in Hvals.
  unfold complete, DF.setitem in *. simpl. clear E.
  induction H as [|[n c0] l H0 Hl IHl]; simpl.
  - repeat constructor. exact Hvals.
  - destruct (String.eqb n c); constructor; simpl; auto.
Qed.

(** The cleaning stages keep the invariant of a frame and its column names,
    never add a row, and leave no cell missing; every numeric column is the
    column it was before the strings were cleaned, and every text column
    holds the normal forms of the strings it held then. *)
Theorem cleaning_result (d : DataFrame) :
  DF.wf d ->
  DF.wf (cleaning d) /\
  DF.columns (cleaning d) = DF.columns d /\
  DF.shape0 (cleaning d) <= DF.shape0 d /\
  complete (cleaning d) /\
  forall name : string,
    DF.getitem (cleaning d) name
    = option_map cleaned (DF.getitem (deduplicated d) name).
Proof.
  intros Hwf.
  assert (Hwf3 : DF.wf (deduplicated d)).
  { unfold deduplicated.
    apply wf_getitem_mask, wf_outlier_passes, wf_getitem_mask, Hwf. }
  assert (Hcols3 : DF.columns (deduplicated d) = DF.columns d).
  { unfold deduplicated, DF.drop_duplicates, DF.dropna.
    rewrite columns_getitem_mask, columns_outlier_passes,
      columns_getitem_mask. reflexivity. }
  destruct (clean_strings_passes (DF.columns (deduplicated d)) (proj1 Hwf3)
              (deduplicated d)) as (Hc & Hg).
  change (cleaning d)
    with (fold_left clean_strings_pass (DF.columns (deduplicated d))
            (deduplicated d)).
  split; [apply wf_clean_strings_passes, Hwf3|].
  split; [congruence|].
  split; [apply (shape0_cleaning_le d)|].
  split.
  { apply complete_clean_strings_passes. unfold deduplicated.
    apply complete_getitem_mask, complete_outlier_passes, complete_dropna. }
  intros name. rewrite Hg.
  destruct (existsb (String.eqb name) (DF.columns (deduplicated d))) eqn:E;
    [reflexivity|].
  destruct (DF.getitem (deduplicated d) name) as [c|] eqn:Eget; [|reflexivity].
  exfalso.
  assert (Hin : In name (DF.columns (deduplicated d))).
  { apply assoc_In. unfold DF.getitem in Eget. congruence. }
  apply existsb_eqb_In in Hin. congruence.
Qed.

(** The theorem on the example of the specification. *)
Lemma cleaning_result_witness :
  DF.wf (cleaning Sample.people) /\
  DF.columns (cleaning Sample.people) = DF.columns Sample.people /\
  DF.shape0 (cleaning Sample.people) <= DF.shape0 Sample.people /\
  complete (cleaning Sample.people) /\
  forall name : string,
    DF.getitem (cleaning Sample.people) name
    = option_map cleaned (DF.getitem (deduplicated Sample.people) name).
Proof. apply (cleaning_result Sample.people). prove_wf. Defined.

(** ** Frames seen as lists of rows *)

Lemma cell_at_tail_col (c : column) (i : nat) :
  DF.cell_at (tail_col c) i = DF.cell_at c (S i).
Proof. destruct c as [dt [|x v]|[|x v]]; simpl; destruct i; reflexivity. Qed.

Lemma row_tail_frame (d : DataFrame) (i : nat) :
  DF.row (tail_frame d) i = DF.row d (S i).
Proof.
  unfold DF.row, tail_frame. simpl. rewrite List.map_map.
  apply List.map_ext. intros [n c]. apply cell_at_tail_col.
Qed.

Lemma rows_uncons (d : DataFrame) (i : Z) (ix : list Z) :
  index d = i :: ix ->
  DF.rows d = DF.row d 0 :: DF.rows (tail_frame d).
Proof.
  intros Hix. unfold DF.rows, DF.shape0.
  change (index (tail_frame d)) with (tl (index d)). rewrite Hix. simpl.
  f_equal. rewrite <- List.seq_shift, List.map_map.
  apply List.map_ext. intros k. symmetry. apply row_tail_frame.
Qed.

Lemma rows_nil (d : DataFrame) : index d = [] -> DF.rows d = [].
Proof. intros H. unfold DF.rows, DF.shape0. rewrite H. reflexivity. Qed.

Lemma select_nil {A} (mask : list bool) : DF.select mask (@nil A) = [].
Proof. destruct mask; reflexivity. Qed.

Lemma lengths_tail_frame (d : DataFrame) :
  Forall (fun nc => DF.col_length (snd nc) = DF.shape0 d) (data d) ->
  Forall (fun nc => DF.col_length (snd nc) = DF.shape0 (tail_frame d))
         (data (tail_frame d)).
Proof.
  intros H. unfold tail_frame, DF.shape0 in *. simpl.
  apply Forall_map. eapply Forall_impl; [exact H|].
  intros [n c] Hc. simpl in *.
  destruct c as [dt [|x v]|[|x v]]; simpl in *; destruct (index d); simpl in *;
    lia.
Qed.

(** Selecting by a mask selects whole rows. *)
Lemma rows_getitem_mask (mask : list bool) :
  forall d : DataFrame,
    Forall (fun nc => DF.col_length (snd nc) = DF.shape0 d) (data d) ->
    DF.rows (DF.getitem_mask d mask) = DF.select mask (DF.rows d).
Proof.
  induction mask as [|b m IH]; intros d Hlen.
  - simpl. apply rows_nil. reflexivity.
  - destruct (index d) as [|i ix] eqn:Hix.
    + rewrite (rows_nil d Hix). rewrite select_nil.
      apply rows_nil. simpl. rewrite Hix. reflexivity.
    + rewrite (rows_uncons d i ix Hix).
      assert (Htail : DF.getitem_mask (tail_frame d) m
                      = (if b then tail_frame (DF.getitem_mask d (b :: m))
                         else DF.getitem_mask d (b :: m))).
      { unfold DF.getitem_mask, tail_frame. simpl. rewrite Hix.
        destruct b; simpl; f_equal; rewrite !List.map_map.
        - apply List.map_ext_in. intros [n c] Hin. simpl. f_equal.
          rewrite List.Forall_forall in Hlen. specialize (Hlen _ Hin).
          unfold DF.shape0 in Hlen. rewrite Hix in Hlen. simpl in Hlen.
          destruct c as [dt [|x v]|[|x v]]; simpl in *; try discriminate;
            reflexivity.
        - apply List.map_ext. intros [n c]. simpl. f_equal.
          destruct c as [dt [|x v]|[|x v]]; simpl; try reflexivity;
            destruct m; reflexivity. }
      specialize (IH (tail_frame d) (lengths_tail_frame d Hlen)).
      rewrite Htail in IH. destruct b; simpl.
      * rewrite (rows_uncons (DF.getitem_mask d (true :: m)) i
                   (DF.select m ix)) by (simpl; rewrite Hix; reflexivity).
        rewrite IH. f_equal.
        unfold DF.row, DF.getitem_mask. simpl. rewrite List.map_map.
        apply List.map_ext_in. intros [n c] Hin. simpl.
        rewrite List.Forall_forall in Hlen. specialize (Hlen _ Hin).
        unfold DF.shape0 in Hlen. rewrite Hix in Hlen. simpl in Hlen.
        destruct c as [dt [|x v]|[|x v]]; simpl in *; try discriminate;
          reflexivity.
      * exact IH.
Qed.

Lemma select_sublist {A} (mask : list bool) (l : list A) :
  sublist (DF.select mask l) l.
Proof.
  revert l. induction mask as [|b m IH]; intros [|x l]; simpl;
    try apply sublist_nil_l.
  destruct b; [apply sublist_skip | apply sublist_cons]; apply IH.
Qed.

Lemma select_map_filter {A} (p : A -> bool) (l : list A) :
  DF.select (map p l) l = List.filter p l.
Proof.
  induction l as [|x t IH]; simpl; [reflexivity|].
  destruct (p x); rewrite IH; reflexivity.
Qed.

(** *** [dropna] *)

Lemma and_masks_map (f g : nat -> bool) (s : list nat) :
  DF.and_masks (map f s) (map g s) = map (fun i => f i && g i) s.
Proof. induction s as [|x t IH]; simpl; [reflexivity|]. rewrite IH. reflexivity. Qed.

Lemma notna_by_position (c : column) :
  DF.notna c
  = map (fun i => present_cell (DF.cell_at c i)) (seq 0 (DF.col_length c)).
Proof.
  assert (H : forall {A} (l : list (option A)) (f : nat -> bool),
             (forall i x, nth_error l i = Some x ->
                          f i = match x with Some _ => true | None => false end) ->
             map (fun x => match x with Some _ => true | None => false end) l
             = map f (seq 0 (length l))).
  { intros A l. induction l as [|x t IH]; intros f Hf; simpl; [reflexivity|].
    rewrite (Hf 0 x eq_refl). f_equal.
    rewrite <- List.seq_shift, List.map_map. apply IH.
    intros i y Hi. apply (Hf (S i) y Hi). }
  destruct c as [dt vals|vals].
  - apply (H _ vals (fun i => present_cell (DF.cell_at (NumCol dt vals) i))).
    intros i x Hi. unfold DF.cell_at, Num.number in *. rewrite Hi.
    destruct x; reflexivity.
  - apply (H _ vals (fun i => present_cell (DF.cell_at (ObjCol vals) i))).
    intros i x Hi. unfold DF.cell_at. rewrite Hi. destruct x; reflexivity.
Qed.

Lemma complete_mask_by_rows (d : DataFrame) :
  Forall (fun nc => DF.col_length (snd nc) = DF.shape0 d) (data d) ->
  fold_right (fun nc m => DF.and_masks (DF.notna (snd nc)) m)
             (repeat true (DF.shape0 d)) (data d)
  = map row_complete (DF.rows d).
Proof.
  intros Hlen. unfold DF.rows. rewrite List.map_map.
  unfold row_complete, DF.row.
  induction Hlen as [|[n c] t Hc Ht IH]; simpl.
  - induction (DF.shape0 d) as [|k IHk]; simpl; [reflexivity|].
    rewrite <- List.seq_shift, List.map_map. f_equal. exact IHk.
  - rewrite IH, notna_by_position. simpl in Hc. rewrite Hc.
    apply and_masks_map.
Qed.

(** The next theorem, as the lemma that later proofs use. *)
Lemma dropna_rows_holds (d : DataFrame) :
  DF.wf d ->
  DF.rows (DF.dropna d) = List.filter row_complete (DF.rows d) /\
  DF.columns (DF.dropna d) = DF.columns d /\
  DF.wf (DF.dropna d).
Proof.
  intros Hwf. split; [|split].
  - unfold DF.dropna. rewrite rows_getitem_mask by apply Hwf.
    rewrite complete_mask_by_rows by apply Hwf.
    apply select_map_filter.
  - apply columns_getitem_mask.
  - apply wf_getitem_mask, Hwf.
Qed.

(** [dropna] keeps exactly the rows that have no missing value, in their
    order. *)
Theorem dropna_rows (d : DataFrame) :
  DF.wf d ->
  DF.rows (DF.dropna d) = List.filter row_complete (DF.rows d) /\
  DF.columns (DF.dropna d) = DF.columns d /\
  DF.wf (DF.dropna d).
Proof. exact (dropna_rows_holds d). Qed.

(** The theorem on a frame with a missing name. *)
Lemma dropna_rows_witness :
  DF.rows (DF.dropna (mkDataFrame [0%Z; 1%Z]
                        [("age", NumCol Num.Int64 [Some 1%Q; Some 2%Q]);
                         ("name", ObjCol [None; Some "bo"])]))
  = [[DF.NumCell (Some 2%Q); DF.ObjCell (Some "bo")]].
Proof.
  rewrite (proj1 (dropna_rows (mkDataFrame [0%Z; 1%Z]
                                 [("age", NumCol Num.Int64 [Some 1%Q; Some 2%Q]);
                                  ("name", ObjCol [None; Some "bo"])])
                    ltac:(prove_wf))).
  reflexivity.
Defined.

(** *** [remove_outliers] *)

Lemma rows_outlier_passes (cols : list string) (d : DataFrame) :
  DF.wf d -> sublist (DF.rows (outlier_passes cols d)) (DF.rows d).
Proof.
  revert d. induction cols as [|c t IH]; intros d Hwf; [reflexivity|].
  change (outlier_passes (c :: t) d)
    with (outlier_passes t (outlier_pass d c)).
  unfold outlier_pass.
  destruct (DF.getitem d c) as [[dt vals|vals]|]; try (apply IH, Hwf).
  etransitivity; [apply IH, wf_getitem_mask, Hwf|].
  rewrite rows_getitem_mask by apply Hwf. apply select_sublist.
Qed.

Lemma index_outlier_passes (cols : list string) (d : DataFrame) :
  sublist (index (outlier_passes cols d)) (index d).
Proof.
  revert d. induction cols as [|c t IH]; intros d; [reflexivity|].
  change (outlier_passes (c :: t) d)
    with (outlier_passes t (outlier_pass d c)).
  etransitivity; [apply IH|]. unfold outlier_pass.
  destruct (DF.getitem d c) as [[dt vals|vals]|]; try reflexivity.
  apply select_sublist.
Qed.

Lemma outlier_passes_no_numbers (cols : list string) (d : DataFrame) :
  (forall nc, In nc (data d) -> DF.is_numeric_dtype (snd nc) = false) ->
  outlier_passes cols d = d.
Proof.
  intros Hnone. induction cols as [|c t IH]; [reflexivity|].
  change (outlier_passes (c :: t) d)
    with (outlier_passes t (outlier_pass d c)).
  unfold outlier_pass.
  destruct (DF.getitem d c) as [[dt vals|vals]|] eqn:E; try exact IH.
  apply assoc_Some_In in E. specialize (Hnone _ E). discriminate.
Qed.

(** [remove_outliers] removes whole rows and nothing else: the frame it
    returns is well formed, has the columns of its argument, and its rows
    and row labels are those of the argument with some left out, in the same
    order; it prints nothing; and a frame with no numeric column comes back
    with all its rows. *)
Theorem remove_outliers_rows (w : world) (df : loc) (d : DataFrame) :
  heap w !! df = Some d -> DF.wf d ->
  exists (out : loc) (w' : world) (result : DataFrame),
    remove_outliers df w = (Ok out, w') /\
    heap w' !! out = Some result /\
    console w' = console w /\
    DF.wf result /\
    DF.columns result = DF.columns d /\
    sublist (DF.rows result) (DF.rows d) /\
    sublist (index result) (index d) /\
    ((forall nc, In nc (data d) -> DF.is_numeric_dtype (snd nc) = false) ->
     result = d).
Proof.
  intros Hdf Hwf.
  destruct (remove_outliers_run w df d Hdf) as (out & added & Hrun & Hout & _).
  exists out, (mkWorld (heap w ++ added) (console w)),
    (outlier_passes (DF.columns d) d).
  split; [exact Hrun|]. split; [exact Hout|]. split; [reflexivity|].
  split; [apply wf_outlier_passes, Hwf|].
  split; [apply columns_outlier_passes|].
  split; [apply rows_outlier_passes, Hwf|].
  split; [apply index_outlier_passes|].
  apply outlier_passes_no_numbers.
Qed.

(** The theorem on the example of the specification. *)
Lemma remove_outliers_rows_witness :
  exists (out : loc) (w' : world) (result : DataFrame),
    remove_outliers 0 (mkWorld [Sample.people] []) = (Ok out, w') /\
    heap w' !! out = Some result /\
    sublist (DF.rows result) (DF.rows Sample.people).
Proof.
  destruct (remove_outliers_rows (mkWorld [Sample.people] []) 0 Sample.people
              eq_refl ltac:(prove_wf))
    as (out & w' & result & Hrun & Hout & _ & _ & _ & Hrows & _).
  exists out, w', result. auto.
Defined.

(** *** [drop_duplicates] *)

Lemma existsb_incl {A} (p : A -> bool) (l1 l2 : list A) :
  incl l1 l2 -> existsb p l1 = true -> existsb p l2 = true.
Proof.
  intros Hincl H. apply existsb_exists in H. destruct H as (x & Hx & Hp).
  apply existsb_exists. exists x. split; [apply Hincl, Hx | exact Hp].
Qed.

(** Among the rows kept, none equals an earlier one. *)
Lemma duplicated_keep_first (l : list (list DF.cell)) :
  forall seen seen' : list (list DF.cell),
    incl seen' seen ->
    DF.duplicated_from seen' (keep_first seen l)
    = repeat false (length (keep_first seen l)).
Proof.
  unfold keep_first.
  induction l as [|r t IH]; intros seen seen' Hincl; simpl; [reflexivity|].
  destruct (existsb (DF.row_eqb r) seen) eqn:E; simpl.
  - apply IH. intros x Hx. right. apply Hincl, Hx.
  - destruct (existsb (DF.row_eqb r) seen') eqn:E'.
    + rewrite (existsb_incl _ _ _ Hincl E') in E. discriminate.
    + f_equal. apply IH. intros x [->|Hx]; [left; reflexivity|].
      right. apply Hincl, Hx.
Qed.

Lemma select_all_true {A} (l : list A) :
  DF.select (repeat true (length l)) l = l.
Proof. induction l as [|x t IH]; simpl; [reflexivity|]. rewrite IH. reflexivity. Qed.

Lemma getitem_mask_all_true (d : DataFrame) :
  Forall (fun nc => DF.col_length (snd nc) = DF.shape0 d) (data d) ->
  DF.getitem_mask d (repeat true (DF.shape0 d)) = d.
Proof.
  intros Hlen. unfold DF.getitem_mask. destruct d as [ix cols]. simpl in *.
  unfold DF.shape0 in *. simpl in *. rewrite select_all_true. f_equal.
  induction Hlen as [|[n c] t Hc Ht IH]; simpl; [reflexivity|].
  rewrite IH. f_equal. f_equal. simpl in Hc. rewrite <- Hc.
  destruct c as [dt vals|vals]; simpl; rewrite select_all_true; reflexivity.
Qed.

Lemma length_rows (d : DataFrame) : length (DF.rows d) = DF.shape0 d.
Proof. unfold DF.rows. rewrite length_map, length_seq. reflexivity. Qed.

Lemma map_negb_repeat_false (n : nat) :
  map negb (repeat false n) = repeat true n.
Proof. induction n as [|n IH]; simpl; [reflexivity|]. rewrite IH. reflexivity. Qed.

(** The next theorem, as the lemma that later proofs use. *)
Lemma drop_duplicates_rows_holds (d : DataFrame) :
  DF.wf d ->
  DF.wf (DF.drop_duplicates d) /\
  DF.rows (DF.drop_duplicates d) = keep_first [] (DF.rows d) /\
  sublist (DF.rows (DF.drop_duplicates d)) (DF.rows d) /\
  hd_error (DF.rows (DF.drop_duplicates d)) = hd_error (DF.rows d) /\
  DF.duplicated (DF.drop_duplicates d)
  = repeat false (DF.shape0 (DF.drop_duplicates d)) /\
  DF.drop_duplicates (DF.drop_duplicates d) = DF.drop_duplicates d.
Proof.
  intros Hwf.
  assert (Hwf' : DF.wf (DF.drop_duplicates d)) by apply wf_getitem_mask, Hwf.
  assert (Hrows : DF.rows (DF.drop_duplicates d) = keep_first [] (DF.rows d)).
  { unfold DF.drop_duplicates, DF.duplicated.
    rewrite rows_getitem_mask by apply Hwf. reflexivity. }
  assert (Hdup : DF.duplicated (DF.drop_duplicates d)
                 = repeat false (DF.shape0 (DF.drop_duplicates d))).
  { unfold DF.duplicated at 1. rewrite Hrows.
    rewrite duplicated_keep_first by (intros x Hx; exact Hx).
    rewrite <- Hrows, length_rows. reflexivity. }
  split; [exact Hwf'|]. split; [exact Hrows|].
  split; [rewrite Hrows; apply select_sublist|].
  split.
  { rewrite Hrows. unfold keep_first.
    destruct (DF.rows d) as [|r t]; reflexivity. }
  split; [exact Hdup|].
  unfold DF.drop_duplicates at 1. rewrite Hdup, map_negb_repeat_false.
  apply getitem_mask_all_true, Hwf'.
Qed.

(** [drop_duplicates] keeps whole rows in their order, the first row among
    them; no row it keeps equals an earlier row it keeps; and dropping the
    duplicates a second time changes nothing. *)
Theorem drop_duplicates_rows (d : DataFrame) :
  DF.wf d ->
  DF.wf (DF.drop_duplicates d) /\
  DF.rows (DF.drop_duplicates d) = keep_first [] (DF.rows d) /\
  sublist (DF.rows (DF.drop_duplicates d)) (DF.rows d) /\
  hd_error (DF.rows (DF.drop_duplicates d)) = hd_error (DF.rows d) /\
  DF.duplicated (DF.drop_duplicates d)
  = repeat false (DF.shape0 (DF.drop_duplicates d)) /\
  DF.drop_duplicates (DF.drop_duplicates d) = DF.drop_duplicates d.
Proof. exact (drop_duplicates_rows_holds d). Qed.

(** The theorem on a frame whose third row repeats the first. *)
Lemma drop_duplicates_rows_witness :
  DF.rows (DF.drop_duplicates
             (mkDataFrame [0%Z; 1%Z; 2%Z]
                [("age", NumCol Num.Int64 [Some 1%Q; Some 2%Q; Some 1%Q]);
                 ("name", ObjCol [Some "al"; Some "bo"; Some "al"])]))
  = [[DF.NumCell (Some 1%Q); DF.ObjCell (Some "al")];
     [DF.NumCell (Some 2%Q); DF.ObjCell (Some "bo")]].
Proof.
  rewrite (proj1 (proj2 (drop_duplicates_rows
                    (mkDataFrame [0%Z; 1%Z; 2%Z]
                       [("age", NumCol Num.Int64 [Some 1%Q; Some 2%Q; Some 1%Q]);
                        ("name", ObjCol [Some "al"; Some "bo"; Some "al"])])
                    ltac:(prove_wf)))).
  reflexivity.
Defined.

(** ** Menu choice 1 on the whole frame *)

Lemma assoc_absent (name : string) (l : list (string * column)) :
  ~ In name (map fst l) -> DF.assoc name l = None.
Proof.
  intros H. destruct (DF.assoc name l) eqn:E; [|reflexivity].
  exfalso. apply H, assoc_In. congruence.
Qed.

(** Two lists of columns with the same unique names and the same column
    under every name are equal. *)
Lemma data_ext (l1 l2 : list (string * column)) :
  map fst l1 = map fst l2 -> List.NoDup (map fst l1) ->
  (forall n, DF.assoc n l1 = DF.assoc n l2) -> l1 = l2.
Proof.
  revert l2. induction l1 as [|[n1 c1] t1 IH]; intros [|[n2 c2] t2]; simpl;
    try discriminate; [reflexivity|].
  intros [= <- Hnames] Hnd Hassoc.
  apply List.NoDup_cons_iff in Hnd. destruct Hnd as [Hn1 Hnd].
  pose proof (Hassoc n1) as H1. rewrite String.eqb_refl in H1.
  injection H1 as <-. f_equal. apply IH; [exact Hnames | exact Hnd|].
  intros n. specialize (Hassoc n).
  destruct (String.eqb_spec n1 n) as [E|_]; [subst n|exact Hassoc].
  rewrite (assoc_absent n1 t1 Hn1).
  rewrite Hnames in Hn1. rewrite (assoc_absent n1 t2 Hn1). reflexivity.
Qed.

Lemma zero_negatives_value_eq (d : DataFrame) :
  DF.wf d ->
  zero_negatives_value d
  = mkDataFrame (index d) (map (fun nc => (fst nc, zeroed (snd nc))) (data d)).
Proof.
  intros [Hnd _]. unfold zero_negatives_value.
  destruct (zero_negatives_passes (DF.columns d) d) as (Hi & Hc & Hg).
  destruct (fold_left zero_negatives_pass (DF.columns d) d) as [ix cols].
  simpl in Hi. subst ix. f_equal.
  unfold DF.columns in *. simpl in Hc.
  apply data_ext.
  - rewrite Hc, List.map_map. reflexivity.
  - rewrite Hc. exact Hnd.
  - intros n. specialize (Hg n). unfold DF.getitem in Hg. simpl in Hg.
    rewrite Hg, assoc_map_snd.
    destruct (existsb (String.eqb n) (map fst (data d))) eqn:E; [reflexivity|].
    rewrite assoc_absent; [reflexivity|].
    intros Hin. apply existsb_eqb_In in Hin. congruence.
Qed.

Lemma zeroed_frame_wf (d : DataFrame) :
  DF.wf d ->
  DF.wf (mkDataFrame (index d)
           (map (fun nc => (fst nc, zeroed (snd nc))) (data d))).
Proof.
  intros [Hnd Hlen]. split.
  - unfold DF.columns. simpl. rewrite List.map_map. exact Hnd.
  - unfold DF.shape0 in *. simpl. apply Forall_map.
    eapply Forall_impl; [exact Hlen|].
    intros [n [dt vals|vals]]; simpl; rewrite ?length_map; auto.
Qed.

Lemma wf_without_column (d : DataFrame) (name : string) :
  DF.wf d ->
  DF.wf (mkDataFrame (index d)
           (List.filter (fun nc => negb (String.eqb (fst nc) name)) (data d))).
Proof.
  intros [Hnd Hlen]. split.
  - unfold DF.columns in *. simpl. clear Hlen.
    induction (data d) as [|[n c] l IH]; simpl; [constructor|].
    simpl in Hnd. apply List.NoDup_cons_iff in Hnd. destruct Hnd as [Hn Hnd].
    destruct (String.eqb n name); simpl; [apply IH, Hnd|].
    constructor; [|apply IH, Hnd].
    intros H. apply Hn. apply List.in_map_iff in H.
    destruct H as (x & Hx & H). apply List.filter_In in H.
    apply List.in_map_iff. exists x. tauto.
  - unfold DF.shape0 in *. simpl. apply List.Forall_forall. intros x Hx.
    apply List.filter_In in Hx. rewrite List.Forall_forall in Hlen.
    apply Hlen. tauto.
Qed.

(** Menu choice 1 rewrites every column by [zeroed] and changes nothing
    else; choosing it twice is choosing it once; and it commutes with
    dropping a column, which succeeds after it exactly when it succeeds
    before. *)
Theorem zero_negatives_frame (w : world) (df_final : loc) (d : DataFrame)
  (name : string) :
  heap w !! df_final = Some d -> DF.wf d ->
  let zn := zero_negatives_value in
  zn d = mkDataFrame (index d)
           (map (fun nc => (fst nc, zeroed (snd nc))) (data d)) /\
  zero_negatives df_final w
  = (Ok tt, mkWorld (<[df_final := zn d]> (heap w)) (console w)) /\
  (zero_negatives df_final ;; zero_negatives df_final) w
  = zero_negatives df_final w /\
  zn (zn d) = zn d /\
  DF.drop (zn d) name = option_map zn (DF.drop d name).
Proof.
  intros Hdf Hwf zn. subst zn.
  pose proof (zero_negatives_value_eq d Hwf) as Heq.
  pose proof (zeroed_frame_wf d Hwf) as Hwf'.
  assert (Hidem : zero_negatives_value (zero_negatives_value d)
                  = zero_negatives_value d).
  { rewrite Heq. rewrite (zero_negatives_value_eq _ Hwf'). simpl.
    f_equal. rewrite List.map_map. apply List.map_ext.
    intros [n c]. simpl. rewrite zeroed_idem. reflexivity. }
  split; [exact Heq|].
  split; [apply zero_negatives_run, Hdf|].
  split.
  { unfold bind. rewrite (zero_negatives_run w df_final d Hdf).
    rewrite (zero_negatives_run _ df_final
               (fold_left zero_negatives_pass (DF.columns d) d)).
    - simpl. rewrite list_insert_insert_eq.
      change (fold_left zero_negatives_pass (DF.columns d) d)
        with (zero_negatives_value d).
      change (fold_left zero_negatives_pass
                (DF.columns (zero_negatives_value d)) (zero_negatives_value d))
        with (zero_negatives_value (zero_negatives_value d)).
      rewrite Hidem. reflexivity.
    - simpl. apply list_lookup_insert_eq. eapply lookup_lt_Some, Hdf. }
  split; [exact Hidem|].
  rewrite Heq. unfold DF.drop, DF.columns. simpl.
  rewrite List.map_map. simpl.
  destruct (existsb (String.eqb name) (map fst (data d))) eqn:E;
    [|reflexivity].
  simpl. f_equal.
  set (d' := mkDataFrame (index d)
               (List.filter (fun nc => negb (String.eqb (fst nc) name)) (data d))).
  assert (Hwfd' : DF.wf d') by apply wf_without_column, Hwf.
  rewrite (zero_negatives_value_eq d' Hwfd'). subst d'. simpl. f_equal.
  clear. induction (data d) as [|[n c] t IH]; simpl; [reflexivity|].
  destruct (String.eqb n name); simpl; rewrite IH; reflexivity.
Qed.

(** The theorem on the ledger. *)
Lemma zero_negatives_frame_witness :
  zero_negatives 0 (mkWorld [Sample.ledger] [])
  = (Ok tt, mkWorld (<[0 := zero_negatives_value Sample.ledger]> [Sample.ledger]) []) /\
  zero_negatives_value (zero_negatives_value Sample.ledger)
  = zero_negatives_value Sample.ledger.
Proof.
  destruct (zero_negatives_frame (mkWorld [Sample.ledger] []) 0 Sample.ledger
              "who" eq_refl ltac:(prove_wf)) as (_ & Hrun & _ & Hidem & _).
  split; assumption.
Defined.

(** ** The substring test of the loader *)

Lemma is_prefix_iff (p l : list ascii) :
  Str.is_prefix p l = true <-> exists post, l = p ++ post.
Proof.
  revert l. induction p as [|a p IH]; intros l; simpl.
  - split; [intros _; exists l; reflexivity | reflexivity].
  - destruct l as [|b l].
    + split; [discriminate | intros [post H]; discriminate].
    + rewrite andb_true_iff, IH. split.
      * intros [Hab [post ->]]. apply Ascii.eqb_eq in Hab. subst b.
        exists post. reflexivity.
      * intros [post [= -> ->]]. split; [apply Ascii.eqb_refl|].
        exists post. reflexivity.
Qed.

(** [needle in s] holds exactly when [s] is some characters, then [needle],
    then some characters: the loader takes for a CSV file every name with
    [.csv] anywhere in it. *)
Theorem contains_iff (needle s : string) :
  Str.contains needle s = true <->
  exists pre post : list ascii,
    list_ascii_of_string s = pre ++ list_ascii_of_string needle ++ post.
Proof.
  unfold Str.contains.
  generalize (list_ascii_of_string needle) as p.
  generalize (list_ascii_of_string s) as l. intros l p.
  induction l as [|c l IH].
  - simpl. rewrite orb_false_r, is_prefix_iff. split.
    + intros [post H]. exists [], post. exact H.
    + intros (pre & post & H). destruct pre; [|discriminate].
      exists post. exact H.
  - change (Str.contains_chars p (c :: l))
      with (Str.is_prefix p (c :: l) || Str.contains_chars p l).
    rewrite orb_true_iff, is_prefix_iff, IH. split.
    + intros [[post H]|(pre & post & H)].
      * exists [], post. exact H.
      * exists (c :: pre), post. simpl. rewrite H. reflexivity.
    + intros ([|c' pre] & post & H).
      * left. exists post. exact H.
      * right. injection H as -> H. exists pre, post. exact H.
Qed.

(** ** The report *)

Lemma calculate_stats_eq (w : world) (df : loc) (d : DataFrame) :
  heap w !! df = Some d ->
  calculate_stats df w =
  let w' := mkWorld (heap w ++ [DF.select_dtypes_number d]) (console w) in
  match Stats.describe (DF.select_dtypes_number d) with
  | Some stats => (Ok stats, w')
  | None => (Raise ValueError, w')
  end.
Proof.
  intros Hdf. unfold calculate_stats, Obj.select_dtypes_number.
  unfold bind at 1. unfold bind at 1. rewrite (load_run w df d Hdf).
  unfold alloc. unfold bind at 1, Obj.describe, bind, load. simpl.
  rewrite lookup_snoc_new.
  destruct (Stats.describe (DF.select_dtypes_number d)); reflexivity.
Qed.

(** The report on a frame with a numeric column, when three lines are left
    to read. *)
Lemma main_report_eq (fs : filesystem) (w : world) (df : loc) (d : DataFrame)
  (plot_type x_column y_column : string) (rest : list string) :
  heap w !! df = Some d ->
  data (DF.select_dtypes_number d) <> [] ->
  main_report fs df (plot_type :: x_column :: y_column :: rest) w
  = let h' := heap w ++ [DF.select_dtypes_number d] in
    let shown := console w ++ report_messages d in
    match plot_kind_of (Str.lower plot_type) with
    | None => (Ok tt, mkWorld h' (shown ++ [Stdout MsgInvalidPlot]))
    | Some kind =>
        if existsb (String.eqb x_column) (DF.columns d)
           && existsb (String.eqb y_column) (DF.columns d)
        then
          match seaborn fs kind d x_column y_column with
          | Ok _ =>
              (Ok tt, mkWorld h' (shown ++ [Plot kind d x_column y_column]))
          | Raise e => (Raise e, mkWorld h' shown)
          end
        else (Raise ValueError, mkWorld h' shown)
    end.
Proof.
  intros Hdf Hsome. cbv zeta.
  set (h' := heap w ++ [DF.select_dtypes_number d]).
  unfold main_report.
  unfold bind at 1, print, emit at 1. cbn [heap console].
  unfold bind at 1.
  rewrite (calculate_stats_eq _ df d) by exact Hdf. cbv zeta.
  unfold Stats.describe.
  destruct (data (DF.select_dtypes_number d)) as [|c t] eqn:E;
    [contradiction|].
  cbn [heap console]. fold h'.
  assert (Hdf' : h' !! df = Some d) by apply lookup_snoc_old, Hdf.
  do 2 (unfold bind at 1, print, emit at 1; cbn [heap console]).
  unfold bind at 1, Obj.head, bind at 1, load at 1. cbn [heap console].
  rewrite Hdf'. unfold ret at 1.
  unfold bind at 1, print, emit at 1. cbn [heap console].
  unfold bind at 1.
  match goal with |- context [Obj.columns df ?w1] =>
    rewrite (columns_run w1 df d Hdf') end.
  unfold bind at 1, print, emit at 1. cbn [heap console].
  unfold input, bind at 1, emit at 1. cbn [heap console].
  unfold bind at 1, emit at 1. cbn [heap console].
  unfold bind at 1, emit at 1. cbn [heap console].
  unfold report_messages. rewrite E.
  unfold visualize, plot_kind_of, sns_plot.
  destruct (String.eqb (Str.lower plot_type) "scatter");
    [|destruct (String.eqb (Str.lower plot_type) "histogram");
      [|destruct (String.eqb (Str.lower plot_type) "boxplot")]];
    try (unfold print, emit; cbn [heap console]; rewrite <- !app_assoc;
         reflexivity);
    unfold bind, load; cbn [heap console]; rewrite Hdf';
    (destruct (existsb (String.eqb x_column) (DF.columns d)
               && existsb (String.eqb y_column) (DF.columns d));
     [|unfold raise; rewrite <- !app_assoc; reflexivity]);
    (match goal with |- context [seaborn fs ?k d x_column y_column] =>
       destruct (seaborn fs k d x_column y_column) as [u|e] end);
    unfold emit, raise; cbn [heap console]; rewrite <- !app_assoc;
    reflexivity.
Qed.

Lemma main_report_without_numbers (fs : filesystem) (w : world) (df : loc)
  (d : DataFrame) (stdin : list string) :
  heap w !! df = Some d ->
  data (DF.select_dtypes_number d) = [] ->
  main_report fs df stdin w
  = (Raise ValueError,
     mkWorld (heap w ++ [DF.select_dtypes_number d])
             (console w ++ [Stdout MsgStatsHeader])).
Proof.
  intros Hdf Hnone. unfold main_report.
  unfold bind at 1, print, emit at 1. cbn [heap console].
  unfold bind at 1.
  rewrite (calculate_stats_eq _ df d) by exact Hdf. cbv zeta.
  unfold Stats.describe. rewrite Hnone. reflexivity.
Qed.

Lemma both_columns (d : DataFrame) (x_column y_column : string) :
  existsb (String.eqb x_column) (DF.columns d)
  && existsb (String.eqb y_column) (DF.columns d) = true
  <-> In x_column (DF.columns d) /\ In y_column (DF.columns d).
Proof. rewrite andb_true_iff, !existsb_eqb_In. reflexivity. Qed.

(** The report leaves the frame as it is.  Without a numeric column it ends
    in ValueError right after the header of the statistics, before the
    preview and before any question on the plot.  With one, and three lines
    to read, it prints the statistics of the numeric columns, the first five
    rows and the column names, and asks its three questions.  A plot type
    that is none of the three, in any letter case, is reported and nothing
    is shown.  For one of the three, a name typed that is no column of the
    frame ends the run in ValueError with nothing shown; with two columns
    the plot is shown when seaborn returns, and the exception seaborn raises
    ends the run with nothing shown. *)
Theorem main_report_run (fs : filesystem) (w : world) (df : loc)
  (d : DataFrame) :
  heap w !! df = Some d ->
  let h' := heap w ++ [DF.select_dtypes_number d] in
  (forall stdin,
      data (DF.select_dtypes_number d) = [] ->
      main_report fs df stdin w
      = (Raise ValueError, mkWorld h' (console w ++ [Stdout MsgStatsHeader]))) /\
  (forall plot_type x_column y_column rest,
      data (DF.select_dtypes_number d) <> [] ->
      let run :=
        main_report fs df (plot_type :: x_column :: y_column :: rest) w in
      let shown := console w ++ report_messages d in
      (plot_kind_of (Str.lower plot_type) = None ->
       run = (Ok tt, mkWorld h' (shown ++ [Stdout MsgInvalidPlot]))) /\
      (forall kind,
          plot_kind_of (Str.lower plot_type) = Some kind ->
          (~ (In x_column (DF.columns d) /\ In y_column (DF.columns d)) ->
           run = (Raise ValueError, mkWorld h' shown)) /\
          (In x_column (DF.columns d) -> In y_column (DF.columns d) ->
           (forall u, seaborn fs kind d x_column y_column = Ok u ->
              run = (Ok tt,
                     mkWorld h' (shown ++ [Plot kind d x_column y_column]))) /\
           (forall e, seaborn fs kind d x_column y_column = Raise e ->
              run = (Raise e, mkWorld h' shown))))).
Proof.
  intros Hdf h'. split.
  - intros stdin Hnone. apply main_report_without_numbers; assumption.
  - intros plot_type x_column y_column rest Hsome run shown.
    subst run. rewrite (main_report_eq fs w df d) by assumption.
    cbv zeta. fold h' shown. split.
    + intros ->. reflexivity.
    + intros kind ->. split.
      * intros Hnot.
        destruct (existsb (String.eqb x_column) (DF.columns d)
                  && existsb (String.eqb y_column) (DF.columns d)) eqn:E;
          [|reflexivity].
        apply both_columns in E. contradiction.
      * intros Hx Hy.
        rewrite (proj2 (both_columns d x_column y_column) (conj Hx Hy)).
        split; [intros u -> | intros e ->]; reflexivity.
Qed.

(** The theorem on a frame of names only and on the cleaned example: a box
    plot that seaborn draws, and a name that is no column. *)
Lemma main_report_run_witness :
  main_report Sample.disk 0 ["scatter"; "a"; "b"]
    (mkWorld [Sample.names_only] [])
  = (Raise ValueError,
     mkWorld ([Sample.names_only]
              ++ [DF.select_dtypes_number Sample.names_only])
             ([] ++ [Stdout MsgStatsHeader])) /\
  main_report Sample.disk 0 ["BoxPlot"; "age"; "name"]
    (mkWorld [Sample.people_cleaned] [])
  = (Ok tt,
     mkWorld ([Sample.people_cleaned]
              ++ [DF.select_dtypes_number Sample.people_cleaned])
       (([] ++ report_messages Sample.people_cleaned)
        ++ [Plot Boxplot Sample.people_cleaned "age" "name"])) /\
  main_report Sample.disk 0 ["scatter"; "age"; "nope"]
    (mkWorld [Sample.people_cleaned] [])
  = (Raise ValueError,
     mkWorld ([Sample.people_cleaned]
              ++ [DF.select_dtypes_number Sample.people_cleaned])
       ([] ++ report_messages Sample.people_cleaned)).
Proof.
  destruct (main_report_run Sample.disk (mkWorld [Sample.names_only] []) 0
              Sample.names_only eq_refl) as [Hnone _].
  destruct (main_report_run Sample.disk (mkWorld [Sample.people_cleaned] []) 0
              Sample.people_cleaned eq_refl) as [_ Hsome].
  split; [apply Hnone; reflexivity|]. split.
  - destruct (Hsome "BoxPlot" "age" "name" []) as [_ H]; [discriminate|].
    destruct (H Boxplot eq_refl) as [_ Hboth].
    apply (proj1 (Hboth ltac:(simpl; auto) ltac:(simpl; auto)) tt).
    reflexivity.
  - destruct (Hsome "scatter" "age" "nope" []) as [_ H]; [discriminate|].
    destruct (H Scatter eq_refl) as [Hnot _].
    apply Hnot. intros [_ [E|[E|[]]]]; discriminate.
Defined.

(** ** Overflow in the outlier bounds *)

(** [remove_outliers] can remove every row of a frame that has rows and no
    missing value.  On the float64 column [-1e308, 1e308] the difference of
    the two values overflows: Q1 is +inf, Q3 is -inf, the lower bound is
    +inf and the upper bound -inf, no value passes the test of line 32, and
    the frame returned has no row. *)
Theorem remove_outliers_can_remove_every_row :
  DF.wf Sample.wide /\ complete Sample.wide /\ DF.shape0 Sample.wide = 2 /\
  (exists vals,
      DF.getitem Sample.wide "x" = Some (NumCol Num.Float64 vals) /\
      Num.quantile Num.Float64 vals Num.f0_25 = SpecFloat.S754_infinity false /\
      Num.quantile Num.Float64 vals Num.f0_75 = SpecFloat.S754_infinity true /\
      Num.outlier_bounds Num.Float64 vals
      = (SpecFloat.S754_infinity false, SpecFloat.S754_infinity true) /\
      Num.between_mask vals (Num.outlier_bounds Num.Float64 vals)
      = [false; false]) /\
  exists (out : loc) (w' : world) (result : DataFrame),
    remove_outliers 0 (mkWorld [Sample.wide] []) = (Ok out, w') /\
    heap w' !! out = Some result /\
    DF.shape0 result = 0.
Proof.
  split; [prove_wf|]. split; [repeat constructor|]. split; [reflexivity|].
  split.
  - eexists. split; [reflexivity|]. repeat split; vm_compute; reflexivity.
  - eexists _, _, _. split; [vm_compute; reflexivity|].
    split; vm_compute; reflexivity.
Qed.

(** ** Columns without numbers *)

Lemma select_none {A} (l : list A) (n : nat) :
  DF.select (repeat false n) l = [].
Proof.
  revert l. induction n as [|n IH]; intros [|x l]; simpl; auto.
Qed.

Lemma fle_nan_r (x : Num.float64) : Num.fle x Num.nan = false.
Proof. destruct x; reflexivity. Qed.

(** A numeric column that holds no number (it is empty, or all its cells are
    NaN) has NaN quartiles and NaN bounds; a bound that is NaN lets no value
    pass the test of line 32; and so the pass of such a column leaves the
    frame without rows. *)
Theorem outlier_bounds_without_numbers (dt : Num.dtype)
  (vals : list Num.number) :
  Num.present vals = [] ->
  Num.quantile dt vals Num.f0_25 = Num.nan /\
  Num.quantile dt vals Num.f0_75 = Num.nan /\
  Num.outlier_bounds dt vals = (Num.nan, Num.nan) /\
  (forall (cells : list Num.number) (bounds : Num.float64 * Num.float64),
      fst bounds = Num.nan \/ snd bounds = Num.nan ->
      Num.between_mask cells bounds = repeat false (length cells)) /\
  (forall (d : DataFrame) (c : string),
      DF.getitem d c = Some (NumCol dt vals) ->
      DF.shape0 (outlier_pass d c) = 0).
Proof.
  intros Hnone.
  assert (Hq : forall q, Num.quantile dt vals q = Num.nan).
  { intros q. unfold Num.quantile. rewrite Hnone. reflexivity. }
  assert (Hb : Num.outlier_bounds dt vals = (Num.nan, Num.nan)).
  { unfold Num.outlier_bounds. rewrite !Hq. reflexivity. }
  assert (Hmask : forall (cells : list Num.number)
                         (bounds : Num.float64 * Num.float64),
             fst bounds = Num.nan \/ snd bounds = Num.nan ->
             Num.between_mask cells bounds = repeat false (length cells)).
  { intros cells bounds Hnan. unfold Num.between_mask.
    induction cells as [|x t IH]; simpl; [reflexivity|].
    rewrite IH. f_equal.
    destruct Hnan as [-> | ->]; [reflexivity|].
    rewrite fle_nan_r. apply andb_false_r. }
  split; [apply Hq|]. split; [apply Hq|]. split; [exact Hb|].
  split; [exact Hmask|].
  intros d c Hget. unfold outlier_pass. rewrite Hget, Hb.
  rewrite Hmask by (left; reflexivity).
  unfold DF.shape0, DF.getitem_mask. simpl. rewrite select_none.
  reflexivity.
Qed.

(** The theorem on a float64 column of two NaN. *)
Lemma outlier_bounds_without_numbers_witness :
  Num.outlier_bounds Num.Float64 [None; None] = (Num.nan, Num.nan) /\
  Num.between_mask [None; None] (Num.outlier_bounds Num.Float64 [None; None])
  = [false; false].
Proof.
  destruct (outlier_bounds_without_numbers Num.Float64 [None; None] eq_refl)
    as (_ & _ & Hb & Hmask & _).
  split; [exact Hb|]. rewrite Hb. apply (Hmask [None; None]). left.
  reflexivity.
Defined.

(** ** The extremes of a column *)

Lemma insert_sorted_Forall (P : Q -> Prop) (x : Q) (l : list Q) :
  P x -> Forall P l -> Forall P (Num.insert_sorted x l).
Proof.
  intros Hx Hl. induction Hl as [|y t Hy Ht IH]; simpl.
  - repeat constructor. exact Hx.
  - destruct (Qle_bool x y); repeat constructor; assumption.
Qed.

Lemma insert_sorted_ascending (x : Q) (l : list Q) :
  ascending l -> ascending (Num.insert_sorted x l).
Proof.
  induction l as [|y t IH]; simpl; [auto|].
  intros [Hy Ht]. destruct (Qle_bool x y) eqn:E; simpl.
  - apply Qle_bool_iff in E. split; [|auto].
    constructor; [exact E|].
    eapply Forall_impl; [exact Hy|]. intros z Hz. simpl in Hz.
    eapply Qle_trans; eassumption.
  - split; [|apply IH, Ht].
    apply insert_sorted_Forall; [|exact Hy].
    destruct (Qlt_le_dec y x) as [Hlt|Hle]; [apply Qlt_le_weak, Hlt|].
    apply Qle_bool_iff in Hle. congruence.
Qed.

Lemma sort_ascending (l : list Q) : ascending (Num.sort l).
Proof.
  induction l as [|x t IH]; simpl; [exact I|].
  apply insert_sorted_ascending, IH.
Qed.

Lemma length_insert_sorted (x : Q) (l : list Q) :
  length (Num.insert_sorted x l) = S (length l).
Proof.
  induction l as [|y t IH]; simpl; [reflexivity|].
  destruct (Qle_bool x y); simpl; [reflexivity | rewrite IH; reflexivity].
Qed.

Lemma length_sort (l : list Q) : length (Num.sort l) = length l.
Proof.
  induction l as [|x t IH]; simpl; [reflexivity|].
  rewrite length_insert_sorted, IH. reflexivity.
Qed.

Lemma insert_sorted_In (x y : Q) (l : list Q) :
  In y (Num.insert_sorted x l) <-> x = y \/ In y l.
Proof.
  induction l as [|z t IH]; simpl; [tauto|].
  destruct (Qle_bool x z); simpl; [tauto|]. rewrite IH. tauto.
Qed.

Lemma sort_In (y : Q) (l : list Q) : In y (Num.sort l) <-> In y l.
Proof.
  induction l as [|x t IH]; simpl; [tauto|].
  rewrite insert_sorted_In, IH. split; intros [H|H]; auto.
Qed.

Lemma present_In (vals : list Num.number) (x : Q) :
  In x (Num.present vals) <-> In (Some x) vals.
Proof.
  induction vals as [|[v|] t IH]; simpl; [tauto| |].
  - rewrite IH. split; intros [H|H]; auto; [left; congruence|].
    left. congruence.
  - rewrite IH. split; [auto|]. intros [H|H]; [discriminate | exact H].
Qed.

Lemma ascending_nth (l : list Q) (x0 : Q) :
  ascending l ->
  forall i j, i <= j -> j < length l -> (nth i l x0 <= nth j l x0)%Q.
Proof.
  induction l as [|x t IH]; simpl; intros Hasc i j Hij Hj; [lia|].
  destruct Hasc as [Hx Ht]. destruct i as [|i], j as [|j]; try lia.
  - apply Qle_refl.
  - rewrite List.Forall_forall in Hx. apply Hx, List.nth_In. lia.
  - apply IH; [exact Ht | lia | lia].
Qed.

(** The summary that [describe] gives for a numeric column counts the
    values of the column that are not NaN.  When there is one, [min] and
    [max] are the smallest and the largest value of the column, cast to
    float64.  For a column that holds no number the count is 0 and every
    other entry is NaN. *)
Theorem describe_column_extremes (dt : Num.dtype) (vals : list Num.number) :
  let s := Stats.describe_column dt vals in
  Stats.count s = length (Num.present vals) /\
  (Num.present vals <> [] ->
   exists mn mx : Q,
     In (Some mn) vals /\ In (Some mx) vals /\
     Stats.min s = Num.of_Q mn /\ Stats.max s = Num.of_Q mx /\
     forall x, In (Some x) vals -> (mn <= x)%Q /\ (x <= mx)%Q) /\
  (Num.present vals = [] ->
   s = Stats.mkSummary 0 Num.nan Num.nan Num.nan Num.nan Num.nan).
Proof.
  cbv zeta. split; [apply length_sort|]. split.
  - intros Hne. unfold Stats.describe_column. simpl.
    pose proof (sort_ascending (Num.present vals)) as Hasc.
    pose proof (length_sort (Num.present vals)) as Hlen.
    pose proof (sort_In) as HIn.
    destruct (Num.sort (Num.present vals)) as [|x0 t] eqn:E.
    { destruct (Num.present vals); [congruence | discriminate]. }
    set (xs := x0 :: t) in *.
    exists x0, (nth (length xs - 1) xs x0).
    assert (Hin : forall y, In y xs <-> In (Some y) vals).
    { intros y. rewrite <- present_In, <- (sort_In y (Num.present vals)), E.
      reflexivity. }
    split; [apply Hin; left; reflexivity|].
    split; [apply Hin, List.nth_In; simpl; lia|].
    split; [reflexivity|]. split; [reflexivity|].
    intros x Hx. apply Hin in Hx.
    destruct (List.In_nth xs x x0 Hx) as (i & Hi & <-). split.
    + change x0 with (nth 0 xs x0) at 1.
      apply ascending_nth; [exact Hasc | lia | exact Hi].
    + apply ascending_nth; [exact Hasc | lia | simpl; lia].
  - intros Hnone. unfold Stats.describe_column, Num.quantile.
    rewrite Hnone. reflexivity.
Qed.

(** The theorem on the ages of the example. *)
Lemma describe_column_extremes_witness :
  exists mn mx : Q,
    Stats.min (Stats.describe_column Num.Int64
                 [Some 25%Q; Some 200%Q; Some 30%Q]) = Num.of_Q mn /\
    Stats.max (Stats.describe_column Num.Int64
                 [Some 25%Q; Some 200%Q; Some 30%Q]) = Num.of_Q mx /\
    (mn <= 25)%Q /\ (200 <= mx)%Q.
Proof.
  destruct (proj1 (proj2 (describe_column_extremes Num.Int64
                            [Some 25%Q; Some 200%Q; Some 30%Q])))
    as (mn & mx & _ & _ & Hmn & Hmx & Hall); [discriminate|].
  exists mn, mx. split; [exact Hmn|]. split; [exact Hmx|].
  split; [apply (Hall 25%Q) | apply (Hall 200%Q)]; simpl; auto.
Defined.

(** ** Rows that survive the cleaning *)

(** If the cleaning stages leave a row, the frame loaded has a row without a
    missing value.  The converse fails: the two rows of [Sample.wide] have
    no missing value and the cleaning leaves neither. *)
Theorem cleaning_rows_were_complete (d : DataFrame) :
  DF.wf d ->
  (1 <= DF.shape0 (cleaning d) ->
   exists r, In r (DF.rows d) /\ row_complete r = true) /\
  (forallb row_complete (DF.rows Sample.wide) = true /\
   DF.shape0 Sample.wide = 2 /\
   DF.shape0 (cleaning Sample.wide) = 0).
Proof.
  intros Hwf. split; [|repeat split; vm_compute; reflexivity].
  destruct (dropna_rows_holds d Hwf) as (Hrows & _ & Hwf1).
  assert (Hlen1 : DF.shape0 (DF.dropna d)
                  = length (List.filter row_complete (DF.rows d))).
  { rewrite <- Hrows. symmetry. apply length_rows. }
  intros H.
  assert (Hle : DF.shape0 (cleaning d) <= DF.shape0 (DF.dropna d)).
  { unfold cleaning, DF.shape0. rewrite index_clean_strings_passes.
    etransitivity; [apply shape0_getitem_mask_le|].
    apply shape0_outlier_passes_le. }
  destruct (List.filter row_complete (DF.rows d)) as [|r t] eqn:E;
    [simpl in Hlen1; lia|].
  exists r.
  assert (Hin : In r (List.filter row_complete (DF.rows d)))
    by (rewrite E; left; reflexivity).
  apply List.filter_In in Hin. exact Hin.
Qed.

(** The theorem on the example of the specification. *)
Lemma cleaning_rows_were_complete_witness :
  exists r, In r (DF.rows Sample.people) /\ row_complete r = true.
Proof.
  apply (proj1 (cleaning_rows_were_complete Sample.people ltac:(prove_wf))).
  vm_compute. lia.
Defined.

(** ** [main] when it ends without an exception *)

Lemma main_report_short (fs : filesystem) (w : world) (df : loc)
  (d : DataFrame) (stdin : list string) :
  heap w !! df = Some d ->
  length stdin < 3 ->
  exists e w', main_report fs df stdin w = (Raise e, w').
Proof.
  intros Hdf Hlen. unfold main_report.
  unfold bind at 1, print, emit at 1. cbn [heap console].
  unfold bind at 1.
  rewrite (calculate_stats_eq _ df d) by exact Hdf. cbv zeta.
  destruct (Stats.describe (DF.select_dtypes_number d)) as [stats|];
    [|eauto].
  cbn [heap console].
  set (h' := heap w ++ [DF.select_dtypes_number d]).
  assert (Hdf' : h' !! df = Some d) by apply lookup_snoc_old, Hdf.
  do 2 (unfold bind at 1, print, emit at 1; cbn [heap console]).
  unfold bind at 1, Obj.head, bind at 1, load at 1. cbn [heap console].
  rewrite Hdf'. unfold ret at 1.
  unfold bind at 1, print, emit at 1. cbn [heap console].
  unfold bind at 1.
  match goal with |- context [Obj.columns df ?w1] =>
    rewrite (columns_run w1 df d Hdf') end.
  unfold bind at 1, print, emit at 1. cbn [heap console].
  unfold input, bind, emit, raise. cbn [heap console].
  destruct stdin as [|p [|x [|y rest]]]; simpl in Hlen; try lia; eauto.
Qed.

(** If [main] ends without an exception, then a frame [d] was read; the
    menu returned a frame [d'] made from [cleaning d] by dropping columns
    and zeroing negatives; [d'] has a numeric column; [d'] was exported under
    the clean path of the file name as typed; and the last thing done was to
    show a plot of [d'] or to report an unknown plot type. *)
Theorem main_ends_well (fs : filesystem) (fileName : string)
  (stdin : list string) (w w' : world) :
  (forall d rest, loaded_frame fs fileName stdin = Some (d, rest) -> DF.wf d) ->
  main fs (fileName :: stdin) w = (Ok tt, w') ->
  exists (d d' : DataFrame) (stdin1 : list string) (before : list event)
         (last : event),
    loaded_frame fs fileName stdin = Some (d, stdin1) /\
    menu_result (cleaning d) d' /\
    data (DF.select_dtypes_number d') <> [] /\
    (In (ToCsv (clean_path_csv fileName) d') (console w') \/
     In (ToExcel (clean_path_excel fileName) "Sheet1" d') (console w')) /\
    console w' = before ++ [last] /\
    (last = Stdout MsgInvalidPlot \/
     exists kind x_column y_column, last = Plot kind d' x_column y_column).
Proof.
  intros Hwf Hmain.
  destruct (loaded_frame fs fileName stdin) as [[d stdin1]|] eqn:Hload.
  2:{ destruct (main_failed_load_holds fs fileName stdin w Hload)
        as (asked & m & _ & _ & H). rewrite H in Hmain. discriminate. }
  specialize (Hwf d stdin1 eq_refl).
  destruct (main_loaded_holds fs fileName stdin stdin1 d w Hload)
    as (working & h & asked & _ & Hworking & Hrun).
  rewrite Hrun in Hmain. clear Hrun. unfold bind in Hmain.
  match type of Hmain with context [optional_operations ?l ?f ?s ?w0] =>
    set (w1 := w0) in *
  end.
  destruct (optional_operations working fileName stdin1 w1)
    as [[[out rest]|e] w2] eqn:Hoo; [|discriminate].
  cbn [fst snd] in Hmain.
  destruct (cleaning_invariant d Hwf) as [Hwfc Hnan].
  destruct (optional_operations_returns_holds w1 w2 working out (cleaning d)
              fileName stdin1 rest Hworking Hwfc Hnan Hoo)
    as (d' & shown & Hout & Hres & Hexp & _).
  assert (Hnum : data (DF.select_dtypes_number d') <> []).
  { intros E.
    rewrite (main_report_without_numbers fs w2 out d' rest Hout E) in Hmain.
    discriminate. }
  assert (Hlong : exists p x y rest', rest = p :: x :: y :: rest').
  { destruct rest as [|p [|x [|y rest']]]; eauto;
      match type of Hmain with main_report _ _ ?s _ = _ =>
        destruct (main_report_short fs w2 out d' s Hout) as (e & w3 & H);
          [simpl; lia | rewrite H in Hmain; discriminate]
      end. }
  destruct Hlong as (p & x & y & rest' & ->).
  rewrite (main_report_eq fs w2 out d' p x y rest' Hout Hnum) in Hmain.
  cbv zeta in Hmain. unfold report_messages in Hmain.
  set (before :=
    console w2 ++
    [Stdout MsgStatsHeader;
     Stdout (MsgStats (Stats.describe_columns
                         (data (DF.select_dtypes_number d'))));
     Stdout MsgVisualizationHeader;
     Stdout (MsgPreview (DF.getitem_mask d' (repeat true 5)));
     Stdout (MsgFeatureList (DF.columns d'));
     Prompt AskPlotType; Prompt AskX; Prompt AskY]) in *.
  assert (Hend : exists last,
            console w' = before ++ [last] /\
            (last = Stdout MsgInvalidPlot \/
             exists kind x_column y_column,
               last = Plot kind d' x_column y_column)).
  { destruct (plot_kind_of (Str.lower p)) as [kind|].
    - destruct (existsb (String.eqb x) (DF.columns d')
                && existsb (String.eqb y) (DF.columns d'));
        [|discriminate].
      destruct (seaborn fs kind d' x y) as [u|e]; [|discriminate].
      injection Hmain as <-. eexists. split; [reflexivity|].
      right. eauto.
    - injection Hmain as <-. eexists. split; [reflexivity|]. left.
      reflexivity. }
  destruct Hend as (last & Hcons & Hlast).
  exists d, d', stdin1, before, last.
  split; [reflexivity|]. split; [exact Hres|]. split; [exact Hnum|].
  split; [|split; [exact Hcons | exact Hlast]].
  rewrite Hcons. subst before.
  destruct Hexp as [E|E]; [left | right]; rewrite E;
    rewrite <- !app_assoc; apply List.in_or_app; right; left; reflexivity.
Qed.

(** The theorem on the session of the example. *)
Lemma main_ends_well_witness :
  exists (d d' : DataFrame) (stdin1 : list string),
    loaded_frame Sample.disk "people.csv"
      ["0"; "csv"; "scatter"; "age"; "name"] = Some (d, stdin1) /\
    menu_result (cleaning d) d' /\
    (In (ToCsv (clean_path_csv "people.csv") d')
        (console (snd (main Sample.disk Sample.session Sample.empty_world))) \/
     In (ToExcel (clean_path_excel "people.csv") "Sheet1" d')
        (console (snd (main Sample.disk Sample.session Sample.empty_world)))).
Proof.
  destruct (main_ends_well Sample.disk "people.csv"
              ["0"; "csv"; "scatter"; "age"; "name"] Sample.empty_world
              (snd (main Sample.disk Sample.session Sample.empty_world)))
    as (d & d' & stdin1 & before & last & H1 & H2 & _ & H4 & _).
  - intros d rest H. vm_compute in H. injection H as <- _. prove_wf.
  - vm_compute. reflexivity.
  - exists d, d', stdin1. auto.
Defined.
